(** * auto-update-tfc: the incremental crawl / dedup / upsert pipeline

    A shallow embedding of [main.py] and [es_Upload.py].

    - Python [str] values are sequences of Unicode code points ([pystr]);
      [str.strip], [re]'s [\s] and [\d] follow the Unicode tables of the
      interpreter (Unicode 14.0.0, CPython 3.11).
    - dictionaries are association lists in insertion order;
    - the file system (history file, backup ledger), the clock, the random
      source, the HTTP transport, the tokenizer, the embedding provider, the
      environment variables and the Elasticsearch client are the fields of a
      [World]; what the code changes is threaded through explicit state
      records;
    - a raised exception is the [Raise] branch of a result; the state
      reached when it was raised is kept, as Python keeps mutations. *)

From Stdlib Require Import Ascii String ZArith NArith Bool Lia Arith List.
Import ListNotations.

Set Implicit Arguments.
Set Warnings "-register-all,-abstract-large-number".

(* ================================================================== *)
(** * Part I. Definitions *)
(* ================================================================== *)

(** ** Python strings *)

Module Str.

Definition pystr := list N.

(** An ASCII literal as a Python string. *)
Definition py (s : string) : pystr := map N_of_ascii (list_ascii_of_string s).

Fixpoint eqb (a b : pystr) : bool :=
  match a, b with
  | [], [] => true
  | x :: a', y :: b' => N.eqb x y && eqb a' b'
  | _, _ => false
  end.

(** Truthiness of a [str]. *)
Definition nonempty (s : pystr) : bool :=
  match s with [] => false | _ => true end.

(** [str.isspace] of one character, which is also what [str.strip()] removes
    and what [\s] matches in a [str] pattern. *)
Definition whitespace_table : list N :=
  [9; 10; 11; 12; 13; 28; 29; 30; 31; 32; 133; 160; 5760;
   8192; 8193; 8194; 8195; 8196; 8197; 8198; 8199; 8200; 8201; 8202;
   8232; 8233; 8239; 8287; 12288]%N.

Definition isspace (c : N) : bool := existsb (N.eqb c) whitespace_table.

(** The code points of general category Nd come in runs of ten, each run the
    digits 0 to 9 in order; the table lists the first code point of each run.
    [\d] in a [str] pattern matches exactly these, and [int()] reads them. *)
Definition decimal_runs : list N :=
  [48; 1632; 1776; 1984; 2406; 2534; 2662; 2790; 2918; 3046; 3174; 3302;
   3430; 3558; 3664; 3792; 3872; 4160; 4240; 6112; 6160; 6470; 6608; 6784;
   6800; 6992; 7088; 7232; 7248; 42528; 43216; 43264; 43472; 43504; 43600;
   44016; 65296; 66720; 68912; 69734; 69872; 69942; 70096; 70384; 70736;
   70864; 71248; 71360; 71472; 71904; 72016; 72784; 73040; 73120; 92768;
   92864; 93008; 120782; 120792; 120802; 120812; 120822; 123200; 123632;
   125264; 130032]%N.

Definition digit_value (c : N) : option Z :=
  match find (fun s => (s <=? c)%N && (c <? s + 10)%N) decimal_runs with
  | Some s => Some (Z.of_N (c - s))
  | None => None
  end.

Definition isdecimal (c : N) : bool :=
  match digit_value c with Some _ => true | None => false end.

Definition is_ascii_range (lo hi : string) (c : N) : bool :=
  match py lo, py hi with
  | [l], [h] => (l <=? c)%N && (c <=? h)%N
  | _, _ => false
  end.

Fixpoint dropwhile (p : N -> bool) (s : pystr) : pystr :=
  match s with
  | [] => []
  | c :: s' => if p c then dropwhile p s' else s
  end.

Definition lstrip (s : pystr) : pystr := dropwhile isspace s.
Definition rstrip (s : pystr) : pystr := rev (dropwhile isspace (rev s)).
(** [s.strip()] *)
Definition strip (s : pystr) : pystr := rstrip (lstrip s).

Fixpoint startswith (s prefix : pystr) : bool :=
  match prefix, s with
  | [], _ => true
  | p :: prefix', c :: s' => N.eqb p c && startswith s' prefix'
  | _ :: _, [] => false
  end.

(** [sub in s] *)
Fixpoint contains (sub s : pystr) : bool :=
  startswith s sub ||
  match s with
  | [] => false
  | _ :: s' => contains sub s'
  end.

(** [s.replace(old, new)] for a non-empty [old]: occurrences are replaced
    from the left and do not overlap. [skip] counts the characters of an
    occurrence still to be passed over. *)
Fixpoint replace_from (old new : pystr) (skip : nat) (s : pystr) : pystr :=
  match s with
  | [] => []
  | c :: s' =>
      match skip with
      | S k => replace_from old new k s'
      | O =>
          if startswith s old
          then new ++ replace_from old new (length old - 1) s'
          else c :: replace_from old new 0 s'
      end
  end.

Definition replace (old new s : pystr) : pystr := replace_from old new 0 s.

(** [sep.join(parts)] *)
Fixpoint join (sep : pystr) (parts : list pystr) : pystr :=
  match parts with
  | [] => []
  | [p] => p
  | p :: rest => p ++ sep ++ join sep rest
  end.

(** [s[-n:]] *)
Definition last_chars (n : nat) (s : pystr) : pystr := skipn (length s - n) s.

(** [s.zfill(width)]: zeros go after a leading sign. *)
Definition zfill (width : nat) (s : pystr) : pystr :=
  let zeros := repeat 48%N (width - length s) in
  match s with
  | c :: s' => if N.eqb c 43 || N.eqb c 45 then c :: zeros ++ s' else zeros ++ s
  | [] => zeros
  end.

Fixpoint uint_chars (d : Decimal.uint) : pystr :=
  match d with
  | Decimal.Nil => []
  | Decimal.D0 d => 48%N :: uint_chars d
  | Decimal.D1 d => 49%N :: uint_chars d
  | Decimal.D2 d => 50%N :: uint_chars d
  | Decimal.D3 d => 51%N :: uint_chars d
  | Decimal.D4 d => 52%N :: uint_chars d
  | Decimal.D5 d => 53%N :: uint_chars d
  | Decimal.D6 d => 54%N :: uint_chars d
  | Decimal.D7 d => 55%N :: uint_chars d
  | Decimal.D8 d => 56%N :: uint_chars d
  | Decimal.D9 d => 57%N :: uint_chars d
  end.

(** [str(n)] of an [int]. *)
Definition str_of_int (n : Z) : pystr :=
  match n with
  | Zneg p => 45%N :: uint_chars (Pos.to_uint p)
  | _ => uint_chars (N.to_uint (Z.to_N n))
  end.

(** [int(s)] of a string of decimal digits (the only strings the modelled
    code passes to it); anything else is a [ValueError], here [None]. *)
Fixpoint int_of_digits_from (acc : Z) (s : pystr) : option Z :=
  match s with
  | [] => Some acc
  | c :: s' =>
      match digit_value c with
      | Some d => int_of_digits_from (10 * acc + d) s'
      | None => None
      end
  end.

Definition int_of_digits (s : pystr) : option Z :=
  match s with
  | [] => None
  | _ => int_of_digits_from 0 s
  end.

Definition hex_value (c : N) : option Z :=
  if is_ascii_range "0" "9" c then Some (Z.of_N (c - 48))
  else if is_ascii_range "a" "f" c then Some (Z.of_N (c - 87))
  else if is_ascii_range "A" "F" c then Some (Z.of_N (c - 55))
  else None.

(** [int(s, 16)] of a string of hexadecimal digits. *)
Fixpoint int_of_hex_from (acc : Z) (s : pystr) : option Z :=
  match s with
  | [] => Some acc
  | c :: s' =>
      match hex_value c with
      | Some d => int_of_hex_from (16 * acc + d) s'
      | None => None
      end
  end.

Definition int_of_hex (s : pystr) : option Z :=
  match s with
  | [] => None
  | _ => int_of_hex_from 0 s
  end.

(** [s.encode('utf-8')]: a lone surrogate (or a value that is no code point)
    is a [UnicodeEncodeError], here [None]. *)
Definition utf8_char (c : N) : option (list Z) :=
  let z := Z.of_N c in
  if (z <? 128)%Z then Some [z]
  else if (z <? 2048)%Z then
    Some [Z.lor 192 (Z.shiftr z 6); Z.lor 128 (Z.land z 63)]
  else if (z <? 65536)%Z then
    if (55296 <=? z)%Z && (z <=? 57343)%Z then None
    else Some [Z.lor 224 (Z.shiftr z 12);
               Z.lor 128 (Z.land (Z.shiftr z 6) 63);
               Z.lor 128 (Z.land z 63)]
  else if (z <? 1114112)%Z then
    Some [Z.lor 240 (Z.shiftr z 18);
          Z.lor 128 (Z.land (Z.shiftr z 12) 63);
          Z.lor 128 (Z.land (Z.shiftr z 6) 63);
          Z.lor 128 (Z.land z 63)]
  else None.

Fixpoint utf8_encode (s : pystr) : option (list Z) :=
  match s with
  | [] => Some []
  | c :: s' =>
      match utf8_char c, utf8_encode s' with
      | Some b, Some bs => Some (b ++ bs)
      | _, _ => None
      end
  end.

End Str.

Abbreviation pystr := Str.pystr.
Abbreviation py := Str.py.

(** ** Python values and dictionaries *)

(** [VFloat] carries the IEEE-754 bits of a float: the code only stores and
    forwards the components of an embedding. *)
Inductive pyval : Type :=
| VNone
| VBool (b : bool)
| VInt (n : Z)
| VFloat (bits : Z)
| VStr (s : pystr)
| VList (l : list pyval)
| VTuple (l : list pyval)
| VDict (d : list (pystr * pyval)).

Definition dict := list (pystr * pyval).

Module Dict.

Definition keys (d : dict) : list pystr := map fst d.

(** [d.get(k)] / [d[k]] *)
Fixpoint get (d : dict) (k : pystr) : option pyval :=
  match d with
  | [] => None
  | (k', v) :: d' => if Str.eqb k' k then Some v else get d' k
  end.

(** [k in d] *)
Definition has (d : dict) (k : pystr) : bool :=
  match get d k with Some _ => true | None => false end.

(** [d.get(k, default)] *)
Definition get_default (d : dict) (k : pystr) (default : pyval) : pyval :=
  match get d k with Some v => v | None => default end.

(** [d[k] = v]: an existing key keeps its place, a new one goes last. *)
Fixpoint set (d : dict) (k : pystr) (v : pyval) : dict :=
  match d with
  | [] => [(k, v)]
  | (k', v') :: d' =>
      if Str.eqb k' k then (k', v) :: d' else (k', v') :: set d' k v
  end.

End Dict.

(** [bool(v)] *)
Definition truthy (v : pyval) : bool :=
  match v with
  | VNone => false
  | VBool b => b
  | VInt n => negb (Z.eqb n 0)
  | VFloat bits => negb (Z.eqb (Z.land bits (2 ^ 63 - 1)) 0)
  | VStr s => Str.nonempty s
  | VList l | VTuple l => match l with [] => false | _ => true end
  | VDict d => match d with [] => false | _ => true end
  end.

(** [v == s] for a [str] [s]: only an equal [str] is equal to it. *)
Definition eq_str (v : pyval) (s : pystr) : bool :=
  match v with
  | VStr s' => Str.eqb s' s
  | _ => false
  end.

(** A null at any depth of a value. *)
Fixpoint has_null (v : pyval) : bool :=
  match v with
  | VNone => true
  | VList l | VTuple l => existsb has_null l
  | VDict d => existsb (fun kv => let '(_, x) := kv in has_null x) d
  | _ => false
  end.

(** [json.loads(json.dumps(v))]: a tuple comes back as a list and a NaN as
    the NaN of [float('nan')]; every other value comes back as it was. *)
Definition is_nan (bits : Z) : bool :=
  (Z.land (Z.shiftr bits 52) 2047 =? 2047)%Z
  && negb (Z.land bits (2 ^ 52 - 1) =? 0)%Z.

Fixpoint json_reload (v : pyval) : pyval :=
  match v with
  | VFloat bits => if is_nan bits then VFloat (2047 * 2 ^ 52 + 2 ^ 51) else v
  | VList l | VTuple l => VList (map json_reload l)
  | VDict d => VDict (map (fun kv => let '(k, x) := kv in (k, json_reload x)) d)
  | _ => v
  end.

(** ** Raised exceptions and results *)

Inductive exn : Type :=
| KeyError (key : pystr)
| IndexError
| AttributeError
| TypeError
| ValueError
| UnicodeEncodeError
| CollaboratorError (detail : pystr).  (* raised inside a collaborator: store, transport, tokenizer, provider *)

Inductive res (A : Type) : Type :=
| Ok (a : A)
| Raise (e : exn).
Arguments Ok {A} a.
Arguments Raise {A} e.

(** ** hashlib.md5 (RFC 1321) *)

Module MD5.

Local Open Scope Z_scope.

Definition w32 (x : Z) : Z := Z.land x 0xffffffff.

Definition rotl (x c : Z) : Z :=
  w32 (Z.lor (Z.shiftl x c) (Z.shiftr x (32 - c))).

Definition K : list Z :=
  [0xd76aa478; 0xe8c7b756; 0x242070db; 0xc1bdceee; 0xf57c0faf; 0x4787c62a;
   0xa8304613; 0xfd469501; 0x698098d8; 0x8b44f7af; 0xffff5bb1; 0x895cd7be;
   0x6b901122; 0xfd987193; 0xa679438e; 0x49b40821; 0xf61e2562; 0xc040b340;
   0x265e5a51; 0xe9b6c7aa; 0xd62f105d; 0x02441453; 0xd8a1e681; 0xe7d3fbc8;
   0x21e1cde6; 0xc33707d6; 0xf4d50d87; 0x455a14ed; 0xa9e3e905; 0xfcefa3f8;
   0x676f02d9; 0x8d2a4c8a; 0xfffa3942; 0x8771f681; 0x6d9d6122; 0xfde5380c;
   0xa4beea44; 0x4bdecfa9; 0xf6bb4b60; 0xbebfbc70; 0x289b7ec6; 0xeaa127fa;
   0xd4ef3085; 0x04881d05; 0xd9d4d039; 0xe6db99e5; 0x1fa27cf8; 0xc4ac5665;
   0xf4292244; 0x432aff97; 0xab9423a7; 0xfc93a039; 0x655b59c3; 0x8f0ccc92;
   0xffeff47d; 0x85845dd1; 0x6fa87e4f; 0xfe2ce6e0; 0xa3014314; 0x4e0811a1;
   0xf7537e82; 0xbd3af235; 0x2ad7d2bb; 0xeb86d391].

Definition shifts : list Z :=
  [7; 12; 17; 22; 7; 12; 17; 22; 7; 12; 17; 22; 7; 12; 17; 22;
   5; 9; 14; 20; 5; 9; 14; 20; 5; 9; 14; 20; 5; 9; 14; 20;
   4; 11; 16; 23; 4; 11; 16; 23; 4; 11; 16; 23; 4; 11; 16; 23;
   6; 10; 15; 21; 6; 10; 15; 21; 6; 10; 15; 21; 6; 10; 15; 21].

Definition state := (Z * Z * Z * Z)%type.

Definition init : state := (0x67452301, 0xefcdab89, 0x98badcfe, 0x10325476).

Definition round (M : list Z) (st : state) (i : nat) : state :=
  let '(a, b, c, d) := st in
  let iz := Z.of_nat i in
  let '(f, g) :=
    if iz <? 16 then (Z.lor (Z.land b c) (Z.land (w32 (Z.lnot b)) d), iz)
    else if iz <? 32 then
      (Z.lor (Z.land d b) (Z.land (w32 (Z.lnot d)) c), (5 * iz + 1) mod 16)
    else if iz <? 48 then (Z.lxor b (Z.lxor c d), (3 * iz + 5) mod 16)
    else (Z.lxor c (Z.lor b (w32 (Z.lnot d))), (7 * iz) mod 16) in
  let f' := w32 (f + a + nth i K 0 + nth (Z.to_nat g) M 0) in
  (d, w32 (b + rotl f' (nth i shifts 0)), b, c).

(** Four bytes, least significant first, as one word. *)
Definition word_of_bytes (bs : list Z) : Z :=
  nth 0 bs 0 + Z.shiftl (nth 1 bs 0) 8 + Z.shiftl (nth 2 bs 0) 16
  + Z.shiftl (nth 3 bs 0) 24.

Fixpoint words_of (n : nat) (bs : list Z) : list Z :=
  match n with
  | O => []
  | S n' => word_of_bytes (firstn 4 bs) :: words_of n' (skipn 4 bs)
  end.

Definition compress (st : state) (chunk : list Z) : state :=
  let M := words_of 16 chunk in
  let '(a0, b0, c0, d0) := st in
  let '(a, b, c, d) := fold_left (round M) (seq 0 64) st in
  (w32 (a0 + a), w32 (b0 + b), w32 (c0 + c), w32 (d0 + d)).

Definition le_bytes (n : nat) (x : Z) : list Z :=
  map (fun k => Z.land (Z.shiftr x (8 * Z.of_nat k)) 255) (seq 0 n).

Definition pad (msg : list Z) : list Z :=
  let len := Z.of_nat (length msg) in
  let zeros := Z.to_nat ((55 - len) mod 64) in
  msg ++ [128] ++ repeat 0 zeros ++ le_bytes 8 ((8 * len) mod 2 ^ 64).

Fixpoint absorb (n_chunks : nat) (bs : list Z) (st : state) : state :=
  match n_chunks with
  | O => st
  | S n' => absorb n' (skipn 64 bs) (compress st (firstn 64 bs))
  end.

Definition digest (msg : list Z) : list Z :=
  let padded := pad msg in
  let '(a, b, c, d) := absorb (length padded / 64) padded init in
  le_bytes 4 a ++ le_bytes 4 b ++ le_bytes 4 c ++ le_bytes 4 d.

Definition hex_digit (x : Z) : N :=
  if x <? 10 then Z.to_N (48 + x) else Z.to_N (87 + x).

Definition hex_byte (x : Z) : pystr := [hex_digit (x / 16); hex_digit (x mod 16)].

(** [hashlib.md5(msg).hexdigest()] *)
Definition hexdigest (msg : list Z) : pystr := flat_map hex_byte (digest msg).

End MD5.

(** ** Dates: the [re] patterns of [main.py] and [datetime] *)

Module DT.

Local Open Scope Z_scope.

Record datetime : Type := mk_datetime {
  year : Z; month : Z; day : Z;
  hour : Z; minute : Z; second : Z; microsecond : Z
}.

Definition is_leap (y : Z) : bool :=
  (y mod 4 =? 0) && (negb (y mod 100 =? 0) || (y mod 400 =? 0)).

Definition days_in_month (y m : Z) : Z :=
  if m =? 2 then (if is_leap y then 29 else 28)
  else if (m =? 4) || (m =? 6) || (m =? 9) || (m =? 11) then 30
  else 31.

(** What the [datetime] constructor accepts. *)
Definition valid (dt : datetime) : bool :=
  (1 <=? year dt) && (year dt <=? 9999)
  && (1 <=? month dt) && (month dt <=? 12)
  && (1 <=? day dt) && (day dt <=? days_in_month (year dt) (month dt))
  && (0 <=? hour dt) && (hour dt <=? 23)
  && (0 <=? minute dt) && (minute dt <=? 59)
  && (0 <=? second dt) && (second dt <=? 59)
  && (0 <=? microsecond dt) && (microsecond dt <=? 999999).

Definition two (n : Z) : pystr := Str.zfill 2 (Str.str_of_int n).

(** [%Y] of [strftime] is the C library's: glibc writes a year below 1000
    without padding, other libraries pad it to four digits. [pads] says
    which; from the year 1000 on both agree. *)
Definition strftime_Y (pads : bool) (y : Z) : pystr :=
  if pads then Str.zfill 4 (Str.str_of_int y) else Str.str_of_int y.

(** [dt.strftime("%Y-%m-%dT%H:%M:%S")] *)
Definition strftime_iso (pads : bool) (dt : datetime) : pystr :=
  strftime_Y pads (year dt) ++ py "-" ++ two (month dt) ++ py "-" ++ two (day dt)
  ++ py "T" ++ two (hour dt) ++ py ":" ++ two (minute dt) ++ py ":" ++ two (second dt).

(** [dt.strftime("%Y-%m-%d")] *)
Definition strftime_dashed (pads : bool) (dt : datetime) : pystr :=
  strftime_Y pads (year dt) ++ py "-" ++ two (month dt) ++ py "-" ++ two (day dt).

(** [dt.strftime("%Y%m%d")] *)
Definition strftime_compact (pads : bool) (dt : datetime) : pystr :=
  strftime_Y pads (year dt) ++ two (month dt) ++ two (day dt).

(** [dt.isoformat()]: written by Python itself, the year always padded. *)
Definition isoformat (dt : datetime) : pystr :=
  Str.zfill 4 (Str.str_of_int (year dt)) ++ py "-" ++ two (month dt) ++ py "-"
  ++ two (day dt) ++ py "T" ++ two (hour dt) ++ py ":" ++ two (minute dt)
  ++ py ":" ++ two (second dt)
  ++ (if microsecond dt =? 0 then []
      else py "." ++ Str.zfill 6 (Str.str_of_int (microsecond dt))).

(** *** The pattern [(\d{4})-(\d{1,2})-(\d{1,2})] *)

Definition take_digits (n : nat) (s : pystr) : option (pystr * pystr) :=
  if (n <=? length s)%nat && forallb Str.isdecimal (firstn n s)
  then Some (firstn n s, skipn n s) else None.

Definition dash (s : pystr) : option pystr :=
  match s with
  | c :: r => if N.eqb c 45 then Some r else None
  | [] => None
  end.

(** [\d{1,2}] followed by [k]: two digits are tried first, one digit when the
    rest of the pattern fails after two. *)
Definition digits_1_2 {A : Type} (s : pystr) (k : pystr -> pystr -> option A)
  : option A :=
  let one := match take_digits 1 s with Some (d, r) => k d r | None => None end in
  match take_digits 2 s with
  | Some (d, r) => match k d r with Some x => Some x | None => one end
  | None => one
  end.

(** The pattern matched at the start of [s]: the three groups. *)
Definition match_date (s : pystr) : option (pystr * pystr * pystr) :=
  match take_digits 4 s with
  | Some (y, r1) =>
      match dash r1 with
      | Some r2 =>
          digits_1_2 r2 (fun m r3 =>
            match dash r3 with
            | Some r4 => digits_1_2 r4 (fun d _ => Some (y, m, d))
            | None => None
            end)
      | None => None
      end
  | None => None
  end.

(** [re.search(pattern, s)]: the leftmost position where it matches. *)
Fixpoint search_date (s : pystr) : option (pystr * pystr * pystr) :=
  match match_date s with
  | Some g => Some g
  | None => match s with [] => None | _ :: s' => search_date s' end
  end.

(** *** [datetime.strptime] *)

(** The pieces of a format: directives, literal characters and a run of
    white space (which [_strptime] turns into [\s+]). *)
Inductive tok : Type := TY | Tm | Td | TH | TM | TS | TSpace | TLit (c : N).

Fixpoint tokens (fmt : pystr) : list tok :=
  match fmt with
  | [] => []
  | c :: rest =>
      if N.eqb c 37 then
        match rest with
        | d :: rest' =>
            (if N.eqb d 89 then TY else if N.eqb d 109 then Tm
             else if N.eqb d 100 then Td else if N.eqb d 72 then TH
             else if N.eqb d 77 then TM else if N.eqb d 83 then TS
             else TLit d) :: tokens rest'
        | [] => [TLit c]
        end
      else if Str.isspace c then
        match tokens rest with
        | TSpace :: ts => TSpace :: ts
        | ts => TSpace :: ts
        end
      else TLit c :: tokens rest
  end.

(** A directive's regular expression at the start of [s]: the values of its
    alternatives that match, with what is left of [s], in the order
    backtracking tries them. *)
Definition asc (lo hi : string) (c : N) : option Z :=
  if Str.is_ascii_range lo hi c then Some (Z.of_N c - 48) else None.

Definition pair_alt (first second : N -> option Z) (s : pystr)
  : list (Z * pystr) :=
  match s with
  | a :: b :: r =>
      match first a, second b with
      | Some x, Some y => [(10 * x + y, r)]
      | _, _ => []
      end
  | _ => []
  end.

Definition single_alt (p : N -> option Z) (s : pystr) : list (Z * pystr) :=
  match s with
  | a :: r => match p a with Some x => [(x, r)] | None => [] end
  | [] => []
  end.

Fixpoint spaces (s : pystr) : list pystr :=
  match s with
  | c :: r => if Str.isspace c then spaces r ++ [r] else []
  | [] => []
  end.

Definition tok_matches (t : tok) (s : pystr) : list (Z * pystr) :=
  match t with
  | TY =>
      match s with
      | a :: b :: c :: d :: r =>
          match Str.digit_value a, Str.digit_value b,
                Str.digit_value c, Str.digit_value d with
          | Some x, Some y, Some z, Some w =>
              [(1000 * x + 100 * y + 10 * z + w, r)]
          | _, _, _, _ => []
          end
      | _ => []
      end
  | Tm =>
      pair_alt (asc "1" "1") (asc "0" "2") s
      ++ pair_alt (asc "0" "0") (asc "1" "9") s
      ++ single_alt (asc "1" "9") s
  | Td =>
      pair_alt (asc "3" "3") (asc "0" "1") s
      ++ pair_alt (asc "1" "2") Str.digit_value s
      ++ pair_alt (asc "0" "0") (asc "1" "9") s
      ++ single_alt (asc "1" "9") s
      ++ pair_alt (fun c => if N.eqb c 32 then Some 0 else None) (asc "1" "9") s
  | TH =>
      pair_alt (asc "2" "2") (asc "0" "3") s
      ++ pair_alt (asc "0" "1") Str.digit_value s
      ++ single_alt Str.digit_value s
  | TM =>
      pair_alt (asc "0" "5") Str.digit_value s
      ++ single_alt Str.digit_value s
  | TS =>
      pair_alt (asc "6" "6") (asc "0" "1") s
      ++ pair_alt (asc "0" "5") Str.digit_value s
      ++ single_alt Str.digit_value s
  | TSpace => map (fun r => (0, r)) (spaces s)
  | TLit c => single_alt (fun x => if N.eqb x c then Some 0 else None) s
  end.

Definition put (t : tok) (v : Z) (dt : datetime) : datetime :=
  match t with
  | TY => mk_datetime v (month dt) (day dt) (hour dt) (minute dt) (second dt) 0
  | Tm => mk_datetime (year dt) v (day dt) (hour dt) (minute dt) (second dt) 0
  | Td => mk_datetime (year dt) (month dt) v (hour dt) (minute dt) (second dt) 0
  | TH => mk_datetime (year dt) (month dt) (day dt) v (minute dt) (second dt) 0
  | TM => mk_datetime (year dt) (month dt) (day dt) (hour dt) v (second dt) 0
  | TS => mk_datetime (year dt) (month dt) (day dt) (hour dt) (minute dt) v 0
  | _ => dt
  end.

(** All the ways the format's pattern matches a prefix of [s], first the one
    [re.match] returns. *)
Fixpoint matches (ts : list tok) (s : pystr) (dt : datetime)
  : list (datetime * pystr) :=
  match ts with
  | [] => [(dt, s)]
  | t :: ts' =>
      flat_map (fun vr => let '(v, r) := vr in matches ts' r (put t v dt))
               (tok_matches t s)
  end.

(** [datetime.strptime(s, fmt)]; [None] is its [ValueError]: no match, text
    left over after the match, or field values that are no date. *)
Definition strptime (s fmt : pystr) : option datetime :=
  match matches (tokens fmt) s (mk_datetime 1900 1 1 0 0 0 0) with
  | (dt, []) :: _ => if valid dt then Some dt else None
  | _ => None
  end.

End DT.

(** ** A state and exception monad *)

Definition M (S A : Type) : Type := S -> res A * S.

Definition ret {S A : Type} (a : A) : M S A := fun s => (Ok a, s).

Definition bind {S A B : Type} (m : M S A) (k : A -> M S B) : M S B :=
  fun s =>
    match m s with
    | (Ok a, s') => k a s'
    | (Raise e, s') => (Raise e, s')
    end.

Definition raise {S A : Type} (e : exn) : M S A := fun s => (Raise e, s).

(** [try: m except Exception as e: h e] *)
Definition try_except {S A : Type} (m : M S A) (h : exn -> M S A) : M S A :=
  fun s =>
    match m s with
    | (Ok a, s') => (Ok a, s')
    | (Raise e, s') => h e s'
    end.

Definition get_state {S : Type} : M S S := fun s => (Ok s, s).
Definition modify {S : Type} (f : S -> S) : M S unit := fun s => (Ok tt, f s).

Declare Scope monad_scope.
Delimit Scope monad_scope with monad.
Notation "x <- c ;; k" := (bind c (fun x => k))
  (at level 61, c at next level, right associativity) : monad_scope.
Notation "' pat <- c ;; k" := (bind c (fun x => match x with pat => k end))
  (at level 61, pat pattern, c at next level, right associativity) : monad_scope.
Notation "c ;;; k" := (bind c (fun _ => k))
  (at level 61, right associativity) : monad_scope.

(** ** The collaborators *)

(** *** Elasticsearch *)

Inductive es_call : Type :=
| SearchTitle (index title : pystr)
    (* search(index, timeout='5s', size=1, query: match_phrase on title) *)
| IndicesExists (index : pystr)
| IndicesCreate (index : pystr)   (* with the fixed mapping of the uploader *)
| GetMapping (index : pystr)
| SearchPid (index : pystr) (pid : pyval)   (* search(index, query: term on pid) *)
| Index (index : pystr) (id : option pystr) (document : dict)
| Refresh (index : pystr).

(** [hits.total.value] and the [_id] of each returned hit. *)
Record hits : Type := mk_hits { total : Z; ids : list pystr }.

Record indexed : Type := mk_indexed { r_id : pystr; r_index : pystr; r_version : Z }.

Inductive reply (A : Type) : Type :=
| Replied (a : A)
| Failed (detail : pystr).   (* the call raised *)
Arguments Replied {A} a.
Arguments Failed {A} detail.

(** What the code reads of the answer to each call. For [GetMapping] it is
    the field names under [mappings.properties] of the index. *)
Definition answer (c : es_call) : Type :=
  match c with
  | SearchTitle _ _ | SearchPid _ _ => hits
  | IndicesExists _ => bool
  | IndicesCreate _ | Refresh _ => unit
  | GetMapping _ => list pystr
  | Index _ _ _ => indexed
  end.

(** *** The listing and detail pages, as the selectors of [main_process] see them *)

(** One [li.kb-query-item]. The text fields are [get_text(strip=True)] of the
    selected element, [None] when nothing is selected. *)
Record article : Type := mk_article {
  a_class : list pystr;                        (* article.get('class', []) *)
  a_title : option pystr;                      (* div.kb-dynamic-html *)
  a_summary : option pystr;                    (* div[class*=kb-dynamic-html-id-][class*=_c9ad79-23] *)
  a_lists : list (option (pystr * pystr));     (* per ul.wp-block-kadence-dynamiclist: href and text of its a.kb-dynamic-list-item-link *)
  a_date : option pystr;                       (* div[class*=kt-adv-heading] *)
  a_link : option (option pystr)               (* a.kb-button and its href *)
}.

Record listing_page : Type := mk_listing {
  articles : list article;      (* soup.select('li.kb-query-item') *)
  next_button : bool            (* soup.select_one('a.next.page-numbers') *)
}.

(** The [h2] whose string contains the marker word. *)
Record background : Type := mk_background {
  b_siblings : list (option pystr);   (* each following sibling: its text when it has get_text *)
  b_parent : list (bool * pystr)      (* parent.find_all([h2, h3, h4, p]): equal to the heading?, and its text *)
}.

(** [article], else [div.entry-content, div.post-content], images removed. *)
Record container : Type := mk_container {
  c_lists : list (option (pystr * pystr));
  c_summaries : list pystr;           (* p[class*=kt-adv-heading] *)
  c_background : option background
}.

Record detail_page : Type := mk_detail { d_container : option container }.

(** *** The world outside the program *)

Record World : Type := mk_world {
  get_listing : nat -> reply listing_page;   (* requests.get of listing page n, raise_for_status, parse *)
  get_detail : pystr -> reply detail_page;   (* the same for an article link *)
  now : nat -> DT.datetime;                  (* the n-th reading of datetime.now() *)
  libc_pads_year : bool;
  randint : nat -> Z;                        (* the n-th draw of random.randint(300, 999) *)
  encode : pystr -> reply (list Z);          (* tiktoken: encoding.encode(text) *)
  decode : list Z -> pystr;                  (* encoding.decode(tokens) *)
  embed : nat -> pystr -> reply (list pyval);
      (* the n-th embeddings.create(model, input): data[0].embedding *)
  es : list es_call -> forall c : es_call, reply (answer c);
      (* the answer to [c] after the earlier calls, latest first *)
  getenv : pystr -> option pystr;
      (* os.getenv(name) after load_dotenv(): the variables of the process
         and of the .env file, neither of which the program changes *)
  new_client : option pystr -> option pystr -> reply unit;
      (* Elasticsearch(url, basic_auth=(username, password)): the client is
         built, or the constructor raises *)
  backup_writable : nat -> bool;
      (* does the n-th append to the backup file (open, encode, write) succeed *)
  format_other : pyval -> pystr              (* str() of a value that is neither str, int nor bool *)
}.

(** What changes while the program runs. *)
Record Ext : Type := mk_ext {
  es_log : list es_call;      (* the calls made to the store, latest first *)
  clock_reads : nat
}.

Inductive event : Type :=
| EvHeader (page i : nat) (article_id : pystr)   (* === page, index, ID === *)
| EvTitle (title : pystr)                        (* the title line of an examined entry *)
| EvDuplicate (title : pystr)                    (* duplicate met, skipped *)
| EvStop                                         (* crawl stopped at the cursor *)
| EvProcess (title : pyval)                      (* embedding_and_save starts on a record *)
| EvCursorSaved (title : pystr).                 (* the newest processed title was recorded *)

(** The backup file [report_uploaded.jsonl], as the scan and the append
    meet it. A line that ends with a line break is given by what
    [json.loads] makes of it, [None] when it raises. The text after the last
    line break, when the file does not end with one, is a last line for the
    scan, and an append goes on from it. *)
Inductive open_line : Type :=
| OpenBlank                          (* spaces and tabs only *)
| OpenText (alone : option pyval).   (* any other text: what json.loads makes of it *)

Record ledger : Type := mk_ledger {
  full_lines : list (option pyval);
  last_open : option open_line
}.

Record St : Type := mk_st {
  history_file : option pyval;         (* tfc_crawler_history.json as json.load reads it; None: absent or unreadable *)
  backup_file : option ledger;         (* report_uploaded.jsonl, None: absent *)
  backup_appends : nat;
  stdout : list event;                 (* latest first; other printed lines are left out *)
  embed_log : list pystr;              (* the inputs sent to the embedding provider, latest first *)
  rng_draws : nat;
  ext : Ext
}.

Definition es_request (W : World) (c : es_call) : M (list es_call) (answer c) :=
  fun log =>
    match es W log c with
    | Replied a => (Ok a, c :: log)
    | Failed d => (Raise (CollaboratorError d), c :: log)
    end.

(** ** es_Upload.py: class ESUploader *)

(** The values of [Result]: the strings Y, N and SKIP. *)
Inductive code : Type := code_Y | code_N | code_SKIP.

Inductive operation : Type := created | updated.

(** The texts of [Message], kept symbolic. *)
Inductive message : Type :=
| MsgEmptyDocument                     (* Document cannot be empty *)
| MsgNoPid                             (* Document must contain 'pid' field *)
| MsgDone (op : operation) (ignored : list pystr)
    (* Document successfully {op}, then (ignored fields: a, b) when there are some *)
| MsgUploadRaised (e : exn)            (* Failed to upload document: {e} *)
| MsgEmptyTitle                        (* the title must not be empty *)
| MsgTitleExists                       (* Document with same title already exists *)
| MsgUploadFailed (attempts : nat) (m : message)
    (* Upload failed after {attempts} attempts: {error_msg} *)
| MsgOperationFailed (attempts : nat) (e : exn)
    (* ES operation failed after {attempts} attempts: {e} *)
| MsgUnexpected.                       (* Unexpected error in save_to_es *)

Record result_data : Type := mk_result_data {
  response : indexed;
  operation_type : operation;
  document_id : pystr;
  index : pystr;
  version : Z;
  ignored_fields : list pystr    (* the key is present only when the list is not empty *)
}.

Record result : Type := mk_result {
  Result : code;
  Message : message;
  ResultData : option result_data;
  existing_id : option pystr     (* only in the SKIP answer of save_to_es *)
}.

Module ESUploader.

Import DT.
Local Open Scope monad_scope.

(** [ESUploader()]: the credentials are read from the environment and the
    client is constructed with them; [Raise] is what the constructor of the
    client raises. *)
Definition __init__ (W : World) : res unit :=
  let es_username := getenv W (py "es_username") in
  let es_password := getenv W (py "es_password") in
  match new_client W es_username es_password with
  | Replied _ => Ok tt
  | Failed d => Raise (CollaboratorError d)
  end.

Definition date_formats : list pystr :=
  [py "%Y/%m/%d %H:%M"; py "%Y-%m-%d %H:%M:%S"; py "%Y-%m-%d %H:%M";
   py "%Y/%m/%d"; py "%Y-%m-%d"].

(** The [for fmt in date_formats] loop: the first format that parses. *)
Fixpoint first_parse (date_str : pystr) (fmts : list pystr) : option datetime :=
  match fmts with
  | [] => None
  | fmt :: rest =>
      match strptime date_str fmt with
      | Some date_obj => Some date_obj
      | None => first_parse date_str rest
      end
  end.

Definition _format_date (pads : bool) (date_str : pystr) : option pystr :=
  if negb (Str.nonempty date_str) then None
  else
    match first_parse date_str date_formats with
    | Some date_obj => Some (strftime_iso pads date_obj)
    | None => None
    end.

Definition get_index_fields (W : World) (index : pystr)
  : list es_call -> list pystr * list es_call :=
  fun log =>
    match es_request W (GetMapping index) log with
    | (Ok fields, log') => (fields, log')
    | (Raise _, log') => ([], log')
    end.

Definition time_fields_to_exclude : list pystr :=
  [py "time_articut_tagger"; py "time_date_conversion";
   py "time_prewrite_summary"; py "time_text_embeddings";
   py "total_processing_time"].

Definition mem (k : pystr) (l : list pystr) : bool := existsb (Str.eqb k) l.

Definition none_to_empty (v : pyval) : pyval :=
  match v with VNone => VStr [] | _ => v end.

(** The branches of the cleaning loop for one field that is kept. *)
Definition clean_value (pads : bool) (key : pystr) (value : pyval) : pyval :=
  match value with
  | VNone => VStr []
  | VStr s =>
      if mem key [py "dt"; py "date_created"] then
        match _format_date pads s with
        | Some formatted_date =>
            if Str.nonempty formatted_date then VStr formatted_date else value
        | None => value
        end
      else value
  | VList l | VTuple l => VList (map none_to_empty l)
  | VDict d => VDict (map (fun kv => (fst kv, none_to_empty (snd kv))) d)
  | _ => value
  end.

(** [cleaned_document] after the loop over [document.items()]. *)
Definition clean_document (pads : bool) (document : dict) : dict :=
  flat_map (fun kv =>
              if mem (fst kv) time_fields_to_exclude then []
              else [(fst kv, clean_value pads (fst kv) (snd kv))])
           document.

Definition failure (m : message) : result := mk_result code_N m None None.

(** The body of the [try] of [upload_single_document], after the two checks
    on the document. *)
Definition upload_steps (W : World) (document : dict) (index : pystr)
    (strict_fields : bool) : M (list es_call) result :=
  let cleaned_document := clean_document (libc_pads_year W) document in
  index_exists <- es_request W (IndicesExists index) ;;
  (if index_exists then ret tt else es_request W (IndicesCreate index)) ;;;
  existing_fields <-
    (if strict_fields
     then fun log => let '(f, log') := get_index_fields W index log in (Ok f, log')
     else ret []) ;;
  let filtered_document :=
    if strict_fields
    then filter (fun kv => mem (fst kv) existing_fields) cleaned_document
    else cleaned_document in
  let ignored_fields :=
    if strict_fields
    then filter (fun k => negb (mem k existing_fields)) (Dict.keys cleaned_document)
    else [] in
  pid <- match Dict.get filtered_document (py "pid") with
         | Some v => ret v
         | None => raise (KeyError (py "pid"))
         end ;;
  search_result <- es_request W (SearchPid index pid) ;;
  '(response, operation_type) <-
    (if (total search_result >? 0)%Z then
       match ids search_result with
       | existing_doc_id :: _ =>
           r <- es_request W (Index index (Some existing_doc_id) filtered_document) ;;
           ret (r, updated)
       | [] => raise IndexError
       end
     else
       r <- es_request W (Index index None filtered_document) ;;
       ret (r, created)) ;;
  es_request W (Refresh index) ;;;
  ret (mk_result code_Y (MsgDone operation_type ignored_fields)
         (Some (mk_result_data response operation_type (r_id response)
                  (r_index response) (r_version response) ignored_fields))
         None).

Definition upload_single_document (W : World) (document : dict) (index : pystr)
    (strict_fields : bool) : list es_call -> result * list es_call :=
  fun log =>
    match document with
    | [] => (failure MsgEmptyDocument, log)
    | _ =>
        if negb (Dict.has document (py "pid")) then (failure MsgNoPid, log)
        else
          match upload_steps W document index strict_fields log with
          | (Ok r, log') => (r, log')
          | (Raise e, log') => (failure (MsgUploadRaised e), log')
          end
    end.

End ESUploader.

(** ** main.py *)

Module Main.

Import DT.
Local Open Scope monad_scope.

Definition k_title := py "title".
Definition k_date := py "date".
Definition k_pid := py "pid".

(** *** The crawler history (the cursor) *)

Definition load_crawler_history (st : St) : pyval :=
  match history_file st with
  | Some history => history
  | None => VDict []
  end.

Definition save_crawler_history (history : pyval) (st : St) : St :=
  mk_st (Some history) (backup_file st) (backup_appends st) (stdout st)
        (embed_log st) (rng_draws st) (ext st).

Definition update_last_crawled_title (W : World) (title : pystr) : M St unit :=
  fun st =>
    match load_crawler_history st with
    | VDict history =>
        let history := Dict.set history (py "last_crawled_title") (VStr title) in
        let t := now W (clock_reads (ext st)) in
        let history := Dict.set history (py "last_crawled_time") (VStr (isoformat t)) in
        let st := mk_st (history_file st) (backup_file st) (backup_appends st)
                        (stdout st) (embed_log st) (rng_draws st)
                        (mk_ext (es_log (ext st)) (S (clock_reads (ext st)))) in
        (Ok tt, save_crawler_history (VDict history) st)
    | _ => (Raise TypeError, st)
    end.

Definition get_last_crawled_title : M St pyval :=
  fun st =>
    match load_crawler_history st with
    | VDict history => (Ok (Dict.get_default history (py "last_crawled_title") VNone), st)
    | _ => (Raise AttributeError, st)
    end.

(** *** Embedding *)

Definition max_tokens : nat := 8000.

Definition text_embeddings_3 (W : World) (text : pystr) : M St (list pyval) :=
  fun st =>
    match encode W text with
    | Failed d => (Raise (CollaboratorError d), st)
    | Replied tokens =>
        let text :=
          if (max_tokens <? length tokens)%nat
          then decode W (firstn max_tokens tokens)
          else text in
        let st' := mk_st (history_file st) (backup_file st) (backup_appends st)
                         (stdout st) (text :: embed_log st) (rng_draws st) (ext st) in
        match embed W (length (embed_log st)) text with
        | Replied embedding => (Ok embedding, st')
        | Failed d => (Raise (CollaboratorError d), st')
        end
    end.

(** *** save_to_es *)

Definition index_name : pystr := py "lab_tfc_search_test".

(** The state of one call: the record (which the function mutates) and the
    store and clock. *)
Record SaveSt : Type := mk_save { sv_data : dict; sv_ext : Ext }.

Definition get_data : M SaveSt dict := fun s => (Ok (sv_data s), s).

Definition set_data (k : pystr) (v : pyval) : M SaveSt unit :=
  fun s => (Ok tt, mk_save (Dict.set (sv_data s) k v) (sv_ext s)).

Definition read_clock (W : World) : M SaveSt datetime :=
  fun s =>
    (Ok (now W (clock_reads (sv_ext s))),
     mk_save (sv_data s) (mk_ext (es_log (sv_ext s)) (S (clock_reads (sv_ext s))))).

Definition on_store {A : Type} (m : M (list es_call) A) : M SaveSt A :=
  fun s =>
    let '(r, log) := m (es_log (sv_ext s)) in
    (r, mk_save (sv_data s) (mk_ext log (clock_reads (sv_ext s)))).

(** [v.strip()]: only a [str] has the method. *)
Definition strip_of (v : pyval) : M SaveSt pystr :=
  match v with
  | VStr s => ret (Str.strip s)
  | _ => raise AttributeError
  end.

(** A value inside an f-string. *)
Definition format_value (W : World) (v : pyval) : pystr :=
  match v with
  | VStr s => s
  | VInt n => Str.str_of_int n
  | VBool true => py "True"
  | VBool false => py "False"
  | VNone => py "None"
  | _ => format_other W v
  end.

(** The [md5] serial number of a title: [None] where the source raises. *)
Definition serial_num_of (title : pystr) : res pystr :=
  match Str.utf8_encode title with
  | None => Raise UnicodeEncodeError
  | Some bytes =>
      let title_hash := MD5.hexdigest bytes in
      match Str.int_of_hex (Str.last_chars 4 title_hash) with
      | Some n => Ok (Str.zfill 3 (Str.str_of_int (n mod 1000)))
      | None => Raise ValueError
      end
  end.

(** Lines 100-115: the date prefix of a generated identifier. *)
Definition date_prefix_of (W : World) : M SaveSt pystr :=
  let pads := libc_pads_year W in
  data <- get_data ;;
  let date_str := Dict.get_default data k_date (VStr []) in
  date_prefix <-
    (if truthy date_str then
       match date_str with
       | VStr s =>
           match search_date s with
           | Some (year, month, day) =>
               ret (year ++ Str.zfill 2 month ++ Str.zfill 2 day)
           | None => ret []
           end
       | _ => raise TypeError
       end
     else ret []) ;;
  if negb (Str.nonempty date_prefix) then
    match Dict.get data k_date with
    | Some (VStr s) =>
        match strptime s (py "%Y-%m-%d") with
        | Some data_date => ret (strftime_compact pads data_date)
        | None => t <- read_clock W ;; ret (strftime_compact pads t)
        end
    | _ => t <- read_clock W ;; ret (strftime_compact pads t)
    end
  else ret date_prefix.

(** The block under [if 'pid' not in data or not data['pid']]. *)
Definition ensure_pid (W : World) : M SaveSt unit :=
  date_prefix <- date_prefix_of W ;;
  data <- get_data ;;
  let article_id := Dict.get_default data (py "article_id") (VStr []) in
  if truthy article_id then
    set_data k_pid (VStr (date_prefix ++ format_value W article_id))
  else
    match Dict.get_default data k_title (VStr []) with
    | VStr title =>
        match serial_num_of title with
        | Ok serial_num => set_data k_pid (VStr (date_prefix ++ serial_num))
        | Raise e => raise e
        end
    | _ => raise AttributeError
    end.

(** What the title search of one attempt leads to. *)
Inductive precheck : Type :=
| TitleFound (existing_id : pystr)
| GoOn            (* no hit, or the search failed on the last attempt *)
| NextAttempt.    (* the search failed, [continue] *)

Definition title_check (W : World) (last : bool) : M SaveSt precheck :=
  data <- get_data ;;
  let title := Dict.get_default data k_title (VStr []) in
  if truthy title then
    try_except
      (match title with
       | VStr t =>
           search_result <- on_store (es_request W (SearchTitle index_name t)) ;;
           if (total search_result >? 0)%Z then
             match ids search_result with
             | existing_id :: _ => ret (TitleFound existing_id)
             | [] => raise IndexError
             end
           else ret GoOn
       | _ => raise TypeError
       end)
      (fun search_error => if last then ret GoOn else ret NextAttempt)
  else ret GoOn.

Definition is_none (v : pyval) : bool :=
  match v with VNone => true | _ => false end.

(** Lines 171-174: what is stored for one value. *)
Definition cleaned_value (value : pyval) : pyval :=
  if negb (is_none value) && negb (eq_str value []) then value else VStr [].

(** [cleaned_data] of [save_to_es]. *)
Definition cleaned_data_of (data : dict) : dict :=
  map (fun kv => (fst kv, cleaned_value (snd kv))) data.

(** Lines 89-93: an empty date becomes the current day. *)
Definition fill_date (W : World) : M SaveSt unit :=
  data <- get_data ;;
  date <- strip_of (Dict.get_default data k_date (VStr [])) ;;
  if negb (Str.nonempty date) then
    t <- read_clock W ;;
    set_data k_date (VStr (strftime_dashed (libc_pads_year W) t))
  else ret tt.

(** Lines 95-126: a record without identifier gets one. *)
Definition fill_pid (W : World) : M SaveSt unit :=
  data <- get_data ;;
  if negb (Dict.has data k_pid)
     || negb (truthy (Dict.get_default data k_pid VNone))
  then ensure_pid W else ret tt.

(** Lines 82-126 of an attempt: the checks of title and date and the
    identifier. [false] is the early [return] for an empty title. *)
Definition preamble (W : World) : M SaveSt bool :=
  data <- get_data ;;
  title <- strip_of (Dict.get_default data k_title (VStr [])) ;;
  if negb (Str.nonempty title) then ret false
  else fill_date W ;;; fill_pid W ;;; ret true.

(** Lines 168-197 of an attempt: cleaning, upload and the answer. *)
Definition upload_stage (W : World) (max_retries : nat) (last : bool)
  : M SaveSt (option result) :=
  data <- get_data ;;
  result <- on_store (fun log =>
              let '(r, log') :=
                ESUploader.upload_single_document W (cleaned_data_of data)
                  index_name false log in
              (Ok r, log')) ;;
  match Result result with
  | code_Y => ret (Some result)
  | _ =>
      if last
      then ret (Some (mk_result code_N (MsgUploadFailed max_retries (Message result))
                        None None))
      else ret None
  end.

(** Line 77, [uploader = ESUploader()]: every attempt builds its uploader
    first, inside the [try]. *)
Definition new_uploader (W : World) : M SaveSt unit :=
  fun s => (ESUploader.__init__ W, s).

(** Lines 79-197 of an attempt, with the uploader built: [Some r] is
    [return r], [None] is [continue]. [last] says that
    [attempt = max_retries - 1]. *)
Definition attempt_steps (W : World) (max_retries : nat) (last : bool)
  : M SaveSt (option result) :=
  titled <- preamble W ;;
  if negb titled then ret (Some (mk_result code_N MsgEmptyTitle None None))
  else
    found <- title_check W last ;;
    match found with
    | TitleFound existing_id =>
        ret (Some (mk_result code_SKIP MsgTitleExists None (Some existing_id)))
    | NextAttempt => ret None
    | GoOn => upload_stage W max_retries last
    end.

(** The body of the [try] of one attempt. *)
Definition attempt_body (W : World) (max_retries : nat) (last : bool)
  : M SaveSt (option result) :=
  new_uploader W ;;; attempt_steps W max_retries last.

(** [for attempt in range(max_retries)], with [remaining] attempts to go. *)
Fixpoint attempts (W : World) (max_retries remaining : nat) (s : SaveSt)
  : result * SaveSt :=
  match remaining with
  | O => (mk_result code_N MsgUnexpected None None, s)
  | S r =>
      let last := (r =? 0)%nat in
      match attempt_body W max_retries last s with
      | (Ok (Some res), s') => (res, s')
      | (Ok None, s') => attempts W max_retries r s'
      | (Raise e, s') =>
          if last
          then (mk_result code_N (MsgOperationFailed max_retries e) None None, s')
          else attempts W max_retries r s'
      end
  end.

(** [save_to_es(data, max_retries)]: the answer, and the record and the
    store as the call leaves them. *)
Definition save_to_es (W : World) (data : dict) (max_retries : nat) (x : Ext)
  : result * dict * Ext :=
  let '(r, s) := attempts W max_retries max_retries (mk_save data x) in
  (r, sv_data s, sv_ext s).

(** *** Backup and the per-article pipeline *)

(** [for line in f: json.loads(line)]: the lines the scan meets. *)
Definition decoded_lines (l : ledger) : list (option pyval) :=
  full_lines l
  ++ match last_open l with
     | None => []
     | Some OpenBlank => [None]
     | Some (OpenText alone) => [alone]
     end.

(** [f.write(json.dumps(record) + '\n')] on the file opened with ['a']: the
    text goes after what the file holds. After a line break, or in an empty
    file, it is a line of its own. After spaces and tabs it still decodes to
    the record. After any other text it makes one line with that text, and
    the line does not decode: the text of the record is a complete JSON
    object, and [json.loads] accepts nothing but white space around one. *)
Definition appended (l : ledger) (record : pyval) : ledger :=
  mk_ledger
    (full_lines l
     ++ [match last_open l with
         | Some (OpenText _) => None
         | _ => Some (json_reload record)
         end])
    None.

Definition backup_to_jsonl (W : World) (report : dict) (st : St) : bool * St :=
  let n := backup_appends st in
  if backup_writable W n then
    let file := match backup_file st with Some l => l | None => mk_ledger [] None end in
    (true, mk_st (history_file st) (Some (appended file (VDict report))) (S n)
                 (stdout st) (embed_log st) (rng_draws st) (ext st))
  else
    (false, mk_st (history_file st) (backup_file st) (S n)
                  (stdout st) (embed_log st) (rng_draws st) (ext st)).

Inductive status : Type := success | skip | error.

Definition print (e : event) (st : St) : St :=
  mk_st (history_file st) (backup_file st) (backup_appends st)
        (e :: stdout st) (embed_log st) (rng_draws st) (ext st).

Definition with_ext (x : Ext) (st : St) : St :=
  mk_st (history_file st) (backup_file st) (backup_appends st)
        (stdout st) (embed_log st) (rng_draws st) x.

(** [embedding_and_save(report)]: the returned status and backup flag, and the
    record as the call leaves it (the caller's object is mutated). *)
Definition embedding_and_save (W : World) (report : dict) (st : St)
  : (status * bool) * dict * St :=
  match Dict.get report k_title with
  | None => ((error, false), report, st)
  | Some title =>
      let st := print (EvProcess title) st in
      match Dict.get_default report (py "full_content") (VStr []) with
      | VStr full_content =>
          let embedded : res dict * St :=
            if Str.nonempty (Str.strip full_content) then
              match text_embeddings_3 W full_content st with
              | (Ok v, st') => (Ok (Dict.set report (py "embeddings") (VList v)), st')
              | (Raise e, st') => (Raise e, st')
              end
            else (Ok (Dict.set report (py "embeddings") (VList [])), st) in
          match embedded with
          | (Raise _, st') => ((error, false), report, st')
          | (Ok report, st') =>
              let st' := snd (backup_to_jsonl W report st') in
              let '(result, report, x) := save_to_es W report 3 (ext st') in
              ((match Result result with
                | code_Y => success
                | code_SKIP => skip
                | code_N => error
                end, true), report, with_ext x st')
          end
      | _ => ((error, false), report, st)
      end
  end.

(** *** main_process *)

Record counters : Type := mk_counters {
  total_processed : nat;
  success_count : nat;
  skip_count : nat;
  error_count : nat;
  backup_count : nat;
  first_article_title : option pystr;
  duplicate_found : bool
}.

(** The returned dictionary: its keys total, success, skip, error, backup. *)
Record statistics : Type := mk_statistics {
  n_total : nat; n_success : nat; n_skip : nat; n_error : nat; n_backup : nat
}.

Definition reporter_prefix : pystr := py "fact-check-reporter-".

(** [reporter_articles]: the entries that carry a [fact-check-reporter-{id}]
    class, with their index on the page and that id. *)
Definition reporter_articles (articles : list article)
  : list (nat * article * pystr) :=
  flat_map
    (fun ia =>
       match find (fun cls => Str.startswith cls reporter_prefix) (a_class (snd ia)) with
       | Some cls => [(fst ia, snd ia, Str.replace reporter_prefix [] cls)]
       | None => []
       end)
    (combine (seq 0 (length articles)) articles).

(** The test the scan makes on one line: [record.get('title') == title], and
    [False] when the line does not decode or is no object. *)
Definition line_has_title (title : pystr) (line : option pyval) : bool :=
  match line with
  | Some (VDict record) =>
      match Dict.get record k_title with
      | Some v => eq_str v title
      | None => false
      end
  | _ => false
  end.

(** The scan of the backup file for a record with this title. *)
Definition in_backup (title : pystr) (st : St) : bool :=
  match backup_file st with
  | None => false
  | Some file => existsb (line_has_title title) (decoded_lines file)
  end.

Definition classification : pystr := py "fact-check-report-classification/".
Definition report_type : pystr := py "fact-check-report-type/".

Definition label_and_category (lists : list (option (pystr * pystr)))
  : pystr * pystr :=
  fold_left
    (fun lc dynamic_list =>
       match dynamic_list with
       | Some (href, text) =>
           if Str.contains classification href then (text, snd lc)
           else if Str.contains report_type href then (fst lc, text)
           else lc
       | None => lc
       end)
    lists ([], []).

(** The marker word of the background heading (U+80CC U+666F). *)
Definition marker : pystr := [32972; 26223]%N.

Definition long_text (text : pystr) : list pystr :=
  if Str.nonempty text && (10 <? length text)%nat then [text] else [].

Fixpoint after_heading (found_bg : bool) (elems : list (bool * pystr))
  : list pystr :=
  match elems with
  | [] => []
  | (is_heading, text) :: rest =>
      if found_bg then long_text text ++ after_heading true rest
      else after_heading is_heading rest
  end.

Definition full_content_texts (b : background) : list pystr :=
  let texts :=
    marker :: flat_map (fun s => match s with
                                 | Some text => long_text text
                                 | None => []
                                 end) (b_siblings b) in
  if (length texts <? 3)%nat then marker :: after_heading false (b_parent b)
  else texts.

(** What a fetched detail page changes in the report. *)
Definition refine_from_detail (c : container) (label : pystr) (report : dict)
  : dict :=
  let report :=
    if negb (Str.nonempty label) then
      match find (fun l => match l with
                           | Some (href, _) => Str.contains classification href
                           | None => false
                           end) (c_lists c) with
      | Some (Some (_, text)) => Dict.set report (py "label") (VStr text)
      | _ => report
      end
    else report in
  let report :=
    match find (fun text => (50 <? length text)%nat) (c_summaries c) with
    | Some text =>
        Dict.set report (py "summary")
                 (VStr (Str.strip (Str.replace [10%N] [32%N] text)))
    | None => report
    end in
  match c_background c with
  | Some b =>
      let texts := full_content_texts b in
      if (1 <? length texts)%nat
      then Dict.set report (py "full_content") (VStr (Str.join [10%N; 10%N] texts))
      else report
  | None => report
  end.

(** Lines 408-415: the identifier of a listing entry. [random_num] is the
    draw that the first branch makes. *)
Definition make_pid (date article_id : pystr) (random_num : Z) : pystr :=
  if Str.eqb article_id (py "fact-check-reporter")
  then Str.replace (py "-") [] date ++ Str.str_of_int random_num
  else Str.replace (py "-") [] date ++ article_id.

(** From the summary extraction to the fetched full content: the report of
    one entry. *)
Definition build_report (W : World) (title : pystr) (a : article)
    (article_id : pystr) (st : St) : dict * St :=
  let summary := match a_summary a with Some s => firstn 200 s | None => [] end in
  let '(label, category) := label_and_category (a_lists a) in
  let date :=
    match a_date a with
    | Some date_text =>
        match search_date date_text with
        | Some (y, m, d) => y ++ py "-" ++ m ++ py "-" ++ d
        | None => []
        end
    | None => []
    end in
  let link :=
    match a_link a with
    | Some (Some href) => if Str.nonempty href then href else []
    | _ => []
    end in
  let draws := Str.eqb article_id (py "fact-check-reporter") in
  let pid := make_pid date article_id (randint W (rng_draws st)) in
  let st :=
    if draws
    then mk_st (history_file st) (backup_file st) (backup_appends st) (stdout st)
               (embed_log st) (S (rng_draws st)) (ext st)
    else st in
  let report : dict :=
    [(k_title, VStr title); (py "link", VStr link); (k_date, VStr date);
     (py "label", VStr label); (py "category", VStr category);
     (py "summary", VStr summary); (py "full_content", VStr []);
     (k_pid, VStr pid)] in
  if Str.nonempty link then
    match get_detail W link with
    | Replied page =>
        match d_container page with
        | Some c => (refine_from_detail c label report, st)
        | None => (report, st)
        end
    | Failed _ => (report, st)
    end
  else (report, st).

(** One pass of [for article_info in reporter_articles], after its first
    test of [duplicate_found]. *)
Definition process_article (W : World) (last_crawled_title : pyval) (page : nat)
    (info : nat * article * pystr) (c : counters) (st : St) : counters * St :=
  let '(i, a, article_id) := info in
  let st := print (EvHeader page i article_id) st in
  match a_title a with
  | None => (c, st)
  | Some title =>
      if negb (Str.nonempty title) then (c, st)
      else
        let st := print (EvTitle title) st in
        if in_backup title st then (c, print (EvDuplicate title) st)
        else if truthy last_crawled_title && eq_str last_crawled_title title then
          (mk_counters (total_processed c) (success_count c) (skip_count c)
                       (error_count c) (backup_count c) (first_article_title c) true,
           print EvStop st)
        else
          let '(report, st) := build_report W title a article_id st in
          let first :=
            match first_article_title c with
            | None => Some title
            | Some t => Some t
            end in
          let '(result, _, st) := embedding_and_save W report st in
          let '(result_status, result_backup) := result in
          (mk_counters
             (S (total_processed c))
             (match result_status with success => S (success_count c) | _ => success_count c end)
             (match result_status with skip => S (skip_count c) | _ => skip_count c end)
             (match result_status with error => S (error_count c) | _ => error_count c end)
             (if result_backup then S (backup_count c) else backup_count c)
             first (duplicate_found c),
           st)
  end.

Fixpoint for_articles (W : World) (last_crawled_title : pyval) (page : nat)
    (infos : list (nat * article * pystr)) (c : counters) (st : St)
  : counters * St :=
  match infos with
  | [] => (c, st)
  | info :: rest =>
      if duplicate_found c then (c, st)
      else
        let '(c, st) := process_article W last_crawled_title page info c st in
        for_articles W last_crawled_title page rest c st
  end.

(** [while not duplicate_found and page <= max_pages], entered with
    [duplicate_found] false; [remaining] is [max_pages + 1 - page]. When the
    stop condition fired in the page, the loop test ends the loop. *)
Fixpoint pages_loop (W : World) (last_crawled_title : pyval)
    (remaining page : nat) (c : counters) (st : St) : res counters * St :=
  match remaining with
  | O => (Ok c, st)
  | S remaining' =>
      match get_listing W page with
      | Failed d => (Raise (CollaboratorError d), st)
      | Replied soup =>
          match articles soup with
          | [] => (Ok c, st)
          | _ =>
              let '(c, st) :=
                for_articles W last_crawled_title page
                             (reporter_articles (articles soup)) c st in
              if duplicate_found c then (Ok c, st)
              else if next_button soup
                   then pages_loop W last_crawled_title remaining' (S page) c st
                   else (Ok c, st)
          end
      end
  end.

Definition initial_counters : counters := mk_counters 0 0 0 0 0 None false.

(** [main_process(max_pages)]: the returned statistics, or the exception the
    handler re-raises. *)
Definition main_process (W : World) (max_pages : nat) (st : St)
  : res statistics * St :=
  match get_last_crawled_title st with
  | (Raise e, st) => (Raise e, st)
  | (Ok last_crawled_title, st) =>
      match pages_loop W last_crawled_title max_pages 1 initial_counters st with
      | (Raise e, st) => (Raise e, st)
      | (Ok c, st) =>
          let stats := mk_statistics (total_processed c) (success_count c)
                         (skip_count c) (error_count c) (backup_count c) in
          match first_article_title c with
          | Some first =>
              if (0 <? total_processed c)%nat && negb (duplicate_found c) then
                match update_last_crawled_title W first st with
                | (Ok _, st) => (Ok stats, print (EvCursorSaved first) st)
                | (Raise e, st) => (Raise e, st)
                end
              else (Ok stats, st)
          | None => (Ok stats, st)
          end
      end
  end.

End Main.

(** ** Observations on a run, used to state the properties *)

(** The documents written to the store by the calls of a log, latest first. *)
Definition indexed_documents (log : list es_call) : list dict :=
  flat_map (fun c => match c with Index _ _ d => [d] | _ => [] end) log.

(** [log'] is [log] after more calls, each of which satisfies [P]. *)
Inductive grows (P : es_call -> Prop) (log : list es_call)
  : list es_call -> Prop :=
| grows_refl : grows P log log
| grows_call (c : es_call) (log' : list es_call) :
    P c -> grows P log log' -> grows P log (c :: log').

Definition is_write (c : es_call) : bool :=
  match c with
  | Index _ _ _ | IndicesCreate _ => true
  | _ => false
  end.

(** An answer the code can read: a search that counts hits returns one. *)
Definition readable (c : es_call) : answer c -> Prop :=
  match c as c0 return answer c0 -> Prop with
  | SearchTitle _ _ | SearchPid _ _ =>
      fun h => (0 < total h)%Z -> ids h <> []
  | _ => fun _ => True
  end.

Definition is_title_search (c : es_call) : bool :=
  match c with SearchTitle _ _ => true | _ => false end.

(** A store that answers every call that [Q] selects. *)
Definition answers (W : World) (Q : es_call -> bool) : Prop :=
  forall log c, Q c = true -> exists a, es W log c = Replied a /\ readable c a.

(** A store that answers every call. *)
Definition healthy (W : World) : Prop := answers W (fun _ => true).

(** The uploader can be built: the environment holds credentials that the
    constructor of the client accepts. *)
Definition built (W : World) : Prop := ESUploader.__init__ W = Ok tt.

(** [m] takes every state to one that is [R]-related to it, whether it
    returns or raises. *)
Definition keeps {S A : Type} (R : S -> S -> Prop) (m : M S A) : Prop :=
  forall s, R s (snd (m s)).

(** The record of a [save_to_es] call is changed at the keys [ks] only. *)
Definition frame (ks : list pystr) (s s' : Main.SaveSt) : Prop :=
  forall k, ~ In k ks ->
            Dict.get (Main.sv_data s') k = Dict.get (Main.sv_data s) k.

(** The store log of a [save_to_es] call only gets calls that satisfy [P]. *)
Definition store_grows (P : es_call -> Prop) (s s' : Main.SaveSt) : Prop :=
  grows P (es_log (Main.sv_ext s)) (es_log (Main.sv_ext s')).

(** The date of a record is a string that is not blank. *)
Definition date_ok (data : dict) : Prop :=
  exists d, Dict.get data Main.k_date = Some (VStr d) /\ Str.strip d <> [].

(** The title of a record is a string that is not blank. *)
Definition title_is (data : dict) (t : pystr) : Prop :=
  Dict.get data Main.k_title = Some (VStr t) /\ Str.strip t <> [].

(** The record has an identifier that counts as present. *)
Definition pid_ok (data : dict) : Prop :=
  exists v, Dict.get data Main.k_pid = Some v /\ truthy v = true.

(** A record as an attempt leaves it once title, date and identifier have
    been dealt with. *)
Definition settled (data : dict) (t : pystr) : Prop :=
  title_is data t /\ date_ok data /\ pid_ok data.

(** What [save_to_es] answers on its last attempt for the answer [up] of
    the upload. *)
Definition upload_answer (n : nat) (up : result) : result :=
  match Result up with
  | code_Y => up
  | _ => mk_result code_N (MsgUploadFailed n (Message up)) None None
  end.

(** Every document written by a call has a date that is not blank. *)
Definition writes_dated (c : es_call) : Prop :=
  forall i id doc, c = Index i id doc -> date_ok doc.

(** The state of a call after one more title search. *)
Definition searched (s : Main.SaveSt) (t : pystr) : Main.SaveSt :=
  Main.mk_save (Main.sv_data s)
    (mk_ext (SearchTitle Main.index_name t :: es_log (Main.sv_ext s))
            (clock_reads (Main.sv_ext s))).

(** The store log is left as it is. *)
Definition same_log (s s' : Main.SaveSt) : Prop :=
  es_log (Main.sv_ext s') = es_log (Main.sv_ext s).

(** The date [fill_date] leaves in a record whose date string is [d], when
    the clock has been read [n] times. *)
Definition date_after (W : World) (n : nat) (d : pystr) : pystr :=
  if Str.nonempty (Str.strip d) then d
  else DT.strftime_dashed (libc_pads_year W) (now W n).

(** The date prefix that lines 100-115 make of a date string [da] that is
    not empty, when the clock has been read [n] times: the date the pattern
    finds in it, else the date [strptime] reads it as, else the day of the
    clock. *)
Definition date_prefix_for (W : World) (n : nat) (da : pystr) : pystr :=
  match DT.search_date da with
  | Some (y, m, d) => y ++ Str.zfill 2 m ++ Str.zfill 2 d
  | None =>
      match DT.strptime da (py "%Y-%m-%d") with
      | Some data_date => DT.strftime_compact (libc_pads_year W) data_date
      | None => DT.strftime_compact (libc_pads_year W) (now W n)
      end
  end.

(** The number of clock readings after [fill_date] on a date string [d]. *)
Definition clock_after (n : nat) (d : pystr) : nat :=
  if Str.nonempty (Str.strip d) then n else S n.

(** A date that is not blank stays as it is. *)
Definition date_stays (s s' : Main.SaveSt) : Prop :=
  date_ok (Main.sv_data s) ->
  Dict.get (Main.sv_data s') Main.k_date = Dict.get (Main.sv_data s) Main.k_date.

(** A null one level down: a null field, a null element of a list field or a
    null value of a mapping field. *)
Definition shallow_null (v : pyval) : bool :=
  match v with
  | VNone => true
  | VList l | VTuple l => existsb (fun x => match x with VNone => true | _ => false end) l
  | VDict d => existsb (fun kv => match snd kv with VNone => true | _ => false end) d
  | _ => false
  end.

(** The canonical form [YYYY-MM-DDTHH:MM:SS]: nineteen characters, ASCII
    digits around the five separators. *)
Definition is_digit (c : N) : bool := Str.is_ascii_range "0" "9" c.

Definition iso_shape (s : pystr) : bool :=
  match s with
  | [y1; y2; y3; y4; s1; m1; m2; s2; d1; d2; t; h1; h2; s3; n1; n2; s4; c1; c2] =>
      forallb is_digit [y1; y2; y3; y4; m1; m2; d1; d2; h1; h2; n1; n2; c1; c2]
      && Str.eqb [s1; s2; t; s3; s4] (py "--T::")
  | _ => false
  end.

(** The six numbers written in the canonical form, and a date and time cut
    to the second. *)
Definition read_iso (s : pystr) : option DT.datetime :=
  match s with
  | [y1; y2; y3; y4; _; m1; m2; _; d1; d2; _; h1; h2; _; n1; n2; _; c1; c2] =>
      match Str.int_of_digits [y1; y2; y3; y4], Str.int_of_digits [m1; m2],
            Str.int_of_digits [d1; d2], Str.int_of_digits [h1; h2],
            Str.int_of_digits [n1; n2], Str.int_of_digits [c1; c2] with
      | Some y, Some m, Some d, Some h, Some n, Some c =>
          Some (DT.mk_datetime y m d h n c 0)
      | _, _, _, _, _, _ => None
      end
  | _ => None
  end.

Definition to_the_second (dt : DT.datetime) : DT.datetime :=
  DT.mk_datetime (DT.year dt) (DT.month dt) (DT.day dt)
                 (DT.hour dt) (DT.minute dt) (DT.second dt) 0.

(** The form [YYYY-MM-DD]: the first ten characters of the canonical form. *)
Definition dashed_shape (s : pystr) : bool := iso_shape (s ++ py "T00:00:00").

(** The cursor: [last_crawled_title] of the history file. *)
Definition cursor (st : St) : option pyval :=
  match history_file st with
  | Some (VDict history) => Dict.get history (py "last_crawled_title")
  | _ => None
  end.

(** The titles a run examined (its title lines) and those it handed to
    [embedding_and_save], oldest first, read off the printed events. *)
Definition examined (events : list event) : list pystr :=
  rev (flat_map (fun e => match e with EvTitle t => [t] | _ => [] end) events).

Definition processed (events : list event) : list pyval :=
  rev (flat_map (fun e => match e with EvProcess t => [t] | _ => [] end) events).

Definition stopped (events : list event) : bool :=
  existsb (fun e => match e with EvStop => true | _ => false end) events.

Definition cursor_saved (events : list event) : list pystr :=
  flat_map (fun e => match e with EvCursorSaved t => [t] | _ => [] end) events.

(** The listing in iteration order: the entries the page loop hands to the
    entry loop, page after page, when nothing stops the crawl: pages are
    followed while they are within [max_pages], are fetched, hold entries
    and show a next-page button. *)
Fixpoint listing_walk (W : World) (remaining page : nat)
  : list (nat * article * pystr) :=
  match remaining with
  | O => []
  | S remaining' =>
      match get_listing W page with
      | Failed _ => []
      | Replied soup =>
          match articles soup with
          | [] => []
          | _ =>
              Main.reporter_articles (articles soup)
              ++ (if next_button soup then listing_walk W remaining' (S page) else [])
          end
      end
  end.

Definition iteration_order (W : World) (max_pages : nat)
  : list (nat * article * pystr) :=
  listing_walk W max_pages 1.

Definition title_of (info : nat * article * pystr) : option pystr :=
  a_title (snd (fst info)).

(** The counters of the entry loop against the printed events: the count
    of processed entries, the remembered first processed title and the stop
    flag are those the events show, and the loop never saves the cursor. *)
Definition accounts (c : Main.counters) (events : list event) : Prop :=
  Main.total_processed c = length (processed events)
  /\ option_map VStr (Main.first_article_title c) = hd_error (processed events)
  /\ Main.duplicate_found c = stopped events
  /\ cursor_saved events = [].

(** The states the loops reach from [st0]: the events printed since then
    account for the counters, and the history file is as it was. *)
Definition run_state (st0 : St) (c : Main.counters) (st : St) : Prop :=
  exists new,
    stdout st = new ++ stdout st0
    /\ accounts c new
    /\ history_file st = history_file st0.

(** ** Worlds and documents on which the model is run *)

Module Fixture.

(** A store that holds nothing, has the index, knows [fields] and accepts
    every write. *)
Definition steady_es (fields : list pystr) (log : list es_call) (c : es_call)
  : reply (answer c) :=
  match c as c0 return reply (answer c0) with
  | SearchTitle _ _ => Replied (mk_hits 0 [])
  | SearchPid _ _ => Replied (mk_hits 0 [])
  | IndicesExists _ => Replied true
  | IndicesCreate _ => Replied tt
  | Refresh _ => Replied tt
  | GetMapping _ => Replied fields
  | Index i _ _ => Replied (mk_indexed (py "doc-1") i 1)
  end.

(** The documents a log has written, as a store would hold them: a write
    with an id replaces the document of that id. *)
Fixpoint stored (log : list es_call) : list (pystr * dict) :=
  match log with
  | [] => []
  | Index _ (Some id) d :: log' =>
      (id, d) :: filter (fun e => negb (Str.eqb (fst e) id)) (stored log')
  | Index _ None d :: log' =>
      (py "doc-" ++ Str.str_of_int (Z.of_nat (length (stored log'))), d)
        :: stored log'
  | _ :: log' => stored log'
  end.

Definition field_is (k : pystr) (v : pyval) (e : pystr * dict) : bool :=
  match v, Dict.get (snd e) k with
  | VStr s, Some (VStr s') => Str.eqb s s'
  | _, _ => false
  end.

Definition hits_of (found : list (pystr * dict)) : hits :=
  mk_hits (Z.of_nat (length found)) (map fst found).

(** A store in memory: it answers from what the earlier calls wrote, a
    title phrase matching the documents with that very title. *)
Definition memory_es (fields : list pystr) (log : list es_call) (c : es_call)
  : reply (answer c) :=
  match c as c0 return reply (answer c0) with
  | SearchTitle _ t =>
      Replied (hits_of (filter (field_is (py "title") (VStr t)) (stored log)))
  | SearchPid _ p =>
      Replied (hits_of (filter (field_is (py "pid") p) (stored log)))
  | IndicesExists _ => Replied (existsb is_write log)
  | IndicesCreate _ => Replied tt
  | Refresh _ => Replied tt
  | GetMapping _ => Replied fields
  | Index i (Some id) _ => Replied (mk_indexed id i 2)
  | Index i None _ =>
      Replied (mk_indexed
                 (py "doc-" ++ Str.str_of_int (Z.of_nat (length (stored log)))) i 1)
  end.

(** A store whose title search always fails and that otherwise behaves as
    [memory_es]. *)
Definition deaf_es (fields : list pystr) (log : list es_call) (c : es_call)
  : reply (answer c) :=
  match c as c0 return reply (answer c0) with
  | SearchTitle _ _ => Failed (py "search timed out")
  | c0 => memory_es fields log c0
  end.

(** A world: the listing pages (the first is page 1, a page past the last
    cannot be fetched), the store, and the day of January 2024 the clock
    shows. The tokenizer makes one token of each character; the environment
    holds the two credentials, and the client is built when it is given
    both. *)
Definition world (pages : list listing_page)
    (store : list es_call -> forall c : es_call, reply (answer c)) (day : Z)
  : World :=
  mk_world
    (fun n => match n with
              | O => Failed (py "404")
              | S n' => match nth_error pages n' with
                        | Some p => Replied p
                        | None => Failed (py "connection refused")
                        end
              end)
    (fun _ => Failed (py "connection refused"))
    (fun _ => DT.mk_datetime 2024 1 day 12 0 0 0)
    false
    (fun _ => 300%Z)
    (fun text => Replied (map Z.of_N text))
    (fun tokens => map Z.to_N tokens)
    (fun _ _ => Replied [VFloat 0])
    store
    (fun name => if Str.eqb name (py "es_username") then Some (py "elastic")
                 else if Str.eqb name (py "es_password") then Some (py "secret")
                 else None)
    (fun username password =>
       match username, password with
       | Some _, Some _ => Replied tt
       | _, _ => Failed (py "'basic_auth' must be a 2-tuple of str/bytes")
       end)
    (fun _ => true)
    (fun _ => py "?").

Definition fresh_ext : Ext := mk_ext [] 0.

Definition fresh_state (history : option pyval) : St :=
  mk_st history None 0 [] [] 0 fresh_ext.

Definition an_index : pystr := py "test_documents".

(** A listing entry with a reporter class, a title and nothing else. *)
Definition entry (id title : string) : article :=
  mk_article [py "kb-query-item"; Main.reporter_prefix ++ py id]
             (Some (py title)) None [] None None.

Definition history_with (title : string) : option pyval :=
  Some (VDict [(py "last_crawled_title", VStr (py title));
               (py "last_crawled_time", VStr (py "2024-01-01T00:00:00"))]).

(** A backup file that holds one line, ended by a line break, for each of
    [titles], and a state with a history file and a backup file. *)
Definition ledger_of (titles : list string) : option ledger :=
  Some (mk_ledger (map (fun t => Some (VDict [(py "title", VStr (py t))])) titles)
                  None).

Definition state_with (history : option pyval) (backup : option ledger) : St :=
  mk_st history backup 0 [] [] 0 fresh_ext.

(** The fields the store of the scenarios knows. *)
Definition report_fields : list pystr :=
  [py "title"; py "link"; py "date"; py "label"; py "category"; py "summary";
   py "full_content"; py "pid"; py "embeddings"].

(** A record as [main_process] builds it, and a store that already holds a
    document with its title. *)
Definition a_record : dict :=
  [(py "title", VStr (py "X")); (py "link", VStr []);
   (py "date", VStr (py "2024-01-05")); (py "label", VStr []);
   (py "category", VStr []); (py "summary", VStr []);
   (py "full_content", VStr []); (py "pid", VStr (py "20240105123"))].


(** A record without date and without identifier. *)
Definition a_bare_record : dict :=
  [(py "title", VStr (py "X")); (py "date", VStr [])].

(** A document with a null inside a mapping inside a list field. *)
Definition nested_null_document : dict :=
  [(py "pid", VStr (py "p1"));
   (py "articut_result_obj", VList [VDict [(py "text", VNone)]])].

(** A document with one of the time-keeping fields. *)
Definition timed_document : dict :=
  [(py "pid", VStr (py "p1")); (py "title", VStr (py "t"));
   (py "total_processing_time", VInt 5)].

(** The document of the strict-field scenario. *)
Definition extra_field_document : dict :=
  [(py "pid", VStr (py "p1")); (py "title", VStr (py "t"));
   (py "extra_field", VStr (py "x"))].

End Fixture.

(** ** Further observations and scenarios *)

Definition is_refresh (c : es_call) : bool :=
  match c with Refresh _ => true | _ => false end.

Definition is_index (c : es_call) : bool :=
  match c with Index _ _ _ => true | _ => false end.



Module Scene.

(** A store that writes but whose refresh always fails. *)
Definition no_refresh_es (log : list es_call) (c : es_call)
  : reply (answer c) :=
  match c as c0 return reply (answer c0) with
  | Refresh _ => Failed (py "refresh failed")
  | c0 => Fixture.steady_es Fixture.report_fields log c0
  end.

(** A document with nulls at the first level and one level down. *)
Definition holed_document : dict :=
  [(py "pid", VStr (py "p1"));
   (py "note", VNone);
   (py "tags", VTuple [VNone; VStr (py "demo")]);
   (py "author", VDict [(py "name", VNone); (py "email", VStr (py "a@b"))])].

(** The world [W] with a backup file that cannot be written, and with an
    embedding provider that fails. *)
Definition read_only (W : World) : World :=
  mk_world (get_listing W) (get_detail W) (now W) (libc_pads_year W) (randint W)
           (encode W) (decode W) (embed W) (es W) (getenv W) (new_client W)
           (fun _ => false) (format_other W).

Definition no_provider (W : World) : World :=
  mk_world (get_listing W) (get_detail W) (now W) (libc_pads_year W) (randint W)
           (encode W) (decode W) (fun _ _ => Failed (py "rate limit"))
           (es W) (getenv W) (new_client W) (backup_writable W) (format_other W).

(** The world [W] with an environment that holds no variable. *)
Definition no_credentials (W : World) : World :=
  mk_world (get_listing W) (get_detail W) (now W) (libc_pads_year W) (randint W)
           (encode W) (decode W) (embed W) (es W) (fun _ => None) (new_client W)
           (backup_writable W) (format_other W).

(** A backup file whose only line, a record with the title [A], is not
    ended by a line break. *)
Definition unfinished_ledger : option ledger :=
  Some (mk_ledger [] (Some (OpenText (Some (VDict [(py "title", VStr (py "A"))]))))).

(** A record with a blank title and a blank date. *)
Definition a_blank_record : dict :=
  [(py "title", VStr (py " ")); (py "date", VStr [])].

End Scene.

(** What an answer of [save_to_es] certifies about the call that gave it:
    the answer [res], with the record and the store as the call left them. *)
Definition certified (W : World) (n : nat) (res : result) (s' : Main.SaveSt)
  : Prop :=
  match Result res with
  | code_Y =>
      existing_id res = None
      /\ (exists rd, ResultData res = Some rd
                     /\ Message res = MsgDone (operation_type rd) [])
      /\ exists id rest,
           es_log (Main.sv_ext s')
           = Refresh Main.index_name
             :: Index Main.index_name id
                  (ESUploader.clean_document (libc_pads_year W)
                     (Main.cleaned_data_of (Main.sv_data s')))
             :: rest
  | code_SKIP =>
      Message res = MsgTitleExists
      /\ ResultData res = None
      /\ exists id t h rest,
           existing_id res = Some id
           /\ Dict.get (Main.sv_data s') Main.k_title = Some (VStr t)
           /\ es_log (Main.sv_ext s') = SearchTitle Main.index_name t :: rest
           /\ es W rest (SearchTitle Main.index_name t) = Replied h
           /\ (0 < total h)%Z
           /\ hd_error (ids h) = Some id
  | code_N =>
      ResultData res = None
      /\ existing_id res = None
      /\ (Message res = MsgEmptyTitle
          \/ (exists m, Message res = MsgUploadFailed n m)
          \/ (exists e, Message res = MsgOperationFailed n e))
  end.

(** An identifier that counts as present stays as it is. *)
Definition pid_stays (s s' : Main.SaveSt) : Prop :=
  pid_ok (Main.sv_data s) ->
  Dict.get (Main.sv_data s') Main.k_pid = Dict.get (Main.sv_data s) Main.k_pid.

(** The counters add up: every processed entry is counted once as success,
    skip or error, and at most once as backed up. *)
Definition tally (c : Main.counters) : Prop :=
  Main.total_processed c
  = (Main.success_count c + Main.skip_count c + Main.error_count c)%nat
  /\ (Main.backup_count c <= Main.total_processed c)%nat.

(** [st'] is [st] after a stretch of the crawl in which nothing was done:
    lines were printed, none of them for a processed entry, a stop or a saved
    cursor, and nothing else changed. *)
Definition idle (st st' : St) : Prop :=
  history_file st' = history_file st
  /\ backup_file st' = backup_file st
  /\ backup_appends st' = backup_appends st
  /\ embed_log st' = embed_log st
  /\ rng_draws st' = rng_draws st
  /\ ext st' = ext st
  /\ exists new,
       stdout st' = new ++ stdout st
       /\ processed new = [] /\ stopped new = false /\ cursor_saved new = [].

(** The backup file can be appended to without harm: it is absent, or ends
    with a line break, or with spaces and tabs after the last one. *)
Definition ends_cleanly (st : St) : Prop :=
  match backup_file st with
  | Some file =>
      match last_open file with
      | Some (OpenText _) => False
      | _ => True
      end
  | None => True
  end.

(** An entry that the crawl has nothing to do with: it has no title, or an
    empty one, or its title is in the backup file. *)
Definition known (st : St) (info : nat * article * pystr) : Prop :=
  match title_of info with
  | Some t => t = [] \/ Main.in_backup t st = true
  | None => True
  end.

Definition is_str (v : pyval) : bool :=
  match v with VStr _ => true | _ => false end.

(** The keys of a report of [main_process], in order. *)
Definition report_keys : list pystr :=
  [py "title"; py "link"; py "date"; py "label"; py "category"; py "summary";
   py "full_content"; py "pid"].

(** The link of a listing entry cannot be followed: there is none, or its
    page cannot be fetched, or the page has no container for the article. *)
Definition no_detail (W : World) (a : article) : Prop :=
  match a_link a with
  | Some (Some href) =>
      href = []
      \/ (exists detail, get_detail W href = Failed detail)
      \/ get_detail W href = Replied (mk_detail None)
  | _ => True
  end.

(** A world in which the per-article pipeline cannot fail before the store:
    the tokenizer and the embedding provider answer, and the backup file can
    be appended to. *)
Definition dependable (W : World) : Prop :=
  (forall n, backup_writable W n = true)
  /\ (forall text, exists tokens, encode W text = Replied tokens)
  /\ (forall n text, exists v, embed W n text = Replied v).

(** The states the crawl reaches from [st0] in a dependable world, when the
    backup file ended cleanly at [st0]: the titles processed since then are
    pairwise different, were not in the backup file then and are in it now,
    the backup file has lost no title, and it still ends cleanly. *)
Definition backed_up (st0 st : St) : Prop :=
  (exists new,
      stdout st = new ++ stdout st0
      /\ NoDup (processed new)
      /\ Forall (fun v => exists t, v = VStr t
                                    /\ Main.in_backup t st0 = false
                                    /\ Main.in_backup t st = true)
                (processed new))
  /\ (forall y, Main.in_backup y st0 = true -> Main.in_backup y st = true)
  /\ ends_cleanly st.

(** A list of positions that goes up, starting at [lo] or later. *)
Fixpoint increasing (lo : nat) (l : list nat) : bool :=
  match l with
  | [] => true
  | x :: rest => (lo <=? x)%nat && increasing (S x) rest
  end.

(** The listing pages a run examined entries of, read off the header lines. *)
Definition pages_seen (events : list event) : list nat :=
  flat_map (fun e => match e with EvHeader p _ _ => [p] | _ => [] end) events.

(** The links of a dynamic list that give the label, and those that give
    the category. *)
Definition is_label_link (l : option (pystr * pystr)) : bool :=
  match l with
  | Some (href, _) => Str.contains Main.classification href
  | None => false
  end.

Definition is_category_link (l : option (pystr * pystr)) : bool :=
  match l with
  | Some (href, _) =>
      negb (Str.contains Main.classification href)
      && Str.contains Main.report_type href
  | None => false
  end.

Definition link_text (l : option (option (pystr * pystr))) : pystr :=
  match l with
  | Some (Some (_, text)) => text
  | _ => []
  end.

(** Since [st], only entries of the pages [lo] to [hi - 1] were examined. *)
Definition within (lo hi : nat) (st st' : St) : Prop :=
  exists new,
    stdout st' = new ++ stdout st
    /\ Forall (fun p => (lo <= p < hi)%nat) (pages_seen new).
(* ================================================================== *)
(** * Part II. Properties *)
(* ================================================================== *)

Unset Implicit Arguments.

(** ** The library models on known values *)

Example md5_empty :
  MD5.hexdigest [] = py "d41d8cd98f00b204e9800998ecf8427e".
Proof. vm_compute. reflexivity. Qed.

Example md5_abc :
  option_map MD5.hexdigest (Str.utf8_encode (py "abc"))
  = Some (py "900150983cd24fb0d6963f7d28e17f72").
Proof. vm_compute. reflexivity. Qed.

Example strptime_minutes :
  DT.strptime (py "2024/01/05 10:30") (py "%Y/%m/%d %H:%M")
  = Some (DT.mk_datetime 2024 1 5 10 30 0 0).
Proof. vm_compute. reflexivity. Qed.

Example strptime_rejects_february_30 :
  DT.strptime (py "2024-02-30") (py "%Y-%m-%d") = None.
Proof. vm_compute. reflexivity. Qed.

Example search_date_backtracks :
  DT.search_date (py "x 12345-123-4 2024-1-05z")
  = Some (py "2024", py "1", py "05").
Proof. vm_compute. reflexivity. Qed.

(** ** Strings and dictionaries *)

Lemma str_eqb_eq (a b : pystr) : Str.eqb a b = true <-> a = b.
Proof.
  revert b; induction a as [|x a IH]; destruct b as [|y b]; simpl;
    try (split; [discriminate | congruence]); try tauto.
  rewrite andb_true_iff, N.eqb_eq, IH. split.
  - intros [-> ->]; reflexivity.
  - intros H; injection H; auto.
Qed.

Lemma str_eqb_refl (a : pystr) : Str.eqb a a = true.
Proof. apply str_eqb_eq; reflexivity. Qed.

Lemma str_eqb_neq (a b : pystr) : Str.eqb a b = false <-> a <> b.
Proof.
  rewrite <- str_eqb_eq. destruct (Str.eqb a b); split; congruence.
Qed.

Lemma str_eqb_sym (a b : pystr) : Str.eqb a b = Str.eqb b a.
Proof.
  destruct (Str.eqb a b) eqn:E.
  - apply str_eqb_eq in E; subst; symmetry; apply str_eqb_refl.
  - symmetry; apply str_eqb_neq; apply str_eqb_neq in E; congruence.
Qed.

Lemma mem_In (k : pystr) (l : list pystr) : ESUploader.mem k l = true <-> In k l.
Proof.
  unfold ESUploader.mem. rewrite existsb_exists. split.
  - intros [x [Hin E]]. apply str_eqb_eq in E. subst; assumption.
  - intros Hin. exists k. split; [assumption | apply str_eqb_refl].
Qed.

Lemma nonempty_false (s : pystr) : Str.nonempty s = false <-> s = [].
Proof. destruct s; simpl; split; congruence. Qed.

Lemma nonempty_true (s : pystr) : Str.nonempty s = true <-> s <> [].
Proof. destruct s; simpl; split; congruence. Qed.

Lemma get_set_same (d : dict) (k : pystr) (v : pyval) :
  Dict.get (Dict.set d k v) k = Some v.
Proof.
  induction d as [|[k' v'] d IH]; simpl.
  - rewrite str_eqb_refl; reflexivity.
  - destruct (Str.eqb k' k) eqn:E; simpl; rewrite E; auto.
Qed.

Lemma get_set_other (d : dict) (k k' : pystr) (v : pyval) :
  k <> k' -> Dict.get (Dict.set d k v) k' = Dict.get d k'.
Proof.
  intros Hne. induction d as [|[k0 v0] d IH]; simpl.
  - apply str_eqb_neq in Hne. rewrite Hne; reflexivity.
  - destruct (Str.eqb k0 k) eqn:E; simpl.
    + apply str_eqb_eq in E; subst k0.
      apply str_eqb_neq in Hne. rewrite Hne; reflexivity.
    + destruct (Str.eqb k0 k'); auto.
Qed.

Lemma get_default_set_same (d : dict) (k : pystr) (v dflt : pyval) :
  Dict.get_default (Dict.set d k v) k dflt = v.
Proof. unfold Dict.get_default. rewrite get_set_same; reflexivity. Qed.

Lemma get_default_set_other (d : dict) (k k' : pystr) (v dflt : pyval) :
  k <> k' ->
  Dict.get_default (Dict.set d k v) k' dflt = Dict.get_default d k' dflt.
Proof. intros H. unfold Dict.get_default. rewrite get_set_other; auto. Qed.

Lemma has_set_same (d : dict) (k : pystr) (v : pyval) :
  Dict.has (Dict.set d k v) k = true.
Proof. unfold Dict.has. rewrite get_set_same; reflexivity. Qed.

(** ** The sanitize step of [upload_single_document] *)

Lemma get_clean_document (pads : bool) (d : dict) (k : pystr) :
  Dict.get (ESUploader.clean_document pads d) k
  = if ESUploader.mem k ESUploader.time_fields_to_exclude then None
    else option_map (ESUploader.clean_value pads k) (Dict.get d k).
Proof.
  unfold ESUploader.clean_document.
  induction d as [|[k0 v0] d IH]; cbn [flat_map fst snd Dict.get].
  - destruct (ESUploader.mem k ESUploader.time_fields_to_exclude); reflexivity.
  - destruct (ESUploader.mem k0 ESUploader.time_fields_to_exclude) eqn:Et0;
      cbn [app Dict.get]; rewrite IH;
      destruct (Str.eqb k0 k) eqn:E; try reflexivity.
    + apply str_eqb_eq in E; subst k0. rewrite Et0. reflexivity.
    + apply str_eqb_eq in E; subst k0. rewrite Et0. reflexivity.
Qed.

Lemma keys_clean_document (pads : bool) (d : dict) :
  Dict.keys (ESUploader.clean_document pads d)
  = filter (fun k => negb (ESUploader.mem k ESUploader.time_fields_to_exclude))
           (Dict.keys d).
Proof.
  unfold Dict.keys, ESUploader.clean_document.
  induction d as [|[k v] d IH]; cbn [map flat_map fst snd filter app];
    [reflexivity|].
  destruct (ESUploader.mem k ESUploader.time_fields_to_exclude);
    cbn [negb map app]; rewrite IH; reflexivity.
Qed.

(** ** The store log of [upload_single_document] *)

Lemma grows_weaken (P Q : es_call -> Prop) (log log' : list es_call) :
  (forall c, P c -> Q c) -> grows P log log' -> grows Q log log'.
Proof. intros H G; induction G; constructor; auto. Qed.

Lemma grows_trans (P : es_call -> Prop) (l1 l2 l3 : list es_call) :
  grows P l1 l2 -> grows P l2 l3 -> grows P l1 l3.
Proof. intros G1 G2; induction G2; [assumption | constructor; auto]. Qed.

Lemma grows_app (P : es_call -> Prop) (log log' : list es_call) :
  grows P log log' <-> exists new, log' = new ++ log /\ Forall P new.
Proof.
  split.
  - intros G; induction G as [|c log' Hc G [new [-> HF]]].
    + exists []; split; [reflexivity | constructor].
    + exists (c :: new); split; [reflexivity | constructor; assumption].
  - intros [new [-> HF]]. induction HF; simpl; constructor; assumption.
Qed.

Lemma get_filter_keys (p : pystr -> bool) (d : dict) (k : pystr) :
  Dict.get (filter (fun kv => p (fst kv)) d) k
  = if p k then Dict.get d k else None.
Proof.
  induction d as [|[k0 v0] d IH]; cbn [filter fst Dict.get].
  - destruct (p k); reflexivity.
  - destruct (p k0) eqn:Ep; cbn [Dict.get]; rewrite IH;
      destruct (Str.eqb k0 k) eqn:E; try reflexivity;
      apply str_eqb_eq in E; subst k0; rewrite Ep; reflexivity.
Qed.

(** *** Relations kept by monadic code *)

Section Keeps.

Variables (S : Type) (R : S -> S -> Prop).
Hypothesis R_refl : forall s, R s s.
Hypothesis R_trans : forall s1 s2 s3, R s1 s2 -> R s2 s3 -> R s1 s3.

Lemma keeps_ret (A : Type) (a : A) : keeps R (ret a).
Proof. intros s; apply R_refl. Qed.

Lemma keeps_raise (A : Type) (e : exn) : keeps R (@raise S A e).
Proof. intros s; apply R_refl. Qed.

Lemma keeps_get_state : keeps R (@get_state S).
Proof. intros s; apply R_refl. Qed.

Lemma keeps_bind (A B : Type) (m : M S A) (k : A -> M S B) :
  keeps R m -> (forall a, keeps R (k a)) -> keeps R (bind m k).
Proof.
  intros Hm Hk s. unfold bind. specialize (Hm s).
  destruct (m s) as [[a | e] s']; simpl in *.
  - eapply R_trans; [exact Hm | apply Hk].
  - exact Hm.
Qed.

Lemma keeps_try_except (A : Type) (m : M S A) (h : exn -> M S A) :
  keeps R m -> (forall e, keeps R (h e)) -> keeps R (try_except m h).
Proof.
  intros Hm Hh s. unfold try_except. specialize (Hm s).
  destruct (m s) as [[a | e] s']; simpl in *.
  - exact Hm.
  - eapply R_trans; [exact Hm | apply Hh].
Qed.

End Keeps.

Lemma grows_refl' (P : es_call -> Prop) (log : list es_call) : grows P log log.
Proof. constructor. Qed.

Lemma keeps_request (P : es_call -> Prop) (W : World) (c : es_call) :
  P c -> keeps (grows P) (es_request W c).
Proof.
  intros Hc log. unfold es_request.
  destruct (es W log c); simpl; constructor; auto; constructor.
Qed.

(** One step of a proof that code keeps a relation; [leaf] closes the
    primitive operations. *)
Ltac keeps_steps refl trans leaf :=
  repeat first
    [ leaf
    | apply (@keeps_ret _ _ refl)
    | apply (@keeps_raise _ _ refl)
    | apply (@keeps_bind _ _ trans); [|intros ?]
    | apply (@keeps_try_except _ _ trans); [|intros ?]
    | match goal with
      | |- keeps _ (match ?x with _ => _ end) => destruct x
      | |- keeps _ (if ?b then _ else _) => destruct b
      | |- keeps _ (let '(_, _) := ?x in _) => destruct x
      end ].

(** Whatever the store answers, a non-strict upload sends it nothing but the
    cleaned document. *)
Lemma upload_log_any (W : World) (document : dict) (idx : pystr)
    (log : list es_call) :
  grows (fun c => forall i id d, c = Index i id d ->
                  d = ESUploader.clean_document (libc_pads_year W) document)
        log (snd (ESUploader.upload_single_document W document idx false log)).
Proof.
  unfold ESUploader.upload_single_document.
  destruct document as [|kv document']; [constructor|].
  set (doc := kv :: document').
  destruct (negb (Dict.has doc (py "pid"))); [constructor|].
  assert (H : keeps (grows (fun c => forall i id d, c = Index i id d ->
                      d = ESUploader.clean_document (libc_pads_year W) doc))
                   (ESUploader.upload_steps W doc idx false)).
  { unfold ESUploader.upload_steps. cbv zeta.
    keeps_steps (@grows_refl' (fun c => forall i id d, c = Index i id d ->
                      d = ESUploader.clean_document (libc_pads_year W) doc))
                (@grows_trans (fun c => forall i id d, c = Index i id d ->
                      d = ESUploader.clean_document (libc_pads_year W) doc))
                ltac:(idtac; match goal with
                      | |- keeps (grows ?P) (es_request ?W ?c) =>
                          apply (@keeps_request P W c)
                      end);
    try (intros ? ? ? [=]; subst; reflexivity). }
  specialize (H log).
  destruct (ESUploader.upload_steps W doc idx false log) as [[r | e] log'];
    exact H.
Qed.

Lemma request_healthy (W : World) (Q : es_call -> bool) (c : es_call)
    (log : list es_call) :
  answers W Q -> Q c = true ->
  exists a, es_request W c log = (Ok a, c :: log) /\ readable c a.
Proof.
  intros H HQ. destruct (H log c HQ) as [a [E R]].
  exists a. unfold es_request. rewrite E. auto.
Qed.

Ltac run_request Hh :=
  match goal with
  | |- context [es_request ?W ?c ?log] =>
      let a := fresh "a" in
      let E := fresh "E" in
      let R := fresh "R" in
      destruct (@request_healthy W _ c log Hh eq_refl) as (a & E & R);
      rewrite E; clear E; cbn beta iota
  end.

Lemma pid_not_time_field :
  ESUploader.mem (py "pid") ESUploader.time_fields_to_exclude = false.
Proof. vm_compute. reflexivity. Qed.

(** With a store that answers, an upload succeeds and writes one document:
    the cleaned document, filtered by the index fields in strict mode. *)
Lemma upload_healthy (W : World) (document : dict) (idx : pystr)
    (strict : bool) (fields : list pystr) (log : list es_call) :
  answers W (fun c => negb (is_title_search c)) ->
  Dict.has document (py "pid") = true ->
  (strict = true ->
   (forall l, es W l (GetMapping idx) = Replied fields)
   /\ ESUploader.mem (py "pid") fields = true) ->
  let cleaned := ESUploader.clean_document (libc_pads_year W) document in
  let sent :=
    if strict then filter (fun kv => ESUploader.mem (fst kv) fields) cleaned
    else cleaned in
  let ignored :=
    if strict
    then filter (fun k => negb (ESUploader.mem k fields)) (Dict.keys cleaned)
    else [] in
  exists r log' rd,
    ESUploader.upload_single_document W document idx strict log = (r, log')
    /\ Result r = code_Y
    /\ ResultData r = Some rd
    /\ ignored_fields rd = ignored
    /\ Message r = MsgDone (operation_type rd) ignored
    /\ indexed_documents log' = sent :: indexed_documents log.
Proof.
  intros Hh Hpid Hstrict cleaned sent ignored.
  unfold ESUploader.upload_single_document.
  destruct document as [|kv document']; [discriminate|].
  set (doc := kv :: document') in *.
  rewrite Hpid. cbn [negb].
  assert (Hget : exists pid, Dict.get sent (py "pid") = Some pid).
  { unfold Dict.has in Hpid.
    destruct (Dict.get doc (py "pid")) as [v|] eqn:Ev; [|discriminate].
    exists (ESUploader.clean_value (libc_pads_year W) (py "pid") v).
    subst sent. destruct strict.
    - rewrite (get_filter_keys (fun k => ESUploader.mem k fields)).
      destruct (Hstrict eq_refl) as [_ ->].
      subst cleaned. rewrite get_clean_document, pid_not_time_field, Ev.
      reflexivity.
    - subst cleaned. rewrite get_clean_document, pid_not_time_field, Ev.
      reflexivity. }
  destruct Hget as [pid Hget].
  unfold ESUploader.upload_steps. cbv zeta.
  fold cleaned.
  unfold bind.
  run_request Hh.
  assert (Hcreated :
    exists log1,
      (if a then ret tt else es_request W (IndicesCreate idx))
        (IndicesExists idx :: log) = (Ok tt, log1)
      /\ indexed_documents log1 = indexed_documents log).
  { destruct a.
    - eexists; split; reflexivity.
    - destruct (@request_healthy W _ (IndicesCreate idx) (IndicesExists idx :: log)
                  Hh eq_refl) as (u & E & _).
      destruct u. rewrite E. eexists; split; reflexivity. }
  destruct Hcreated as (log1 & -> & Hlog1). cbn beta iota.
  destruct strict; cbn beta iota in *.
  - unfold ESUploader.get_index_fields, es_request at 1.
    destruct (Hstrict eq_refl) as [-> _]. cbn beta iota.
    fold sent. rewrite Hget. unfold ret at 1. cbn beta iota.
    run_request Hh.
    destruct (total a0 >? 0)%Z eqn:Etot.
    + destruct (ids a0) as [|existing rest] eqn:Eids.
      * exfalso.
        match goal with H : readable (SearchPid _ _) _ |- _ => apply H end;
          [apply Z.gtb_lt in Etot; lia | exact Eids].
      * run_request Hh. unfold ret at 1. cbn beta iota.
        run_request Hh. unfold ret.
        eexists _, _, _. repeat split; try reflexivity.
        unfold indexed_documents in *. cbn [flat_map app]. rewrite Hlog1. reflexivity.
    + run_request Hh. unfold ret at 1. cbn beta iota.
      run_request Hh. unfold ret.
      eexists _, _, _. repeat split; try reflexivity.
      unfold indexed_documents in *. cbn [flat_map app]. rewrite Hlog1. reflexivity.
  - unfold ret at 1. cbn beta iota.
    fold sent. rewrite Hget. unfold ret at 1. cbn beta iota.
    run_request Hh.
    destruct (total a0 >? 0)%Z eqn:Etot.
    + destruct (ids a0) as [|existing rest] eqn:Eids.
      * exfalso.
        match goal with H : readable (SearchPid _ _) _ |- _ => apply H end;
          [apply Z.gtb_lt in Etot; lia | exact Eids].
      * run_request Hh. unfold ret at 1. cbn beta iota.
        run_request Hh. unfold ret.
        eexists _, _, _. repeat split; try reflexivity.
        unfold indexed_documents in *. cbn [flat_map app]. rewrite Hlog1. reflexivity.
    + run_request Hh. unfold ret at 1. cbn beta iota.
      run_request Hh. unfold ret.
      eexists _, _, _. repeat split; try reflexivity.
      unfold indexed_documents in *. cbn [flat_map app]. rewrite Hlog1. reflexivity.
Qed.

Lemma healthy_answers (W : World) (Q : es_call -> bool) :
  healthy W -> answers W Q.
Proof. intros H log c _. apply H. reflexivity. Qed.

Lemma steady_es_healthy (fields : list pystr) (pages : list listing_page) (day : Z) :
  healthy (Fixture.world pages (Fixture.steady_es fields) day).
Proof.
  intros log c _. destruct c; cbn; eexists; split; try reflexivity;
    cbn; try exact I; intros H; inversion H.
Qed.

(** ** C3: nulls after the sanitize step *)

(** C3 (the code falls short of the claim). The sanitize step replaces a null
    field, a null element of a list field and a null value of a mapping
    field, and goes no deeper: a null inside a mapping inside a list field
    is still there after the step and is written to the store. *)
Lemma sanitize_keeps_nested_null :
  ESUploader.clean_document false Fixture.nested_null_document = Fixture.nested_null_document
  /\ has_null (VDict (ESUploader.clean_document false Fixture.nested_null_document)) = true
  /\ indexed_documents
       (snd (ESUploader.upload_single_document
               (Fixture.world [] (Fixture.steady_es []) 1)
               Fixture.nested_null_document Fixture.an_index false []))
     = [Fixture.nested_null_document].
Proof. vm_compute. repeat split; reflexivity. Qed.

Lemma none_to_empty_not_none (l : list pyval) :
  existsb (fun x => match x with VNone => true | _ => false end)
          (map ESUploader.none_to_empty l) = false.
Proof. induction l as [|[] l IH]; simpl; auto. Qed.

Lemma clean_value_shallow (pads : bool) (k : pystr) (v : pyval) :
  shallow_null (ESUploader.clean_value pads k v) = false.
Proof.
  destruct v; try reflexivity.
  - unfold ESUploader.clean_value.
    destruct (ESUploader.mem k _); [|reflexivity].
    destruct (ESUploader._format_date pads s) as [f|]; [|reflexivity].
    destruct (Str.nonempty f); reflexivity.
  - apply none_to_empty_not_none.
  - apply none_to_empty_not_none.
  - cbn [ESUploader.clean_value shallow_null].
    induction d as [|[k0 []] d IH]; simpl; auto.
Qed.

Lemma sanitize_one_level (pads : bool) (document : dict) (k : pystr) (v : pyval) :
  In (k, v) (ESUploader.clean_document pads document) -> shallow_null v = false.
Proof.
  unfold ESUploader.clean_document. rewrite in_flat_map.
  intros [[k0 v0] [_ Hin]]. cbn [fst snd] in Hin.
  destruct (ESUploader.mem k0 ESUploader.time_fields_to_exclude); [contradiction|].
  destruct Hin as [[= <- <-]|[]]. apply clean_value_shallow.
Qed.

(** ** C5: field filtering *)

(** C5, as stated, fails: with [strict_fields] false the upload succeeds and
    the field [total_processing_time] of the record is not in the document
    that is written. *)
Lemma non_strict_upload_drops_time_field :
  Dict.has Fixture.timed_document (py "total_processing_time") = true
  /\ ESUploader.upload_single_document
       (Fixture.world [] (Fixture.steady_es []) 1)
       Fixture.timed_document Fixture.an_index false []
     = (mk_result code_Y (MsgDone created [])
          (Some (mk_result_data (mk_indexed (py "doc-1") Fixture.an_index 1)
                   created (py "doc-1") Fixture.an_index 1 []))
          None,
        [Refresh Fixture.an_index;
         Index Fixture.an_index None
           [(py "pid", VStr (py "p1")); (py "title", VStr (py "t"))];
         SearchPid Fixture.an_index (VStr (py "p1"));
         IndicesExists Fixture.an_index]).
Proof. vm_compute. split; reflexivity. Qed.

(** C5, amended. The five time-keeping fields are dropped in both modes and
    reported in neither. Of the other fields, a non-strict upload drops none;
    a strict upload drops those the index does not know and reports their
    names, and it answers Y when [pid] is a known field. (The store answers
    every call.) *)
Theorem upload_field_filtering (W : World) (document : dict) (idx : pystr)
    (fields : list pystr) (log : list es_call) :
  healthy W ->
  Dict.has document (py "pid") = true ->
  let cleaned := ESUploader.clean_document (libc_pads_year W) document in
  Dict.keys cleaned
  = filter (fun k => negb (ESUploader.mem k ESUploader.time_fields_to_exclude))
           (Dict.keys document)
  /\ (let r := ESUploader.upload_single_document W document idx false log in
      Result (fst r) = code_Y
      /\ indexed_documents (snd r) = cleaned :: indexed_documents log
      /\ option_map ignored_fields (ResultData (fst r)) = Some [])
  /\ ((forall l, es W l (GetMapping idx) = Replied fields) ->
      ESUploader.mem (py "pid") fields = true ->
      let r := ESUploader.upload_single_document W document idx true log in
      Result (fst r) = code_Y
      /\ indexed_documents (snd r)
         = filter (fun kv => ESUploader.mem (fst kv) fields) cleaned
           :: indexed_documents log
      /\ option_map ignored_fields (ResultData (fst r))
         = Some (filter (fun k => negb (ESUploader.mem k fields))
                        (Dict.keys cleaned))).
Proof.
  intros Hh Hpid cleaned. split; [apply keys_clean_document|]. split.
  - destruct (@upload_healthy W document idx false fields log
                (healthy_answers W _ Hh) Hpid)
      as (r & log' & rd & E & HY & Hrd & Hig & _ & Hdocs); [discriminate|].
    cbv zeta. rewrite E. cbn [fst snd]. rewrite Hrd. cbn [option_map].
    rewrite Hig. auto.
  - intros Hmap Hknown.
    destruct (@upload_healthy W document idx true fields log
                (healthy_answers W _ Hh) Hpid)
      as (r & log' & rd & E & HY & Hrd & Hig & _ & Hdocs); [auto|].
    cbv zeta. rewrite E. cbn [fst snd]. rewrite Hrd. cbn [option_map].
    rewrite Hig. auto.
Qed.

(** The strict-field scenario: the index knows [pid] and [title], the record
    also has [extra_field]. *)
Lemma upload_field_filtering_witness :
  let W := Fixture.world [] (Fixture.steady_es [py "pid"; py "title"]) 1 in
  let r := ESUploader.upload_single_document W Fixture.extra_field_document
             Fixture.an_index true [] in
  Result (fst r) = code_Y
  /\ indexed_documents (snd r)
     = [[(py "pid", VStr (py "p1")); (py "title", VStr (py "t"))]]
  /\ option_map ignored_fields (ResultData (fst r)) = Some [py "extra_field"].
Proof.
  intros W r.
  destruct (@upload_field_filtering W Fixture.extra_field_document
              Fixture.an_index [py "pid"; py "title"] []
              (steady_es_healthy _ _ _) eq_refl) as (_ & _ & H).
  exact (H (fun _ => eq_refl) eq_refl).
Defined.

(** ** C7: date normalisation *)

(** A property checked on every number below [n] holds of each of them. *)
Lemma brute (P : Z -> bool) (n : Z) :
  forallb (fun k => P (Z.of_nat k)) (seq 0 (Z.to_nat n)) = true ->
  forall m, (0 <= m < n)%Z -> P m = true.
Proof.
  intros H m Hm. rewrite forallb_forall in H.
  specialize (H (Z.to_nat m)). rewrite Z2Nat.id in H by lia.
  apply H. apply in_seq. lia.
Qed.

Lemma two_shape (m : Z) :
  (0 <= m < 100)%Z ->
  exists a b, DT.two m = [a; b] /\ is_digit a = true /\ is_digit b = true.
Proof.
  intros Hm.
  pose (P := fun m => match DT.two m with
                      | [a; b] => is_digit a && is_digit b
                      | _ => false
                      end).
  assert (H : P m = true).
  { apply (@brute P 100%Z); [vm_compute; reflexivity | exact Hm]. }
  unfold P in H. destruct (DT.two m) as [|a [|b [|]]]; try discriminate.
  apply andb_true_iff in H. exists a, b. tauto.
Qed.

Lemma year_shape (pads : bool) (y : Z) :
  (1 <= y <= 9999)%Z -> pads = true \/ (1000 <= y)%Z ->
  exists a b c d,
    DT.strftime_Y pads y = [a; b; c; d]
    /\ forallb is_digit [a; b; c; d] = true.
Proof.
  intros Hy Hp.
  pose (P4 := fun y => match Str.zfill 4 (Str.str_of_int y) with
                       | [a; b; c; d] => forallb is_digit [a; b; c; d]
                       | _ => false
                       end).
  pose (P0 := fun y => (y <? 1000)%Z
                       || Str.eqb (Str.zfill 4 (Str.str_of_int y)) (Str.str_of_int y)).
  assert (H4 : P4 y = true).
  { apply (@brute P4 10000%Z); [vm_compute; reflexivity | lia]. }
  assert (H0 : P0 y = true).
  { apply (@brute P0 10000%Z); [vm_compute; reflexivity | lia]. }
  unfold P4 in H4. unfold P0 in H0.
  assert (E : DT.strftime_Y pads y = Str.zfill 4 (Str.str_of_int y)).
  { unfold DT.strftime_Y. destruct pads; [reflexivity|].
    destruct Hp as [|Hp]; [discriminate|].
    apply orb_true_iff in H0. destruct H0 as [H0|H0].
    - apply Z.ltb_lt in H0. lia.
    - apply str_eqb_eq in H0. congruence. }
  rewrite E.
  destruct (Str.zfill 4 (Str.str_of_int y)) as [|a [|b [|c [|d [|]]]]];
    try discriminate.
  exists a, b, c, d. auto.
Qed.

Lemma valid_fields (dt : DT.datetime) :
  DT.valid dt = true ->
  (1 <= DT.year dt <= 9999 /\ 1 <= DT.month dt <= 12 /\ 1 <= DT.day dt <= 31
   /\ 0 <= DT.hour dt <= 23 /\ 0 <= DT.minute dt <= 59
   /\ 0 <= DT.second dt <= 59)%Z.
Proof.
  unfold DT.valid. rewrite !andb_true_iff, !Z.leb_le.
  intros H. decompose [and] H.
  assert (DT.days_in_month (DT.year dt) (DT.month dt) <= 31)%Z.
  { unfold DT.days_in_month.
    repeat match goal with |- context [if ?b then _ else _] => destruct b end; lia. }
  lia.
Qed.

Lemma strftime_iso_shape (pads : bool) (dt : DT.datetime) :
  DT.valid dt = true -> pads = true \/ (1000 <= DT.year dt)%Z ->
  iso_shape (DT.strftime_iso pads dt) = true.
Proof.
  intros Hv Hp. apply valid_fields in Hv.
  destruct Hv as (Hy & Hm & Hd & Hh & Hmi & Hs).
  destruct (@year_shape pads (DT.year dt) Hy Hp) as (y1 & y2 & y3 & y4 & Ey & Dy).
  destruct (@two_shape (DT.month dt)) as (m1 & m2 & Em & Dm1 & Dm2); [lia|].
  destruct (@two_shape (DT.day dt)) as (d1 & d2 & Ed & Dd1 & Dd2); [lia|].
  destruct (@two_shape (DT.hour dt)) as (h1 & h2 & Eh & Dh1 & Dh2); [lia|].
  destruct (@two_shape (DT.minute dt)) as (n1 & n2 & En & Dn1 & Dn2); [lia|].
  destruct (@two_shape (DT.second dt)) as (c1 & c2 & Ec & Dc1 & Dc2); [lia|].
  unfold DT.strftime_iso. rewrite Ey, Em, Ed, Eh, En, Ec.
  cbn [app Str.py map list_ascii_of_string N_of_ascii iso_shape].
  cbn [forallb] in Dy |- *.
  rewrite !andb_true_iff in Dy. decompose [and] Dy.
  repeat match goal with H : is_digit _ = true |- _ => rewrite H; clear H end.
  vm_compute. reflexivity.
Qed.

Lemma strptime_valid (s fmt : pystr) (dt : DT.datetime) :
  DT.strptime s fmt = Some dt -> DT.valid dt = true.
Proof.
  unfold DT.strptime.
  destruct (DT.matches _ _ _) as [|[dt0 [|]] ?]; try discriminate.
  destruct (DT.valid dt0) eqn:E; [|discriminate].
  intros [= <-]. exact E.
Qed.

Lemma first_parse_none (s : pystr) (fmts : list pystr) :
  ESUploader.first_parse s fmts = None
  <-> forall fmt, In fmt fmts -> DT.strptime s fmt = None.
Proof.
  induction fmts as [|fmt fmts IH]; simpl.
  - split; [intros _ ? [] | reflexivity].
  - destruct (DT.strptime s fmt) eqn:E.
    + split; [discriminate|]. intros H. specialize (H fmt (or_introl eq_refl)).
      congruence.
    + rewrite IH. split.
      * intros H f [<-|Hin]; auto.
      * intros H f Hin. apply H. auto.
Qed.

Lemma first_parse_some (s : pystr) (fmts : list pystr) (dt : DT.datetime) :
  ESUploader.first_parse s fmts = Some dt ->
  exists fmt, In fmt fmts /\ DT.strptime s fmt = Some dt.
Proof.
  induction fmts as [|fmt fmts IH]; simpl; [discriminate|].
  destruct (DT.strptime s fmt) eqn:E.
  - intros [= <-]. exists fmt. auto.
  - intros H. destruct (IH H) as [f [Hin Hf]]. exists f. auto.
Qed.

Lemma strptime_empty (fmt : pystr) :
  In fmt ESUploader.date_formats -> DT.strptime [] fmt = None.
Proof.
  intros H. repeat (destruct H as [<-|H]; [vm_compute; reflexivity|]).
  destruct H.
Qed.

Lemma digit_no_sign (c : N) :
  is_digit c = true -> N.eqb c 43 || N.eqb c 45 = false.
Proof.
  unfold is_digit, Str.is_ascii_range. cbn. intros H.
  apply andb_true_iff in H. destruct H as [H1 H2].
  apply N.leb_le in H1. apply N.leb_le in H2.
  destruct (N.eqb_spec c 43); [lia|]. destruct (N.eqb_spec c 45); [lia|].
  reflexivity.
Qed.

(** [zfill] of a text that begins with a digit, when a tail is added. *)
Lemma zfill_app (w : nat) (c : N) (s rest : pystr) :
  N.eqb c 43 || N.eqb c 45 = false ->
  Str.zfill (w + length rest) ((c :: s) ++ rest) = Str.zfill w (c :: s) ++ rest.
Proof.
  intros Hc. unfold Str.zfill. cbn [app]. rewrite Hc.
  cbn [length]. rewrite length_app.
  replace (w + length rest - S (length s + length rest))%nat
    with (w - S (length s))%nat by lia.
  rewrite <- app_assoc. reflexivity.
Qed.

(** The number a year is written as, and the digits it is written with. *)
Lemma year_read (y : Z) :
  (1 <= y <= 9999)%Z ->
  exists a b c d c0 s0,
    Str.zfill 4 (Str.str_of_int y) = [a; b; c; d]
    /\ forallb is_digit [a; b; c; d] = true
    /\ Str.int_of_digits [a; b; c; d] = Some y
    /\ Str.str_of_int y = c0 :: s0
    /\ is_digit c0 = true
    /\ ((y < 1000)%Z -> (length (c0 :: s0) < 4)%nat).
Proof.
  intros Hy.
  pose (P := fun y =>
               match Str.zfill 4 (Str.str_of_int y), Str.str_of_int y with
               | [a; b; c; d], c0 :: s0 =>
                   forallb is_digit [a; b; c; d]
                   && match Str.int_of_digits [a; b; c; d] with
                      | Some v => (v =? y)%Z
                      | None => false
                      end
                   && is_digit c0
                   && ((1000 <=? y)%Z || (length (c0 :: s0) <? 4)%nat)
               | _, _ => false
               end).
  assert (H : P y = true).
  { apply (@brute P 10000%Z); [vm_compute; reflexivity | lia]. }
  unfold P in H.
  destruct (Str.zfill 4 (Str.str_of_int y)) as [|a [|b [|c [|d [|]]]]];
    try discriminate.
  destruct (Str.str_of_int y) as [|c0 s0]; [discriminate|].
  rewrite !andb_true_iff in H. destruct H as [[[H1 H2] H3] H4].
  destruct (Str.int_of_digits [a; b; c; d]) as [v|] eqn:Ri; [|discriminate].
  apply Z.eqb_eq in H2. subst v.
  exists a, b, c, d, c0, s0.
  split; [reflexivity|]. split; [exact H1|]. split; [exact Ri|].
  split; [reflexivity|]. split; [exact H3|].
  intros Hlt. apply orb_true_iff in H4. destruct H4 as [H4|H4].
  - apply Z.leb_le in H4. lia.
  - apply Nat.ltb_lt in H4. exact H4.
Qed.

Lemma two_read (m : Z) :
  (0 <= m < 100)%Z ->
  exists a b, DT.two m = [a; b] /\ is_digit a = true /\ is_digit b = true
              /\ Str.int_of_digits [a; b] = Some m.
Proof.
  intros Hm.
  pose (P := fun m => match DT.two m with
                      | [a; b] =>
                          is_digit a && is_digit b
                          && match Str.int_of_digits [a; b] with
                             | Some v => (v =? m)%Z
                             | None => false
                             end
                      | _ => false
                      end).
  assert (H : P m = true).
  { apply (@brute P 100%Z); [vm_compute; reflexivity | exact Hm]. }
  unfold P in H. destruct (DT.two m) as [|a [|b [|]]]; try discriminate.
  rewrite !andb_true_iff in H. destruct H as [[H1 H2] H3].
  destruct (Str.int_of_digits [a; b]) as [v|] eqn:Ri; [|discriminate].
  apply Z.eqb_eq in H3. subst v. exists a, b. auto.
Qed.

Lemma iso_shape_length (s : pystr) : iso_shape s = true -> length s = 19%nat.
Proof.
  intros H.
  do 19 (destruct s as [|? s]; [discriminate H|]).
  destruct s; [reflexivity | discriminate H].
Qed.

(** What [strftime] writes for a date and time: padded on the left with
    zeros to nineteen characters it is the canonical form of that date and
    time; it needs no padding when the year has four digits or the library
    pads it, and is shorter otherwise. *)
Lemma strftime_iso_read (pads : bool) (dt : DT.datetime) :
  DT.valid dt = true ->
  let out := DT.strftime_iso pads dt in
  iso_shape (Str.zfill 19 out) = true
  /\ read_iso (Str.zfill 19 out) = Some (to_the_second dt)
  /\ (pads = true \/ (1000 <= DT.year dt)%Z -> Str.zfill 19 out = out)
  /\ (pads = false -> (DT.year dt < 1000)%Z -> (length out < 19)%nat).
Proof.
  intros Hv out. apply valid_fields in Hv.
  destruct Hv as (Hy & Hm & Hd & Hh & Hmi & Hs).
  destruct (year_read (DT.year dt) Hy)
    as (y1 & y2 & y3 & y4 & c0 & s0 & Ey & Dy & Ry & Estr & Dc0 & Hshort).
  destruct (two_read (DT.month dt)) as (m1 & m2 & Em & Dm1 & Dm2 & Rm); [lia|].
  destruct (two_read (DT.day dt)) as (d1 & d2 & Ed & Dd1 & Dd2 & Rd); [lia|].
  destruct (two_read (DT.hour dt)) as (h1 & h2 & Eh & Dh1 & Dh2 & Rh); [lia|].
  destruct (two_read (DT.minute dt)) as (n1 & n2 & En & Dn1 & Dn2 & Rn); [lia|].
  destruct (two_read (DT.second dt)) as (c1 & c2 & Ec & Dc1 & Dc2 & Rc); [lia|].
  set (rest := [45; m1; m2; 45; d1; d2; 84; h1; h2; 58; n1; n2; 58; c1; c2]%N).
  assert (Eout : out = DT.strftime_Y pads (DT.year dt) ++ rest).
  { unfold out, DT.strftime_iso. rewrite Em, Ed, Eh, En, Ec. reflexivity. }
  assert (Dy1 : is_digit y1 = true).
  { cbn [forallb] in Dy. apply andb_true_iff in Dy. tauto. }
  assert (Efill : Str.zfill 19 out = [y1; y2; y3; y4] ++ rest).
  { rewrite Eout. change 19%nat with (4 + length rest)%nat.
    unfold DT.strftime_Y. destruct pads.
    - rewrite Ey, (zfill_app 4 y1 [y2; y3; y4] rest (digit_no_sign y1 Dy1)).
      unfold Str.zfill. rewrite (digit_no_sign y1 Dy1). reflexivity.
    - rewrite Estr, (zfill_app 4 c0 s0 rest (digit_no_sign c0 Dc0)).
      rewrite <- Estr, Ey. reflexivity. }
  split; [|split; [|split]].
  - rewrite Efill. cbn [app rest iso_shape].
    cbn [forallb] in Dy |- *.
    rewrite !andb_true_iff in Dy. decompose [and] Dy.
    repeat match goal with H : is_digit _ = true |- _ => rewrite H; clear H end.
    vm_compute. reflexivity.
  - rewrite Efill. cbn [app rest read_iso].
    rewrite Ry, Rm, Rd, Rh, Rn, Rc. reflexivity.
  - intros Hp. rewrite Efill, Eout. f_equal.
    unfold DT.strftime_Y. destruct pads; [exact (eq_sym Ey)|].
    destruct Hp as [Hp|Hp]; [discriminate|].
    rewrite Estr.
    assert (Hfour : Str.zfill 4 (c0 :: s0) = c0 :: s0 \/ (length (c0 :: s0) < 4)%nat).
    { destruct (Nat.ltb (length (c0 :: s0)) 4) eqn:El.
      - right. apply Nat.ltb_lt. exact El.
      - left. apply Nat.ltb_ge in El. unfold Str.zfill.
        rewrite (digit_no_sign c0 Dc0).
        replace (4 - length (c0 :: s0))%nat with 0%nat by lia. reflexivity. }
    destruct Hfour as [E|Hlt].
    + rewrite <- Ey, Estr. exact E.
    + exfalso. clear - Ry Estr Ey Hlt Hp Hy Dc0.
      assert (Hlow : (1000 <= DT.year dt)%Z) by exact Hp.
      pose (P0 := fun y => (y <? 1000)%Z
                           || (4 <=? length (Str.str_of_int y))%nat).
      assert (H0 : P0 (DT.year dt) = true).
      { apply (@brute P0 10000%Z); [vm_compute; reflexivity | lia]. }
      unfold P0 in H0. apply orb_true_iff in H0. destruct H0 as [H0|H0].
      * apply Z.ltb_lt in H0. lia.
      * apply Nat.leb_le in H0. rewrite Estr in H0. lia.
  - intros Hp Hlt. rewrite Eout. subst pads. unfold DT.strftime_Y.
    rewrite Estr, length_app. specialize (Hshort Hlt).
    change (length rest) with 15%nat. lia.
Qed.

(** C7, as stated, fails: with the C library of Linux, whose [%Y] does not
    pad, the supported date 0999-01-05 is not written in the canonical form:
    the year comes out with three digits, and so it goes into the cleaned
    document. *)
Lemma year_below_1000_is_not_canonical :
  ESUploader._format_date false (py "0999-01-05") = Some (py "999-01-05T00:00:00")
  /\ iso_shape (py "999-01-05T00:00:00") = false
  /\ Dict.get (ESUploader.clean_document false
                 [(py "pid", VStr (py "p1")); (py "dt", VStr (py "0999-01-05"))])
              (py "dt")
     = Some (VStr (py "999-01-05T00:00:00")).
Proof. vm_compute. repeat split; reflexivity. Qed.

(** C7 (as amended). A date string that one of the five formats parses is
    written as the date and time the first such format reads, and that is
    what the cleaned document holds: in the canonical form
    YYYY-MM-DDTHH:MM:SS, whose six numbers are those read, when the year is
    1000 or later or the C library pads the year; and, for an earlier year
    on a library that does not pad, in a shorter text that is the canonical
    form without the leading zeros of the year. A string that none of the
    formats parses is returned as [None] by [_format_date] and stays in the
    cleaned document as it was. *)
Theorem date_normalisation (pads : bool) (document : dict) (key s : pystr) :
  In key [py "dt"; py "date_created"] ->
  Dict.get document key = Some (VStr s) ->
  ((exists fmt, In fmt ESUploader.date_formats /\ DT.strptime s fmt <> None) ->
   exists date_obj out,
     ESUploader.first_parse s ESUploader.date_formats = Some date_obj
     /\ DT.valid date_obj = true
     /\ ESUploader._format_date pads s = Some out
     /\ Dict.get (ESUploader.clean_document pads document) key = Some (VStr out)
     /\ (pads = true \/ (1000 <= DT.year date_obj)%Z ->
         iso_shape out = true /\ read_iso out = Some (to_the_second date_obj))
     /\ (pads = false -> (DT.year date_obj < 1000)%Z ->
         iso_shape out = false
         /\ (length out < 19)%nat
         /\ iso_shape (Str.zfill 19 out) = true
         /\ read_iso (Str.zfill 19 out) = Some (to_the_second date_obj)))
  /\ ((forall fmt, In fmt ESUploader.date_formats -> DT.strptime s fmt = None) ->
      ESUploader._format_date pads s = None
      /\ Dict.get (ESUploader.clean_document pads document) key = Some (VStr s)).
Proof.
  intros Hkey Hget.
  assert (Hmem : ESUploader.mem key [py "dt"; py "date_created"] = true)
    by (apply mem_In; exact Hkey).
  assert (Htime : ESUploader.mem key ESUploader.time_fields_to_exclude = false).
  { destruct Hkey as [<-|[<-|[]]]; vm_compute; reflexivity. }
  split.
  - intros [fmt [Hin Hparse]].
    destruct (ESUploader.first_parse s ESUploader.date_formats) as [date_obj|] eqn:E.
    + destruct (first_parse_some _ _ _ E) as [f [_ Hf]].
      pose proof (strptime_valid _ _ _ Hf) as Hv.
      assert (Hs : Str.nonempty s = true).
      { destruct s; [|reflexivity]. rewrite strptime_empty in Hparse by exact Hin.
        congruence. }
      assert (Hfd : ESUploader._format_date pads s
                    = Some (DT.strftime_iso pads date_obj)).
      { unfold ESUploader._format_date. rewrite Hs, E. reflexivity. }
      destruct (strftime_iso_read pads date_obj Hv) as (R1 & R2 & R3 & R4).
      cbv zeta in R1, R2, R3, R4.
      exists date_obj, (DT.strftime_iso pads date_obj).
      split; [reflexivity|]. split; [exact Hv|]. split; [exact Hfd|].
      split; [|split].
      * rewrite get_clean_document, Htime, Hget. cbn [option_map].
        unfold ESUploader.clean_value. rewrite Hmem, Hfd.
        destruct (Str.nonempty (DT.strftime_iso pads date_obj)) eqn:En;
          [reflexivity|].
        apply nonempty_false in En. unfold DT.strftime_iso in En.
        apply app_eq_nil in En. destruct En as [_ En]. discriminate.
      * intros Hp. rewrite <- (R3 Hp). split; assumption.
      * intros Hp Hlt. specialize (R4 Hp Hlt).
        split; [|split; [exact R4|split; assumption]].
        destruct (iso_shape (DT.strftime_iso pads date_obj)) eqn:Ei;
          [|reflexivity].
        apply iso_shape_length in Ei. lia.
    + exfalso. apply Hparse. rewrite first_parse_none in E. auto.
  - intros Hnone.
    assert (E : ESUploader.first_parse s ESUploader.date_formats = None)
      by (apply first_parse_none; exact Hnone).
    assert (Hfd : ESUploader._format_date pads s = None).
    { unfold ESUploader._format_date. rewrite E.
      destruct (negb (Str.nonempty s)); reflexivity. }
    split; [exact Hfd|].
    rewrite get_clean_document, Htime, Hget. cbn [option_map].
    unfold ESUploader.clean_value. rewrite Hmem, Hfd. reflexivity.
Qed.

Example five_formats_one_form :
  map (ESUploader._format_date false)
      [py "2024/01/05 10:30"; py "2024-01-05 10:30:00"; py "2024-01-05 10:30";
       py "2024/01/05"; py "2024-01-05"]
  = [Some (py "2024-01-05T10:30:00"); Some (py "2024-01-05T10:30:00");
     Some (py "2024-01-05T10:30:00");
     Some (py "2024-01-05T00:00:00"); Some (py "2024-01-05T00:00:00")].
Proof. vm_compute. reflexivity. Qed.

(** A supported date under [dt], an unsupported one under [date_created]. *)
Lemma date_normalisation_witness :
  let document := [(py "pid", VStr (py "p1"));
                   (py "dt", VStr (py "2024/01/05 10:30"));
                   (py "date_created", VStr (py "05.01.2024"))] in
  (exists out,
      Dict.get (ESUploader.clean_document false document) (py "dt")
      = Some (VStr out)
      /\ iso_shape out = true
      /\ read_iso out = Some (DT.mk_datetime 2024 1 5 10 30 0 0))
  /\ Dict.get (ESUploader.clean_document false document) (py "date_created")
     = Some (VStr (py "05.01.2024")).
Proof.
  intros document. split.
  - destruct (@date_normalisation false document (py "dt") (py "2024/01/05 10:30")
                (or_introl eq_refl) eq_refl) as [H _].
    destruct H as (d & out & E & _ & _ & Hc & Hcanon & _).
    + exists (py "%Y/%m/%d %H:%M"). split; [left; reflexivity|].
      vm_compute. discriminate.
    + vm_compute in E. injection E as <-.
      destruct Hcanon as [Hshape Hread]; [right; cbn; lia|].
      exists out. split; [exact Hc|]. split; [exact Hshape | exact Hread].
  - destruct (@date_normalisation false document (py "date_created")
                (py "05.01.2024") (or_intror (or_introl eq_refl)) eq_refl)
      as [_ H].
    apply H. intros fmt Hin.
    repeat (destruct Hin as [<-|Hin]; [vm_compute; reflexivity|]).
    destruct Hin.
Defined.

(** ** save_to_es: what a call changes *)

Lemma frame_refl (ks : list pystr) (s : Main.SaveSt) : frame ks s s.
Proof. intros k _; reflexivity. Qed.

Lemma frame_trans (ks : list pystr) (s1 s2 s3 : Main.SaveSt) :
  frame ks s1 s2 -> frame ks s2 s3 -> frame ks s1 s3.
Proof. intros H1 H2 k Hk. rewrite (H2 k Hk). apply H1, Hk. Qed.

Lemma store_grows_refl (P : es_call -> Prop) (s : Main.SaveSt) :
  store_grows P s s.
Proof. constructor. Qed.

Lemma store_grows_trans (P : es_call -> Prop) (s1 s2 s3 : Main.SaveSt) :
  store_grows P s1 s2 -> store_grows P s2 s3 -> store_grows P s1 s3.
Proof. unfold store_grows. apply grows_trans. Qed.

Lemma frame_set_data (ks : list pystr) (k : pystr) (v : pyval) :
  In k ks -> keeps (frame ks) (Main.set_data k v).
Proof.
  intros Hin s k' Hk'. simpl. apply get_set_other. congruence.
Qed.

Lemma frame_read_clock (ks : list pystr) (W : World) :
  keeps (frame ks) (Main.read_clock W).
Proof. intros s k _; reflexivity. Qed.

Lemma frame_get_data (ks : list pystr) : keeps (frame ks) Main.get_data.
Proof. intros s k _; reflexivity. Qed.

Lemma frame_on_store (ks : list pystr) (A : Type) (m : M (list es_call) A) :
  keeps (frame ks) (Main.on_store m).
Proof.
  intros s k _. unfold Main.on_store.
  destruct (m (es_log (Main.sv_ext s))); reflexivity.
Qed.

Lemma frame_strip_of (ks : list pystr) (v : pyval) :
  keeps (frame ks) (Main.strip_of v).
Proof. destruct v; intros st k _; reflexivity. Qed.

Ltac frame_leaf :=
  first [ apply frame_get_data | apply frame_read_clock | apply frame_on_store
        | apply frame_strip_of
        | apply frame_set_data; simpl; tauto ].

Ltac frame_steps ks :=
  keeps_steps (@frame_refl ks) (@frame_trans ks) ltac:(idtac; frame_leaf).

Lemma ensure_pid_frame (W : World) : keeps (frame [Main.k_pid]) (Main.ensure_pid W).
Proof.
  unfold Main.ensure_pid, Main.date_prefix_of. cbv zeta. frame_steps [Main.k_pid].
Qed.

(** Building the uploader changes nothing, whether it succeeds or raises. *)
Lemma keeps_new_uploader (R : Main.SaveSt -> Main.SaveSt -> Prop) (W : World) :
  (forall s, R s s) -> keeps R (Main.new_uploader W).
Proof. intros Hr s. apply Hr. Qed.

Lemma attempt_body_built (W : World) (n : nat) (last : bool) (s : Main.SaveSt) :
  built W -> Main.attempt_body W n last s = Main.attempt_steps W n last s.
Proof.
  intros Hb. unfold Main.attempt_body, bind, Main.new_uploader. rewrite Hb.
  reflexivity.
Qed.

Lemma attempt_body_unbuilt (W : World) (n : nat) (last : bool) (s : Main.SaveSt)
    (e : exn) :
  ESUploader.__init__ W = Raise e -> Main.attempt_body W n last s = (Raise e, s).
Proof.
  intros Hb. unfold Main.attempt_body, bind, Main.new_uploader. rewrite Hb.
  reflexivity.
Qed.

Lemma attempt_body_frame (W : World) (n : nat) (last : bool) :
  keeps (frame [Main.k_date; Main.k_pid]) (Main.attempt_body W n last).
Proof.
  unfold Main.attempt_body.
  apply (@keeps_bind _ _ (@frame_trans _)); [apply keeps_new_uploader, frame_refl|].
  intros _.
  unfold Main.attempt_steps, Main.preamble, Main.fill_date, Main.fill_pid,
    Main.ensure_pid, Main.date_prefix_of, Main.title_check, Main.upload_stage.
  cbv zeta. frame_steps [Main.k_date; Main.k_pid].
Qed.

Lemma attempts_frame (W : World) (n r : nat) (s : Main.SaveSt) :
  frame [Main.k_date; Main.k_pid] s (snd (Main.attempts W n r s)).
Proof.
  revert s. induction r as [|r IH]; intros s; simpl.
  - apply frame_refl.
  - pose proof (@attempt_body_frame W n (r =? 0)%nat s) as H.
    destruct (Main.attempt_body W n (r =? 0)%nat s) as [[[res|]|e] s']; simpl in *.
    + exact H.
    + eapply frame_trans; [exact H | apply IH].
    + destruct (r =? 0)%nat; simpl.
      * exact H.
      * eapply frame_trans; [exact H | apply IH].
Qed.

(** [save_to_es] changes the record at [date] and [pid] only. *)
Lemma save_to_es_frame (W : World) (data : dict) (n : nat) (x : Ext) (k : pystr) :
  k <> Main.k_date -> k <> Main.k_pid ->
  Dict.get (snd (fst (Main.save_to_es W data n x))) k = Dict.get data k.
Proof.
  intros Hd Hp. unfold Main.save_to_es.
  pose proof (@attempts_frame W n n (Main.mk_save data x) k) as H.
  destruct (Main.attempts W n n (Main.mk_save data x)) as [r s]. simpl in *.
  apply H. intros [<-|[<-|[]]]; congruence.
Qed.

(** ** C8: the embedding step *)

Lemma embeddings_key_distinct :
  py "embeddings" <> Main.k_date /\ py "embeddings" <> Main.k_pid.
Proof. split; discriminate. Qed.

(** C8. When the text has more than 8000 tokens, what is sent to the
    provider is the decoding of its first 8000 tokens; a record whose
    [full_content] is empty or blank gets the empty vector and nothing is
    sent to the provider. *)
Theorem embedding_input (W : World) (st : St) :
  (forall text tokens,
     encode W text = Replied tokens ->
     (Main.max_tokens < length tokens)%nat ->
     embed_log (snd (Main.text_embeddings_3 W text st))
     = decode W (firstn Main.max_tokens tokens) :: embed_log st
     /\ length (firstn Main.max_tokens tokens) = Main.max_tokens)
  /\ (forall report title full_content,
        Dict.get report Main.k_title = Some title ->
        Dict.get_default report (py "full_content") (VStr []) = VStr full_content ->
        Str.strip full_content = [] ->
        let r := Main.embedding_and_save W report st in
        embed_log (snd r) = embed_log st
        /\ Dict.get (snd (fst r)) (py "embeddings") = Some (VList [])).
Proof.
  split.
  - intros text tokens Henc Hlen. split.
    + unfold Main.text_embeddings_3. rewrite Henc.
      apply Nat.ltb_lt in Hlen. rewrite Hlen.
      destruct (embed W (length (embed_log st)) _); reflexivity.
    + apply firstn_length_le. lia.
  - intros report title full_content Htitle Hfc Hblank r. subst r.
    unfold Main.embedding_and_save. rewrite Htitle, Hfc, Hblank.
    cbn [Str.nonempty].
    destruct (Main.backup_to_jsonl W _ _) as [ok st1] eqn:Eb. cbn [snd].
    assert (Hlog : embed_log st1 = embed_log st).
    { unfold Main.backup_to_jsonl in Eb.
      destruct (backup_writable W _); injection Eb as _ <-; reflexivity. }
    pose proof (@save_to_es_frame W
                  (Dict.set report (py "embeddings") (VList [])) 3 (ext st1)
                  (py "embeddings") (proj1 embeddings_key_distinct)
                  (proj2 embeddings_key_distinct)) as Hframe.
    destruct (Main.save_to_es W _ 3 (ext st1)) as [[result report'] x].
    cbn [fst snd] in *. split.
    + exact Hlog.
    + rewrite Hframe. apply get_set_same.
Qed.

Lemma embedding_input_witness :
  let W := Fixture.world [] (Fixture.steady_es []) 1 in
  let st := Fixture.fresh_state None in
  embed_log (snd (Main.text_embeddings_3 W (repeat 97%N 8001) st))
  = [repeat 97%N 8000]
  /\ (let r := Main.embedding_and_save W
                 [(py "title", VStr (py "t")); (py "full_content", VStr (py "  "))]
                 st in
      embed_log (snd r) = []
      /\ Dict.get (snd (fst r)) (py "embeddings") = Some (VList [])).
Proof.
  intros W st.
  destruct (@embedding_input W st) as [H1 H2]. split.
  - destruct (H1 (repeat 97%N 8001) (map Z.of_N (repeat 97%N 8001))) as [E _].
    + reflexivity.
    + apply Nat.ltb_lt. vm_compute. reflexivity.
    + rewrite E. vm_compute. reflexivity.
  - apply (H2 _ (VStr (py "t")) (py "  ")); vm_compute; reflexivity.
Defined.

(** ** Blank strings, dates of the clock, serial numbers *)

Lemma dropwhile_nil (p : N -> bool) (s : pystr) :
  Str.dropwhile p s = [] <-> forallb p s = true.
Proof.
  induction s as [|c s IH]; simpl; [tauto|].
  destruct (p c); simpl; [exact IH | split; discriminate].
Qed.

Lemma dropwhile_head (p : N -> bool) (s : pystr) (c : N) (r : pystr) :
  Str.dropwhile p s = c :: r -> p c = false.
Proof.
  induction s as [|x s IH]; simpl; [discriminate|].
  destruct (p x) eqn:E; [exact IH|]. intros [= -> _]. exact E.
Qed.

Lemma forallb_rev (A : Type) (p : A -> bool) (l : list A) :
  forallb p (rev l) = forallb p l.
Proof.
  induction l as [|x l IH]; simpl; [reflexivity|].
  rewrite forallb_app, IH. simpl. rewrite andb_true_r. apply andb_comm.
Qed.

(** [strip] leaves nothing exactly of the strings made of white space. *)
Lemma strip_nil (s : pystr) : Str.strip s = [] <-> forallb Str.isspace s = true.
Proof.
  unfold Str.strip, Str.rstrip, Str.lstrip. split.
  - intros H.
    assert (H' : Str.dropwhile Str.isspace (rev (Str.dropwhile Str.isspace s)) = []).
    { destruct (Str.dropwhile Str.isspace (rev _)); [reflexivity|].
      simpl in H. apply app_eq_nil in H. destruct H; discriminate. }
    apply dropwhile_nil in H'. rewrite forallb_rev in H'.
    destruct (Str.dropwhile Str.isspace s) as [|c r] eqn:E.
    + apply dropwhile_nil. exact E.
    + apply dropwhile_head in E. simpl in H'. rewrite E in H'. discriminate.
  - intros H. apply dropwhile_nil in H. rewrite H. reflexivity.
Qed.

Lemma not_blank_with (c : N) (a b : pystr) :
  Str.isspace c = false -> Str.strip (a ++ c :: b) <> [].
Proof.
  intros Hc H. apply strip_nil in H. rewrite forallb_app in H. simpl in H.
  rewrite Hc in H. rewrite andb_false_r in H. discriminate.
Qed.

Lemma strftime_dashed_not_blank (pads : bool) (t : DT.datetime) :
  Str.strip (DT.strftime_dashed pads t) <> [].
Proof.
  unfold DT.strftime_dashed. apply (@not_blank_with 45%N). reflexivity.
Qed.

Lemma zfill_nonempty (w : nat) (s : pystr) : (0 < w)%nat -> Str.zfill w s <> [].
Proof.
  intros Hw. unfold Str.zfill. destruct s as [|c s'].
  - simpl. destruct w; [lia | discriminate].
  - destruct (N.eqb c 43 || N.eqb c 45); [discriminate|].
    intros H. apply app_eq_nil in H. destruct H; discriminate.
Qed.

Lemma strftime_compact_nonempty (pads : bool) (t : DT.datetime) :
  DT.strftime_compact pads t <> [].
Proof.
  unfold DT.strftime_compact. intros H.
  apply app_eq_nil in H. destruct H as [_ H].
  apply app_eq_nil in H. destruct H as [H _].
  revert H. apply zfill_nonempty. lia.
Qed.

Lemma digit_cases (c : N) :
  is_digit c = true ->
  (c = 48 \/ c = 49 \/ c = 50 \/ c = 51 \/ c = 52 \/ c = 53 \/ c = 54 \/ c = 55
   \/ c = 56 \/ c = 57)%N.
Proof.
  unfold is_digit, Str.is_ascii_range. cbn.
  rewrite andb_true_iff, !N.leb_le. lia.
Qed.

Lemma digit_isdecimal (c : N) : is_digit c = true -> Str.isdecimal c = true.
Proof.
  intros H. apply digit_cases in H.
  repeat (destruct H as [->|H]; [vm_compute; reflexivity|]).
  subst. vm_compute. reflexivity.
Qed.

Lemma digit_not_sign (c : N) :
  is_digit c = true -> N.eqb c 43 || N.eqb c 45 = false.
Proof.
  intros H. apply digit_cases in H.
  repeat (destruct H as [->|H]; [reflexivity|]). subst. reflexivity.
Qed.

(** The clock's day, written [YYYY-MM-DD], is read back by the date pattern
    as the clock's day without separators. *)
Lemma search_date_of_clock (pads : bool) (t : DT.datetime) :
  DT.valid t = true -> (1000 <= DT.year t)%Z ->
  exists y m d,
    DT.search_date (DT.strftime_dashed pads t) = Some (y, m, d)
    /\ y ++ Str.zfill 2 m ++ Str.zfill 2 d = DT.strftime_compact pads t.
Proof.
  intros Hv Hy. apply valid_fields in Hv.
  destruct Hv as (Hyr & Hm & Hd & _).
  destruct (@year_shape pads (DT.year t) Hyr (or_intror Hy))
    as (y1 & y2 & y3 & y4 & Ey & Dy).
  destruct (@two_shape (DT.month t)) as (m1 & m2 & Em & Dm1 & Dm2); [lia|].
  destruct (@two_shape (DT.day t)) as (d1 & d2 & Ed & Dd1 & Dd2); [lia|].
  cbn [forallb] in Dy. rewrite !andb_true_iff in Dy.
  destruct Dy as (Dy1 & Dy2 & Dy3 & Dy4 & _).
  exists [y1; y2; y3; y4], [m1; m2], [d1; d2].
  unfold DT.strftime_dashed, DT.strftime_compact. rewrite Ey, Em, Ed. split.
  - cbn [app Str.py map list_ascii_of_string N_of_ascii].
    unfold DT.search_date, DT.match_date, DT.take_digits, DT.digits_1_2,
      DT.take_digits, DT.dash.
    pose proof (@digit_isdecimal _ Dy1) as I1.
    pose proof (@digit_isdecimal _ Dy2) as I2.
    pose proof (@digit_isdecimal _ Dy3) as I3.
    pose proof (@digit_isdecimal _ Dy4) as I4.
    pose proof (@digit_isdecimal _ Dm1) as I5.
    pose proof (@digit_isdecimal _ Dm2) as I6.
    pose proof (@digit_isdecimal _ Dd1) as I7.
    pose proof (@digit_isdecimal _ Dd2) as I8.
    do 8 (cbn -[Str.isdecimal]; rewrite ?I1, ?I2, ?I3, ?I4, ?I5, ?I6, ?I7, ?I8).
    reflexivity.
  - unfold Str.zfill. cbn [length Nat.sub repeat app].
    rewrite (@digit_not_sign _ Dm1), (@digit_not_sign _ Dd1). reflexivity.
Qed.

(** *** The serial number *)

Lemma hex_byte_value (b : Z) :
  (0 <= b < 256)%Z ->
  exists h1 h2 v1 v2,
    MD5.hex_byte b = [h1; h2]
    /\ Str.hex_value h1 = Some v1 /\ Str.hex_value h2 = Some v2.
Proof.
  intros Hb.
  pose (P := fun b => match MD5.hex_byte b with
                      | [h1; h2] =>
                          match Str.hex_value h1, Str.hex_value h2 with
                          | Some _, Some _ => true
                          | _, _ => false
                          end
                      | _ => false
                      end).
  assert (H : P b = true) by (apply (@brute P 256%Z); [vm_compute; reflexivity | exact Hb]).
  unfold P in H.
  destruct (MD5.hex_byte b) as [|h1 [|h2 [|]]]; try discriminate.
  destruct (Str.hex_value h1) as [v1|] eqn:E1; [|discriminate].
  destruct (Str.hex_value h2) as [v2|] eqn:E2; [|discriminate].
  exists h1, h2, v1, v2. auto.
Qed.

Lemma land_255_range (x : Z) : (0 <= Z.land x 255 < 256)%Z.
Proof.
  change 255%Z with (Z.ones 8). rewrite Z.land_ones by lia.
  apply Z.mod_pos_bound. reflexivity.
Qed.

(** The last four characters of a digest in hexadecimal are a number. *)
Lemma hexdigest_tail (msg : list Z) :
  exists n, Str.int_of_hex (Str.last_chars 4 (MD5.hexdigest msg)) = Some n.
Proof.
  unfold MD5.hexdigest, MD5.digest.
  destruct (MD5.absorb _ _ _) as [[[a b] c] d].
  unfold MD5.le_bytes. cbn [seq map app Z.of_nat Z.mul].
  cbn [flat_map].
  repeat match goal with
         | |- context [MD5.hex_byte ?x] =>
             let h1 := fresh "h" in let h2 := fresh "h" in
             let v1 := fresh "v" in let v2 := fresh "v" in
             let E := fresh "E" in let E1 := fresh "E" in let E2 := fresh "E" in
             destruct (@hex_byte_value x (land_255_range _))
               as (h1 & h2 & v1 & v2 & E & E1 & E2);
             rewrite E; clear E
         end.
  cbn [app]. unfold Str.last_chars. cbn [length Nat.sub skipn].
  unfold Str.int_of_hex. cbn [Str.int_of_hex_from].
  repeat match goal with H : Str.hex_value _ = Some _ |- _ =>
           rewrite H; clear H end.
  eexists. reflexivity.
Qed.

Lemma serial_shape (n : Z) :
  let sn := Str.zfill 3 (Str.str_of_int (n mod 1000)) in
  length sn = 3%nat /\ forallb is_digit sn = true.
Proof.
  pose (P := fun m => let sn := Str.zfill 3 (Str.str_of_int m) in
                      Nat.eqb (length sn) 3 && forallb is_digit sn).
  assert (H : P (n mod 1000)%Z = true).
  { apply (@brute P 1000%Z); [vm_compute; reflexivity|].
    apply Z.mod_pos_bound. reflexivity. }
  unfold P in H. cbv zeta in *. apply andb_true_iff in H.
  destruct H as [H1 H2]. apply Nat.eqb_eq in H1. auto.
Qed.

(** A title that can be encoded has a serial number of three digits. *)
Lemma serial_num_ok (title : pystr) (bytes : list Z) :
  Str.utf8_encode title = Some bytes ->
  exists sn, Main.serial_num_of title = Ok sn
             /\ length sn = 3%nat /\ forallb is_digit sn = true.
Proof.
  intros E. unfold Main.serial_num_of. rewrite E.
  destruct (hexdigest_tail bytes) as [n ->].
  eexists. split; [reflexivity|]. apply serial_shape.
Qed.

(** ** save_to_es: the steps before the title search *)

Lemma keys_distinct :
  Main.k_title <> Main.k_date /\ Main.k_title <> Main.k_pid
  /\ Main.k_date <> Main.k_pid /\ py "article_id" <> Main.k_pid
  /\ py "article_id" <> Main.k_date.
Proof. repeat split; discriminate. Qed.

Lemma get_default_str (data : dict) (k d : pystr) :
  Dict.get_default data k (VStr []) = VStr d -> Str.strip d <> [] ->
  Dict.get data k = Some (VStr d).
Proof.
  unfold Dict.get_default. destruct (Dict.get data k) as [v|].
  - intros ->. reflexivity.
  - intros [= <-] H. exfalso. apply H. reflexivity.
Qed.

Lemma date_after_not_blank (W : World) (n : nat) (d : pystr) :
  Str.strip (date_after W n d) <> [].
Proof.
  unfold date_after. destruct (Str.nonempty (Str.strip d)) eqn:E.
  - apply nonempty_true. exact E.
  - apply strftime_dashed_not_blank.
Qed.

(** [fill_date] on a record whose date is a string. *)
Lemma fill_date_ok (W : World) (s : Main.SaveSt) (d : pystr) :
  Dict.get_default (Main.sv_data s) Main.k_date (VStr []) = VStr d ->
  exists s',
    Main.fill_date W s = (Ok tt, s')
    /\ same_log s s'
    /\ frame [Main.k_date] s s'
    /\ Dict.get (Main.sv_data s') Main.k_date
       = Some (VStr (date_after W (clock_reads (Main.sv_ext s)) d))
    /\ (Str.strip d <> [] -> s' = s).
Proof.
  intros Hd. unfold Main.fill_date, bind, Main.get_data, Main.strip_of.
  rewrite Hd. unfold ret at 1. cbn beta iota.
  unfold date_after.
  destruct (Str.nonempty (Str.strip d)) eqn:E; cbn [negb].
  - exists s. split; [reflexivity|]. split; [reflexivity|].
    split; [apply frame_refl|]. split; [|reflexivity].
    apply get_default_str; [exact Hd | apply nonempty_true, E].
  - unfold Main.read_clock, Main.set_data. cbn beta iota.
    eexists. split; [reflexivity|]. unfold same_log.
    cbn [Main.sv_data Main.sv_ext es_log].
    split; [reflexivity|]. split; [|split].
    + intros k Hk. cbn [Main.sv_data]. apply get_set_other.
      intros <-. apply Hk. left. reflexivity.
    + apply get_set_same.
    + intros H. apply nonempty_false in E. contradiction.
Qed.

Lemma fill_date_clock (W : World) (s : Main.SaveSt) (d : pystr) :
  Dict.get_default (Main.sv_data s) Main.k_date (VStr []) = VStr d ->
  clock_reads (Main.sv_ext (snd (Main.fill_date W s)))
  = clock_after (clock_reads (Main.sv_ext s)) d.
Proof.
  intros Hd. unfold Main.fill_date, bind, Main.get_data, Main.strip_of.
  rewrite Hd. unfold ret at 1. cbn beta iota. unfold clock_after.
  destruct (Str.nonempty (Str.strip d)); reflexivity.
Qed.

Lemma fill_date_same_log (W : World) : keeps same_log (Main.fill_date W).
Proof.
  intros s. unfold Main.fill_date, bind, Main.get_data, Main.strip_of.
  destruct (Dict.get_default (Main.sv_data s) Main.k_date (VStr []));
    try reflexivity.
  unfold ret at 1. cbn beta iota.
  destruct (negb (Str.nonempty (Str.strip s0))); reflexivity.
Qed.

(** Once the date step has run, the date is a string that is not blank. *)
Lemma fill_date_date_ok (W : World) (s : Main.SaveSt) :
  fst (Main.fill_date W s) = Ok tt ->
  date_ok (Main.sv_data (snd (Main.fill_date W s))).
Proof.
  destruct (Dict.get_default (Main.sv_data s) Main.k_date (VStr [])) eqn:Hd;
    try (unfold Main.fill_date, bind, Main.get_data, Main.strip_of;
         rewrite Hd; discriminate).
  destruct (@fill_date_ok W s _ Hd) as (s' & E & _ & _ & Hget & _).
  rewrite E. intros _. eexists. split; [exact Hget|].
  apply date_after_not_blank.
Qed.

Lemma date_stays_refl (s : Main.SaveSt) : date_stays s s.
Proof. intros _; reflexivity. Qed.

Lemma date_stays_trans (s1 s2 s3 : Main.SaveSt) :
  date_stays s1 s2 -> date_stays s2 s3 -> date_stays s1 s3.
Proof.
  intros H1 H2 Hok. specialize (H1 Hok). rewrite <- H1. apply H2.
  destruct Hok as (d & Hd & Hb). exists d. split; [congruence | exact Hb].
Qed.

Lemma frame_date_stays (ks : list pystr) (s s' : Main.SaveSt) :
  ~ In Main.k_date ks -> frame ks s s' -> date_stays s s'.
Proof. intros Hk H _. apply H, Hk. Qed.

Lemma fill_date_stays (W : World) : keeps date_stays (Main.fill_date W).
Proof.
  intros s (d & Hd & Hb).
  assert (Hdef : Dict.get_default (Main.sv_data s) Main.k_date (VStr []) = VStr d)
    by (unfold Dict.get_default; rewrite Hd; reflexivity).
  destruct (@fill_date_ok W s _ Hdef) as (s' & E & _ & _ & _ & Hsame).
  rewrite E. cbn [snd]. rewrite (Hsame Hb). reflexivity.
Qed.

Lemma pid_test (data : dict) :
  negb (Dict.has data Main.k_pid)
  || negb (truthy (Dict.get_default data Main.k_pid VNone)) = false
  <-> pid_ok data.
Proof.
  unfold pid_ok, Dict.has, Dict.get_default.
  destruct (Dict.get data Main.k_pid) as [v|]; cbn [negb orb].
  - destruct (truthy v) eqn:E; cbn [negb]; split.
    + intros _. exists v. auto.
    + reflexivity.
    + discriminate.
    + intros (v' & [= <-] & H). congruence.
  - split; [discriminate | intros (v & H & _); discriminate].
Qed.

(** The date prefix for a record whose date is the string [da]. *)
Lemma date_prefix_ok (W : World) (data : dict) (log : list es_call) (clock : nat)
    (da : pystr) :
  Dict.get data Main.k_date = Some (VStr da) ->
  Str.strip da <> [] ->
  exists date_prefix clock',
    Main.date_prefix_of W (Main.mk_save data (mk_ext log clock))
    = (Ok date_prefix, Main.mk_save data (mk_ext log clock'))
    /\ date_prefix <> []
    /\ date_prefix = date_prefix_for W clock da.
Proof.
  intros Hda Hdab.
  assert (Hda_ne : Str.nonempty da = true).
  { apply nonempty_true. intros ->. apply Hdab. reflexivity. }
  unfold Main.date_prefix_of, date_prefix_for. cbv zeta.
  unfold bind at 1. unfold Main.get_data at 1. cbn [Main.sv_data].
  unfold Dict.get_default. rewrite Hda. cbn [truthy]. rewrite Hda_ne.
  destruct (DT.search_date da) as [[[y m] d]|] eqn:Es.
  - assert (Hne : y ++ Str.zfill 2 m ++ Str.zfill 2 d <> []).
    { intros H. apply app_eq_nil in H. destruct H as [_ H].
      apply app_eq_nil in H. destruct H as [H _].
      revert H. apply zfill_nonempty. lia. }
    unfold bind, ret. cbn beta iota.
    pose proof Hne as Hne'. apply nonempty_true in Hne'. rewrite Hne'.
    cbn [negb]. eexists _, _. split; [reflexivity|]. split; [exact Hne|].
    reflexivity.
  - unfold bind at 1. unfold ret at 1. cbn [Str.nonempty negb].
    destruct (DT.strptime da (py "%Y-%m-%d")) as [dd|].
    + eexists _, _. split; [reflexivity|]. split.
      * apply strftime_compact_nonempty.
      * reflexivity.
    + unfold bind, Main.read_clock, ret. cbn [Main.sv_data Main.sv_ext es_log clock_reads].
      eexists _, _. split; [reflexivity|]. split.
      * apply strftime_compact_nonempty.
      * reflexivity.
Qed.

Lemma date_prefix_for_found (W : World) (n : nat) (da y m d : pystr) :
  DT.search_date da = Some (y, m, d) ->
  date_prefix_for W n da = y ++ Str.zfill 2 m ++ Str.zfill 2 d.
Proof. intros E. unfold date_prefix_for. rewrite E. reflexivity. Qed.

(** [ensure_pid] on a record with a title and a date: the identifier it
    writes is a date prefix followed by the article id or the serial number
    of the title. *)
Lemma ensure_pid_ok (W : World) (s : Main.SaveSt) (t da : pystr) :
  title_is (Main.sv_data s) t ->
  Dict.get (Main.sv_data s) Main.k_date = Some (VStr da) ->
  Str.strip da <> [] ->
  let article_id := Dict.get_default (Main.sv_data s) (py "article_id") (VStr []) in
  truthy article_id = true \/ Str.utf8_encode t <> None ->
  exists date_prefix suffix clock',
    Main.ensure_pid W s
    = (Ok tt,
       Main.mk_save (Dict.set (Main.sv_data s) Main.k_pid (VStr (date_prefix ++ suffix)))
                    (mk_ext (es_log (Main.sv_ext s)) clock'))
    /\ date_prefix <> []
    /\ date_prefix = date_prefix_for W (clock_reads (Main.sv_ext s)) da
    /\ (truthy article_id = true -> suffix = Main.format_value W article_id)
    /\ (truthy article_id = false -> Main.serial_num_of t = Ok suffix).
Proof.
  intros [Ht Htb] Hda Hdab article_id Hid.
  destruct s as [data [log clock]].
  cbn [Main.sv_data Main.sv_ext es_log clock_reads] in *.
  destruct (@date_prefix_ok W data log clock da Hda Hdab)
    as (date_prefix & clock' & Ep & Hne & Hsearch).
  unfold Main.ensure_pid. cbv zeta. unfold bind at 1. rewrite Ep.
  unfold bind, Main.get_data. cbn [Main.sv_data]. fold article_id.
  destruct (truthy article_id) eqn:Eaid.
  - unfold Main.set_data. cbn [Main.sv_data Main.sv_ext es_log].
    exists date_prefix, (Main.format_value W article_id), clock'.
    repeat split; auto. discriminate.
  - destruct Hid as [Hid|Henc]; [discriminate|].
    unfold Dict.get_default. rewrite Ht.
    destruct (Str.utf8_encode t) as [bytes|] eqn:Eb; [|congruence].
    destruct (@serial_num_ok t bytes Eb) as (sn & Esn & _).
    rewrite Esn. unfold Main.set_data. cbn [Main.sv_data Main.sv_ext es_log].
    exists date_prefix, sn, clock'. repeat split; auto. discriminate.
Qed.

Lemma title_is_default (data : dict) (t : pystr) :
  title_is data t ->
  Dict.get_default data Main.k_title (VStr []) = VStr t
  /\ Str.nonempty (Str.strip t) = true /\ Str.nonempty t = true.
Proof.
  intros [Ht Hb]. unfold Dict.get_default. rewrite Ht.
  split; [reflexivity|]. split; apply nonempty_true; [exact Hb|].
  intros ->. apply Hb. reflexivity.
Qed.

Lemma frame_title_is (ks : list pystr) (s s' : Main.SaveSt) (t : pystr) :
  ~ In Main.k_title ks -> frame ks s s' ->
  title_is (Main.sv_data s) t -> title_is (Main.sv_data s') t.
Proof. intros Hk Hf [Ht Hb]. split; [rewrite (Hf _ Hk); exact Ht | exact Hb]. Qed.

Lemma frame_pid_ok (ks : list pystr) (s s' : Main.SaveSt) :
  ~ In Main.k_pid ks -> frame ks s s' ->
  pid_ok (Main.sv_data s) <-> pid_ok (Main.sv_data s').
Proof. intros Hk Hf. unfold pid_ok. rewrite (Hf _ Hk). tauto. Qed.

Lemma not_in_1 (a b : pystr) : a <> b -> ~ In a [b].
Proof. intros H [E|[]]. congruence. Qed.

(** The part of [preamble] after the title check. *)
Lemma preamble_unfold (W : World) (s : Main.SaveSt) (t : pystr) :
  title_is (Main.sv_data s) t ->
  Main.preamble W s
  = match Main.fill_date W s with
    | (Ok _, s1) =>
        match Main.fill_pid W s1 with
        | (Ok _, s2) => (Ok true, s2)
        | (Raise e, s2) => (Raise e, s2)
        end
    | (Raise e, s1) => (Raise e, s1)
    end.
Proof.
  intros Ht. destruct (title_is_default _ _ Ht) as (Hd & Hn & _).
  unfold Main.preamble. unfold bind at 1. unfold Main.get_data at 1.
  cbn beta iota. rewrite Hd. unfold bind at 1. unfold Main.strip_of.
  unfold ret at 1. cbn beta iota. rewrite Hn. cbn [negb].
  unfold bind, ret. destruct (Main.fill_date W s) as [[[]|e] s1]; [|reflexivity].
  destruct (Main.fill_pid W s1) as [[[]|e] s2]; reflexivity.
Qed.

(** On a record with a title, a string for a date, and an identifier or the
    means to make one, the steps before the title search succeed. *)
Lemma preamble_ok (W : World) (s : Main.SaveSt) (t d : pystr) :
  title_is (Main.sv_data s) t ->
  Dict.get_default (Main.sv_data s) Main.k_date (VStr []) = VStr d ->
  let article_id := Dict.get_default (Main.sv_data s) (py "article_id") (VStr []) in
  let da := date_after W (clock_reads (Main.sv_ext s)) d in
  pid_ok (Main.sv_data s) \/ truthy article_id = true \/ Str.utf8_encode t <> None ->
  exists s1,
    Main.preamble W s = (Ok true, s1)
    /\ same_log s s1
    /\ frame [Main.k_date; Main.k_pid] s s1
    /\ settled (Main.sv_data s1) t
    /\ Dict.get (Main.sv_data s1) Main.k_date = Some (VStr da)
    /\ (~ pid_ok (Main.sv_data s) ->
        exists date_prefix suffix,
          Dict.get (Main.sv_data s1) Main.k_pid = Some (VStr (date_prefix ++ suffix))
          /\ date_prefix
             = date_prefix_for W (clock_after (clock_reads (Main.sv_ext s)) d) da
          /\ (truthy article_id = true -> suffix = Main.format_value W article_id)
          /\ (truthy article_id = false -> Main.serial_num_of t = Ok suffix)).
Proof.
  intros Ht Hd article_id da Hid.
  destruct keys_distinct as (Ktd & Ktp & Kdp & Kap & Kad).
  rewrite (preamble_unfold W s t Ht).
  destruct (@fill_date_ok W s d Hd) as (sa & Ea & Hlog_a & Hfr_a & Hget_a & _).
  pose proof (fill_date_clock W s d Hd) as Hclock. rewrite Ea in Hclock.
  cbn [snd] in Hclock.
  rewrite Ea. fold da in Hget_a.
  assert (Hta : title_is (Main.sv_data sa) t)
    by (eapply frame_title_is; [apply not_in_1, Ktd | exact Hfr_a | exact Ht]).
  assert (Hdab : Str.strip da <> []) by apply date_after_not_blank.
  assert (Hpid_a : pid_ok (Main.sv_data s) <-> pid_ok (Main.sv_data sa)).
  { apply (@frame_pid_ok [Main.k_date]); [|exact Hfr_a].
    intros [E|[]]. congruence. }
  assert (Hfr2 : frame [Main.k_date; Main.k_pid] s sa).
  { intros k Hk. apply Hfr_a. intros [E|[]]. apply Hk. left. exact E. }
  unfold Main.fill_pid. unfold bind. unfold Main.get_data. cbn beta iota.
  destruct (negb (Dict.has (Main.sv_data sa) Main.k_pid)
            || negb (truthy (Dict.get_default (Main.sv_data sa) Main.k_pid VNone)))
    eqn:Etest.
  - (* no identifier yet *)
    assert (Hno : ~ pid_ok (Main.sv_data sa)).
    { intros H. apply pid_test in H. congruence. }
    assert (Hid' : truthy (Dict.get_default (Main.sv_data sa) (py "article_id") (VStr []))
                   = true \/ Str.utf8_encode t <> None).
    { unfold Dict.get_default. rewrite (Hfr_a (py "article_id")).
      - destruct Hid as [H|H]; [apply Hpid_a in H; contradiction | exact H].
      - apply not_in_1. exact Kad. }
    destruct (@ensure_pid_ok W sa t da Hta Hget_a Hdab Hid')
      as (prefix & suffix & clock' & Ee & Hne & Hsearch & Hsuf1 & Hsuf2).
    rewrite Ee. eexists. split; [reflexivity|].
    unfold same_log in *. cbn [Main.sv_data Main.sv_ext es_log].
    split; [exact Hlog_a|]. split; [|split; [|split]].
    + intros k Hk. cbn [Main.sv_data]. rewrite get_set_other.
      * apply Hfr2, Hk.
      * intros <-. apply Hk. right. left. reflexivity.
    + split; [|split].
      * destruct Hta as [Hta1 Hta2]. split; [|exact Hta2].
        rewrite get_set_other; [exact Hta1 | congruence].
      * exists da. split; [|exact Hdab].
        rewrite get_set_other; [exact Hget_a | congruence].
      * exists (VStr (prefix ++ suffix)). split; [apply get_set_same|].
        cbn [truthy]. apply nonempty_true. intros H.
        apply app_eq_nil in H. destruct H. contradiction.
    + rewrite get_set_other; [exact Hget_a | congruence].
    + intros _. exists prefix, suffix. split; [apply get_set_same|].
      split; [rewrite <- Hclock; exact Hsearch|].
      unfold article_id, Dict.get_default.
      rewrite <- (Hfr_a (py "article_id")) by (apply not_in_1; exact Kad).
      split; assumption.
  - (* the record has its identifier *)
    apply pid_test in Etest. eexists. split; [reflexivity|].
    split; [exact Hlog_a|]. split; [exact Hfr2|]. split; [|split].
    + split; [exact Hta|]. split; [|exact Etest].
      exists da. auto.
    + exact Hget_a.
    + intros Hno. apply Hpid_a in Etest. contradiction.
Qed.

(** On a settled record these steps change nothing. *)
Lemma preamble_settled (W : World) (s : Main.SaveSt) (t : pystr) :
  settled (Main.sv_data s) t -> Main.preamble W s = (Ok true, s).
Proof.
  intros (Ht & (d & Hd & Hdb) & Hp).
  rewrite (preamble_unfold W s t Ht).
  assert (Hdef : Dict.get_default (Main.sv_data s) Main.k_date (VStr []) = VStr d)
    by (unfold Dict.get_default; rewrite Hd; reflexivity).
  destruct (@fill_date_ok W s d Hdef) as (sa & Ea & _ & _ & _ & Hsame).
  rewrite Ea, (Hsame Hdb).
  unfold Main.fill_pid, bind, Main.get_data. cbn beta iota.
  apply pid_test in Hp. rewrite Hp. reflexivity.
Qed.

Lemma attempt_body_cong (W : World) (n : nat) (last : bool) (s s' : Main.SaveSt) :
  built W ->
  Main.preamble W s = Main.preamble W s' ->
  Main.attempt_body W n last s = Main.attempt_body W n last s'.
Proof.
  intros Hb H. rewrite !attempt_body_built by exact Hb.
  unfold Main.attempt_steps, bind. rewrite H. reflexivity.
Qed.

Lemma attempts_cong (W : World) (n r : nat) (s s' : Main.SaveSt) :
  built W ->
  Main.preamble W s = Main.preamble W s' ->
  Main.attempts W n (S r) s = Main.attempts W n (S r) s'.
Proof.
  intros Hb H. cbn [Main.attempts].
  rewrite (attempt_body_cong W n _ s s' Hb H). reflexivity.
Qed.

(** ** save_to_es: the title search, the upload and the retry loop *)

Lemma title_check_spec (W : World) (last : bool) (s : Main.SaveSt) (t : pystr) :
  title_is (Main.sv_data s) t ->
  Main.title_check W last s
  = (Ok match es W (es_log (Main.sv_ext s)) (SearchTitle Main.index_name t) with
        | Replied h =>
            if (total h >? 0)%Z then
              match ids h with
              | existing_id :: _ => Main.TitleFound existing_id
              | [] => if last then Main.GoOn else Main.NextAttempt
              end
            else Main.GoOn
        | Failed _ => if last then Main.GoOn else Main.NextAttempt
        end,
     searched s t).
Proof.
  intros Ht. destruct (title_is_default _ _ Ht) as (Hd & _ & Hn).
  unfold Main.title_check, bind at 1, Main.get_data at 1. cbn beta iota.
  rewrite Hd. cbn [truthy]. rewrite Hn.
  unfold try_except, bind, Main.on_store, es_request, searched.
  destruct (es W (es_log (Main.sv_ext s)) (SearchTitle Main.index_name t))
    as [h|d]; cbn beta iota.
  - destruct (total h >? 0)%Z.
    + destruct (ids h) as [|existing_id rest]; cbn; destruct last; reflexivity.
    + reflexivity.
  - destruct last; reflexivity.
Qed.

Lemma upload_stage_spec (W : World) (n : nat) (last : bool) (s : Main.SaveSt) :
  Main.upload_stage W n last s
  = let r := ESUploader.upload_single_document W
               (Main.cleaned_data_of (Main.sv_data s)) Main.index_name false
               (es_log (Main.sv_ext s)) in
    (Ok match Result (fst r) with
        | code_Y => Some (fst r)
        | _ => if last
               then Some (mk_result code_N (MsgUploadFailed n (Message (fst r)))
                            None None)
               else None
        end,
     Main.mk_save (Main.sv_data s) (mk_ext (snd r) (clock_reads (Main.sv_ext s)))).
Proof.
  unfold Main.upload_stage, bind, Main.get_data, Main.on_store. cbn beta iota zeta.
  destruct (ESUploader.upload_single_document W _ _ _ _) as [r log'].
  cbn [fst snd]. destruct (Result r); try reflexivity; destruct last; reflexivity.
Qed.

(** One attempt on a settled record. *)
Lemma attempt_body_settled (W : World) (n : nat) (last : bool) (s : Main.SaveSt)
    (t : pystr) :
  built W ->
  settled (Main.sv_data s) t ->
  Main.attempt_body W n last s
  = match es W (es_log (Main.sv_ext s)) (SearchTitle Main.index_name t) with
    | Replied h =>
        if (total h >? 0)%Z then
          match ids h with
          | existing_id :: _ =>
              (Ok (Some (mk_result code_SKIP MsgTitleExists None (Some existing_id))),
               searched s t)
          | [] => if last then Main.upload_stage W n last (searched s t)
                  else (Ok None, searched s t)
          end
        else Main.upload_stage W n last (searched s t)
    | Failed _ => if last then Main.upload_stage W n last (searched s t)
                  else (Ok None, searched s t)
    end.
Proof.
  intros Hb Hs. rewrite attempt_body_built by exact Hb.
  unfold Main.attempt_steps. unfold bind at 1.
  rewrite (preamble_settled W s t Hs). cbn [negb]. unfold bind.
  rewrite (title_check_spec W last s t (proj1 Hs)).
  destruct (es W (es_log (Main.sv_ext s)) (SearchTitle Main.index_name t)) as [h|d].
  - destruct (total h >? 0)%Z; [|reflexivity].
    destruct (ids h); [destruct last|]; reflexivity.
  - destruct last; reflexivity.
Qed.

Lemma searched_settled (s : Main.SaveSt) (t t' : pystr) :
  settled (Main.sv_data s) t -> settled (Main.sv_data (searched s t')) t.
Proof. intros H; exact H. Qed.

(** A settled record stays as it is through the attempts. *)
Lemma attempts_settled_data (W : World) (n r : nat) (s : Main.SaveSt) (t : pystr) :
  built W ->
  settled (Main.sv_data s) t ->
  Main.sv_data (snd (Main.attempts W n r s)) = Main.sv_data s.
Proof.
  intros Hb. revert s. induction r as [|r IH]; intros s Hs; [reflexivity|].
  cbn [Main.attempts]. rewrite (attempt_body_settled W n _ s t Hb Hs).
  assert (Hup : forall last,
    Main.sv_data (snd (Main.upload_stage W n last (searched s t))) = Main.sv_data s
    /\ exists o, fst (Main.upload_stage W n last (searched s t)) = Ok o).
  { intros last. rewrite upload_stage_spec. cbn. split; [reflexivity|].
    eexists; reflexivity. }
  assert (Hnext : Main.sv_data (snd (Main.attempts W n r (searched s t)))
                  = Main.sv_data s).
  { rewrite IH; [reflexivity | exact Hs]. }
  assert (Hstage : forall last,
    Main.sv_data
      (snd match Main.upload_stage W n last (searched s t) with
           | (Ok (Some res), s') => (res, s')
           | (Ok None, s') => Main.attempts W n r s'
           | (Raise e, s') =>
               if last then (mk_result code_N (MsgOperationFailed n e) None None, s')
               else Main.attempts W n r s'
           end) = Main.sv_data s).
  { intros last. rewrite upload_stage_spec. cbv zeta.
    destruct (Result _); [reflexivity| |];
      (destruct last; [reflexivity|]); cbn [fst snd];
      rewrite IH; [reflexivity | exact Hs | reflexivity | exact Hs]. }
  destruct (es W (es_log (Main.sv_ext s)) (SearchTitle Main.index_name t)) as [h|d].
  - destruct (total h >? 0)%Z; [|apply Hstage].
    destruct (ids h); [|reflexivity].
    destruct (r =? 0)%nat eqn:Er; [apply Hstage | exact Hnext].
  - destruct (r =? 0)%nat eqn:Er; [apply Hstage | exact Hnext].
Qed.

Lemma save_to_es_settles (W : World) (data : dict) (r : nat) (x : Ext)
    (t d : pystr) :
  built W ->
  title_is data t ->
  Dict.get_default data Main.k_date (VStr []) = VStr d ->
  (pid_ok data
   \/ truthy (Dict.get_default data (py "article_id") (VStr [])) = true
   \/ Str.utf8_encode t <> None) ->
  exists s1,
    Main.preamble W (Main.mk_save data x) = (Ok true, s1)
    /\ settled (Main.sv_data s1) t
    /\ es_log (Main.sv_ext s1) = es_log x
    /\ Main.attempts W (S r) (S r) (Main.mk_save data x)
       = Main.attempts W (S r) (S r) s1.
Proof.
  intros Hb Ht Hd Hid.
  destruct (preamble_ok W (Main.mk_save data x) t d Ht Hd Hid)
    as (s1 & Ep & Hlog & _ & Hs & _).
  exists s1. split; [exact Ep|]. split; [exact Hs|]. split; [exact Hlog|].
  apply attempts_cong; [exact Hb|]. rewrite Ep. symmetry. apply (preamble_settled W s1 t Hs).
Qed.

(** ** C6: a title that the store already holds *)



(** ** C9: a title search that keeps failing *)

Lemma repeat_shift (A : Type) (c : A) (n : nat) (l : list A) :
  repeat c n ++ c :: l = c :: repeat c n ++ l.
Proof. induction n as [|n IH]; simpl; [reflexivity | rewrite IH; reflexivity]. Qed.

Lemma attempts_S (W : World) (n r : nat) (s : Main.SaveSt) :
  Main.attempts W n (S r) s
  = match Main.attempt_body W n (r =? 0)%nat s with
    | (Ok (Some res), s') => (res, s')
    | (Ok None, s') => Main.attempts W n r s'
    | (Raise e, s') =>
        if (r =? 0)%nat
        then (mk_result code_N (MsgOperationFailed n e) None None, s')
        else Main.attempts W n r s'
    end.
Proof. reflexivity. Qed.

(** The attempts on a settled record when every title search fails: after
    as many searches as there are attempts the upload is made. *)
Lemma attempts_deaf (W : World) (n r : nat) (s : Main.SaveSt) (t : pystr) :
  built W ->
  settled (Main.sv_data s) t ->
  (forall log, exists detail,
      es W log (SearchTitle Main.index_name t) = Failed detail) ->
  Main.attempts W n (S r) s
  = let up := ESUploader.upload_single_document W
                (Main.cleaned_data_of (Main.sv_data s)) Main.index_name false
                (repeat (SearchTitle Main.index_name t) (S r) ++ es_log (Main.sv_ext s)) in
    (upload_answer n (fst up),
     Main.mk_save (Main.sv_data s) (mk_ext (snd up) (clock_reads (Main.sv_ext s)))).
Proof.
  intros Hb Hs Hdeaf. revert s Hs. induction r as [|r IH]; intros s Hs.
  - cbn [Main.attempts]. rewrite (attempt_body_settled W n _ s t Hb Hs).
    destruct (Hdeaf (es_log (Main.sv_ext s))) as [detail ->].
    cbn [Nat.eqb]. rewrite upload_stage_spec. cbv zeta.
    unfold searched. cbn [Main.sv_data Main.sv_ext es_log clock_reads repeat app].
    unfold upload_answer.
    destruct (Result (fst (ESUploader.upload_single_document W _ _ _ _)));
      reflexivity.
  - rewrite (attempts_S W n (S r) s).
    rewrite (attempt_body_settled W n _ s t Hb Hs).
    destruct (Hdeaf (es_log (Main.sv_ext s))) as [detail ->].
    cbn [Nat.eqb]. rewrite (IH (searched s t) Hs). cbv zeta.
    unfold searched. cbn [Main.sv_data Main.sv_ext es_log clock_reads].
    rewrite repeat_shift. reflexivity.
Qed.

Lemma get_cleaned_data (data : dict) (k : pystr) :
  Dict.get (Main.cleaned_data_of data) k
  = option_map Main.cleaned_value (Dict.get data k).
Proof.
  unfold Main.cleaned_data_of.
  induction data as [|[k0 v0] data IH]; cbn [map fst snd Dict.get];
    [reflexivity|].
  destruct (Str.eqb k0 k); [reflexivity | exact IH].
Qed.

Lemma indexed_documents_searches (t : pystr) (n : nat) (log : list es_call) :
  indexed_documents (repeat (SearchTitle Main.index_name t) n ++ log)
  = indexed_documents log.
Proof. induction n as [|n IH]; simpl; [reflexivity | exact IH]. Qed.

(** C9. When every title search fails, [save_to_es] makes as many searches
    as it has attempts and then uploads the record: its answer is the answer
    of the upload (or N with the upload's message when the upload fails), not
    an error for the failed search; and when the store answers the calls of
    the upload, the answer is Y and the record has been written. The
    uploader is built (the searches are made through its client). *)
Theorem search_failure_does_not_block (W : World) (data : dict)
    (max_retries : nat) (x : Ext) (t d : pystr) :
  built W ->
  (1 <= max_retries)%nat ->
  title_is data t ->
  Dict.get_default data Main.k_date (VStr []) = VStr d ->
  (pid_ok data
   \/ truthy (Dict.get_default data (py "article_id") (VStr [])) = true
   \/ Str.utf8_encode t <> None) ->
  (forall log, exists detail,
      es W log (SearchTitle Main.index_name t) = Failed detail) ->
  let r := Main.save_to_es W data max_retries x in
  let data1 := snd (fst r) in
  let up := ESUploader.upload_single_document W
              (Main.cleaned_data_of data1) Main.index_name false
              (repeat (SearchTitle Main.index_name t) max_retries ++ es_log x) in
  settled data1 t
  /\ fst (fst r) = upload_answer max_retries (fst up)
  /\ es_log (snd r) = snd up
  /\ (answers W (fun c => negb (is_title_search c)) ->
      Result (fst (fst r)) = code_Y
      /\ indexed_documents (es_log (snd r))
         = ESUploader.clean_document (libc_pads_year W) (Main.cleaned_data_of data1)
           :: indexed_documents (es_log x)).
Proof.
  intros Hb Hn Ht Hd Hid Hdeaf.
  destruct max_retries as [|n]; [lia|].
  destruct (save_to_es_settles W data n x t d Hb Ht Hd Hid)
    as (s1 & _ & Hs & Hlog & Eatt).
  unfold Main.save_to_es. rewrite Eatt.
  rewrite (attempts_deaf W (S n) n s1 t Hb Hs Hdeaf). cbv zeta.
  cbn [fst snd Main.sv_data Main.sv_ext es_log]. rewrite Hlog.
  split; [exact Hs|]. split; [reflexivity|]. split; [reflexivity|].
  intros Hh.
  assert (Hpid : Dict.has (Main.cleaned_data_of (Main.sv_data s1)) (py "pid") = true).
  { destruct Hs as (_ & _ & (v & Hv & _)).
    unfold Dict.has. rewrite get_cleaned_data.
    change (py "pid") with Main.k_pid. rewrite Hv. reflexivity. }
  destruct (upload_healthy W (Main.cleaned_data_of (Main.sv_data s1))
              Main.index_name false []
              (repeat (SearchTitle Main.index_name t) (S n) ++ es_log x) Hh Hpid)
    as (res & log' & rd & E & HY & _ & _ & _ & Hdocs); [discriminate|].
  rewrite E. cbn [fst snd]. unfold upload_answer. rewrite HY.
  split; [exact HY|]. rewrite Hdocs, indexed_documents_searches. reflexivity.
Qed.

Lemma deaf_es_answers (pages : list listing_page) (day : Z) :
  answers (Fixture.world pages (Fixture.deaf_es []) day)
          (fun c => negb (is_title_search c)).
Proof.
  intros log c Hc. destruct c; try discriminate; cbn.
  - eexists; split; [reflexivity | exact I].
  - eexists; split; [reflexivity | exact I].
  - eexists; split; [reflexivity | exact I].
  - eexists; split; [reflexivity|]. cbn.
    destruct (filter _ _); cbn; [lia | discriminate].
  - destruct id; eexists; (split; [reflexivity | exact I]).
  - eexists; split; [reflexivity | exact I].
Qed.

Lemma search_failure_does_not_block_witness :
  let W := Fixture.world [] (Fixture.deaf_es []) 1 in
  let r := Main.save_to_es W Fixture.a_record 3 Fixture.fresh_ext in
  Result (fst (fst r)) = code_Y
  /\ indexed_documents (es_log (snd r)) = [Fixture.a_record]
  /\ length (filter is_title_search (es_log (snd r))) = 3%nat.
Proof.
  intros W r.
  destruct (search_failure_does_not_block W Fixture.a_record 3 Fixture.fresh_ext
              (py "X") (py "2024-01-05")) as (_ & _ & _ & H).
  - reflexivity.
  - lia.
  - split; [reflexivity | vm_compute; discriminate].
  - reflexivity.
  - left. exists (VStr (py "20240105123")). split; reflexivity.
  - intros log. eexists. reflexivity.
  - destruct (H (deaf_es_answers [] 1)) as [HY Hdocs].
    split; [exact HY|]. split; [|vm_compute; reflexivity].
    unfold r. rewrite Hdocs. vm_compute. reflexivity.
Defined.

(** ** save_to_es: the date of what is written *)

Lemma frame_keeps_date_stays (ks : list pystr) (A : Type) (m : M Main.SaveSt A) :
  ~ In Main.k_date ks -> keeps (frame ks) m -> keeps date_stays m.
Proof. intros Hk H s. apply (frame_date_stays ks); [exact Hk | apply H]. Qed.

Ltac date_stays_leaf :=
  first [ apply fill_date_stays
        | apply (frame_keeps_date_stays []); [simpl; tauto | frame_leaf]
        | apply (frame_keeps_date_stays [Main.k_pid]);
          [ intros [E|[]]; discriminate E
          | apply frame_set_data; left; reflexivity ] ].

Lemma attempt_body_date_stays (W : World) (n : nat) (last : bool) :
  keeps date_stays (Main.attempt_body W n last).
Proof.
  unfold Main.attempt_body.
  apply (@keeps_bind _ _ date_stays_trans);
    [apply keeps_new_uploader, date_stays_refl|].
  intros _.
  unfold Main.attempt_steps, Main.preamble, Main.fill_pid,
    Main.ensure_pid, Main.date_prefix_of, Main.title_check, Main.upload_stage.
  cbv zeta.
  keeps_steps date_stays_refl date_stays_trans ltac:(idtac; date_stays_leaf).
Qed.

Lemma attempts_date_stays (W : World) (n r : nat) (s : Main.SaveSt) :
  date_stays s (snd (Main.attempts W n r s)).
Proof.
  revert s. induction r as [|r IH]; intros s.
  - apply date_stays_refl.
  - rewrite attempts_S.
    pose proof (attempt_body_date_stays W n (r =? 0)%nat s) as H.
    destruct (Main.attempt_body W n (r =? 0)%nat s) as [[[res|]|e] s']; simpl in *.
    + exact H.
    + eapply date_stays_trans; [exact H | apply IH].
    + destruct (r =? 0)%nat; simpl.
      * exact H.
      * eapply date_stays_trans; [exact H | apply IH].
Qed.

Lemma same_log_refl (s : Main.SaveSt) : same_log s s.
Proof. reflexivity. Qed.

Lemma same_log_trans (s1 s2 s3 : Main.SaveSt) :
  same_log s1 s2 -> same_log s2 s3 -> same_log s1 s3.
Proof. unfold same_log. congruence. Qed.

Ltac same_log_leaf :=
  first [ apply fill_date_same_log
        | match goal with
          | |- keeps same_log Main.get_data => intros ?; reflexivity
          | |- keeps same_log (Main.set_data _ _) => intros ?; reflexivity
          | |- keeps same_log (Main.read_clock _) => intros ?; reflexivity
          | |- keeps same_log (Main.strip_of ?v) => destruct v; intros ?; reflexivity
          end ].

Lemma preamble_same_log (W : World) : keeps same_log (Main.preamble W).
Proof.
  unfold Main.preamble, Main.fill_pid, Main.ensure_pid, Main.date_prefix_of.
  cbv zeta.
  keeps_steps same_log_refl same_log_trans ltac:(idtac; same_log_leaf).
Qed.

Lemma fill_pid_frame (W : World) : keeps (frame [Main.k_pid]) (Main.fill_pid W).
Proof.
  unfold Main.fill_pid, Main.ensure_pid, Main.date_prefix_of. cbv zeta.
  frame_steps [Main.k_pid].
Qed.

(** When the steps before the title search succeed, the record has a title
    and a date that are not blank. *)
Lemma preamble_true (W : World) (s s1 : Main.SaveSt) :
  Main.preamble W s = (Ok true, s1) ->
  (exists t, title_is (Main.sv_data s1) t) /\ date_ok (Main.sv_data s1).
Proof.
  intros Ep.
  destruct keys_distinct as (Ktd & Ktp & Kdp & _).
  assert (Ht : exists t, title_is (Main.sv_data s) t).
  { revert Ep. unfold Main.preamble. unfold bind at 1. unfold Main.get_data at 1.
    cbn beta iota. unfold bind at 1.
    destruct (Dict.get_default (Main.sv_data s) Main.k_title (VStr [])) eqn:Hd;
      try discriminate.
    unfold Main.strip_of, ret at 1. cbn beta iota.
    destruct (Str.nonempty (Str.strip s0)) eqn:En; cbn [negb];
      [|unfold ret; discriminate].
    intros _. exists s0. apply nonempty_true in En.
    split; [apply get_default_str; assumption | exact En]. }
  destruct Ht as [t Ht]. rewrite (preamble_unfold W s t Ht) in Ep.
  pose proof (fill_date_date_ok W s) as Hok.
  assert (Hfd : keeps (frame [Main.k_date]) (Main.fill_date W)).
  { unfold Main.fill_date. frame_steps [Main.k_date]. }
  specialize (Hfd s).
  destruct (Main.fill_date W s) as [[[]|e] sa]; [|discriminate].
  cbn [fst snd] in *. specialize (Hok eq_refl).
  pose proof (fill_pid_frame W sa) as Hfp.
  destruct (Main.fill_pid W sa) as [[[]|e] s2]; [|discriminate].
  injection Ep as <-. cbn [snd] in Hfp. split.
  - exists t.
    apply (frame_title_is [Main.k_pid] sa s2); [apply not_in_1, Ktp | exact Hfp|].
    apply (frame_title_is [Main.k_date] s sa); [apply not_in_1, Ktd | exact Hfd | exact Ht].
  - destruct Hok as (d & Hd & Hb). exists d. split; [|exact Hb].
    rewrite (Hfp Main.k_date); [exact Hd | apply not_in_1, Kdp].
Qed.

Lemma date_not_time_field :
  ESUploader.mem Main.k_date ESUploader.time_fields_to_exclude = false
  /\ ESUploader.mem Main.k_date [py "dt"; py "date_created"] = false.
Proof. split; vm_compute; reflexivity. Qed.

(** The document made of a record with a date has that date. *)
Lemma clean_date_ok (pads : bool) (data : dict) :
  date_ok data ->
  date_ok (ESUploader.clean_document pads (Main.cleaned_data_of data)).
Proof.
  intros (d & Hd & Hb). exists d. split; [|exact Hb].
  destruct date_not_time_field as [H1 H2].
  rewrite get_clean_document, H1, get_cleaned_data, Hd. cbn [option_map].
  assert (Hne : Str.nonempty d = true).
  { apply nonempty_true. intros ->. apply Hb. reflexivity. }
  unfold Main.cleaned_value. cbn [Main.is_none negb eq_str andb].
  destruct d as [|c d']; [discriminate|]. cbn [Str.eqb negb].
  unfold ESUploader.clean_value. rewrite H2. reflexivity.
Qed.

Lemma writes_dated_search (i t : pystr) : writes_dated (SearchTitle i t).
Proof. intros ? ? ? E. discriminate E. Qed.

Lemma attempt_steps_writes_dated (W : World) (n : nat) (last : bool) :
  keeps (store_grows writes_dated) (Main.attempt_steps W n last).
Proof.
  intros s. unfold store_grows, Main.attempt_steps. unfold bind at 1.
  pose proof (preamble_same_log W s) as Hlog.
  destruct (Main.preamble W s) as [[titled|e] s1] eqn:Ep; cbn [snd] in Hlog;
    unfold same_log in Hlog.
  2:{ cbn [snd]. rewrite Hlog. constructor. }
  destruct titled; cbn [negb].
  2:{ unfold ret. cbn [snd]. rewrite Hlog. constructor. }
  destruct (preamble_true W s s1 Ep) as [[t Ht] Hdate].
  unfold bind. rewrite (title_check_spec W last s1 t Ht).
  assert (Hsearched : grows writes_dated (es_log (Main.sv_ext s))
                            (es_log (Main.sv_ext (searched s1 t)))).
  { unfold searched. cbn [Main.sv_ext es_log]. rewrite Hlog.
    apply grows_call; [apply writes_dated_search | constructor]. }
  assert (Hup : grows writes_dated (es_log (Main.sv_ext s))
                  (es_log (Main.sv_ext
                     (snd (Main.upload_stage W n last (searched s1 t)))))).
  { rewrite upload_stage_spec. cbv zeta. cbn [snd Main.sv_ext es_log].
    eapply grows_trans; [exact Hsearched|].
    eapply grows_weaken; [|apply upload_log_any].
    intros c Hc i id doc E. rewrite (Hc i id doc E).
    apply clean_date_ok. exact Hdate. }
  destruct (es W (es_log (Main.sv_ext s1)) (SearchTitle Main.index_name t)) as [h|d].
  - destruct (total h >? 0)%Z; [|exact Hup].
    destruct (ids h); [destruct last; [exact Hup | exact Hsearched]|].
    exact Hsearched.
  - destruct last; [exact Hup | exact Hsearched].
Qed.

Lemma attempt_body_writes_dated (W : World) (n : nat) (last : bool) :
  keeps (store_grows writes_dated) (Main.attempt_body W n last).
Proof.
  unfold Main.attempt_body.
  apply (@keeps_bind _ _ (@store_grows_trans _));
    [apply keeps_new_uploader, store_grows_refl|].
  intros _. apply attempt_steps_writes_dated.
Qed.

Lemma attempts_writes_dated (W : World) (n r : nat) (s : Main.SaveSt) :
  store_grows writes_dated s (snd (Main.attempts W n r s)).
Proof.
  revert s. induction r as [|r IH]; intros s.
  - apply store_grows_refl.
  - rewrite attempts_S.
    pose proof (attempt_body_writes_dated W n (r =? 0)%nat s) as H.
    destruct (Main.attempt_body W n (r =? 0)%nat s) as [[[res|]|e] s']; simpl in *.
    + exact H.
    + eapply store_grows_trans; [exact H | apply IH].
    + destruct (r =? 0)%nat; simpl.
      * exact H.
      * eapply store_grows_trans; [exact H | apply IH].
Qed.

(** On a record that the first attempt can settle, [save_to_es] leaves the
    record as the steps before the first title search made it. *)
Lemma save_to_es_data (W : World) (data : dict) (n : nat) (x : Ext) (t d : pystr) :
  built W ->
  (1 <= n)%nat ->
  title_is data t ->
  Dict.get_default data Main.k_date (VStr []) = VStr d ->
  (pid_ok data
   \/ truthy (Dict.get_default data (py "article_id") (VStr [])) = true
   \/ Str.utf8_encode t <> None) ->
  exists s1,
    Main.preamble W (Main.mk_save data x) = (Ok true, s1)
    /\ snd (fst (Main.save_to_es W data n x)) = Main.sv_data s1.
Proof.
  intros Hb Hn Ht Hd Hid. destruct n as [|n]; [lia|].
  destruct (save_to_es_settles W data n x t d Hb Ht Hd Hid)
    as (s1 & Ep & Hs & _ & Eatt).
  exists s1. split; [exact Ep|].
  unfold Main.save_to_es. rewrite Eatt.
  pose proof (attempts_settled_data W (S n) (S n) s1 t Hb Hs) as H.
  destruct (Main.attempts W (S n) (S n) s1) as [r s']. exact H.
Qed.

Lemma space_not_decimal (c : N) : Str.isspace c = true -> Str.isdecimal c = false.
Proof.
  unfold Str.isspace. rewrite existsb_exists. intros [x [Hin E]].
  apply N.eqb_eq in E. subst x.
  repeat (destruct Hin as [<-|Hin]; [vm_compute; reflexivity|]).
  destruct Hin.
Qed.

(** A string in which the date pattern is found is not blank. *)
Lemma search_date_not_blank (s : pystr) (g : pystr * pystr * pystr) :
  DT.search_date s = Some g -> Str.strip s <> [].
Proof.
  intros Hs Hblank. apply strip_nil in Hblank.
  induction s as [|c s IH].
  - vm_compute in Hs. discriminate.
  - cbn [forallb] in Hblank. apply andb_true_iff in Hblank.
    destruct Hblank as [Hc Hrest].
    cbn [DT.search_date] in Hs.
    destruct (DT.match_date (c :: s)) eqn:Em.
    + unfold DT.match_date, DT.take_digits in Em.
      destruct ((4 <=? length (c :: s))%nat) eqn:El; [|discriminate].
      cbn [andb] in Em.
      destruct (forallb Str.isdecimal (firstn 4 (c :: s))) eqn:Ed; [|discriminate].
      cbn [firstn forallb] in Ed. apply andb_true_iff in Ed.
      rewrite (space_not_decimal c Hc) in Ed. destruct Ed; discriminate.
    + apply IH; assumption.
Qed.

Lemma replace_dash (s : pystr) :
  Str.replace (py "-") [] s = filter (fun c => negb (N.eqb c 45)) s.
Proof.
  unfold Str.replace. change (py "-") with [45%N].
  induction s as [|c s IH]; [reflexivity|].
  cbn [Str.replace_from Str.startswith filter length Nat.sub].
  replace (Str.startswith s []) with true by (destruct s; reflexivity).
  rewrite andb_true_r, N.eqb_sym.
  destruct (N.eqb c 45); cbn [negb app]; rewrite IH; reflexivity.
Qed.

(** ** save_to_es: calls that end before the date is looked at *)

(** Without uploader every attempt raises at its first line: the record and
    the store are left alone and the answer carries the error of the
    constructor. *)
Lemma save_to_es_unbuilt (W : World) (data : dict) (n : nat) (x : Ext) (e : exn) :
  ESUploader.__init__ W = Raise e ->
  (1 <= n)%nat ->
  Main.save_to_es W data n x
  = (mk_result code_N (MsgOperationFailed n e) None None, data, x).
Proof.
  intros Hb Hn. unfold Main.save_to_es.
  assert (Hall : forall r,
             Main.attempts W n (S r) (Main.mk_save data x)
             = (mk_result code_N (MsgOperationFailed n e) None None,
                Main.mk_save data x)).
  { induction r as [|r IH]; rewrite attempts_S, (attempt_body_unbuilt W n _ _ e Hb);
      [reflexivity|]. cbn [Nat.eqb]. exact IH. }
  destruct n as [|r]; [lia|]. rewrite Hall. reflexivity.
Qed.

(** With the uploader built, a title that is missing, empty or blank ends
    the call at the first attempt, before the date is looked at. *)
Lemma save_to_es_blank_title (W : World) (data : dict) (n : nat) (x : Ext)
    (t : pystr) :
  built W ->
  (1 <= n)%nat ->
  Dict.get_default data Main.k_title (VStr []) = VStr t ->
  Str.strip t = [] ->
  Main.save_to_es W data n x = (mk_result code_N MsgEmptyTitle None None, data, x).
Proof.
  intros Hb Hn Ht Hblank. destruct n as [|r]; [lia|].
  unfold Main.save_to_es. rewrite attempts_S, attempt_body_built by exact Hb.
  unfold Main.attempt_steps, Main.preamble, bind, Main.get_data, Main.strip_of, ret.
  cbn beta iota. cbn [Main.sv_data]. rewrite Ht. cbn beta iota. rewrite Hblank.
  reflexivity.
Qed.

(** ** C10: a blank date becomes the day of the run *)

(** C10, as stated, fails: a record with a blank title and a blank date is
    answered N before the date is looked at, and a record with a title whose
    uploader cannot be built never gets that far either: both keep their
    blank date. *)
Lemma blank_date_is_kept_without_title_or_uploader :
  (let W := Fixture.world [] (Fixture.memory_es []) 1 in
   let r := Main.save_to_es W Scene.a_blank_record 3 Fixture.fresh_ext in
   fst (fst r) = mk_result code_N MsgEmptyTitle None None
   /\ Dict.get (snd (fst r)) Main.k_date = Some (VStr [])
   /\ snd r = Fixture.fresh_ext)
  /\ (let W := Scene.no_credentials (Fixture.world [] (Fixture.memory_es []) 1) in
      let r := Main.save_to_es W Fixture.a_bare_record 3 Fixture.fresh_ext in
      Result (fst (fst r)) = code_N
      /\ Dict.get (snd (fst r)) Main.k_date = Some (VStr [])
      /\ snd r = Fixture.fresh_ext).
Proof. vm_compute. repeat split; reflexivity. Qed.

(** C10 (as amended). Whatever the record, every document [save_to_es] sends
    to the store has a date that is not blank. For a record with a title
    whose date is empty or blank, and with the uploader built, [save_to_es]
    writes the current day into the record, as [strftime] gives it (of the
    form YYYY-MM-DD from the year 1000 on), and the identifier it generates
    for such a record starts with the current day. A record whose title is
    blank, or whose uploader cannot be built, is left as it was, blank date
    included. *)
Theorem blank_date_becomes_today (W : World) (data : dict) (max_retries : nat)
    (x : Ext) :
  let r := Main.save_to_es W data max_retries x in
  grows writes_dated (es_log x) (es_log (snd r))
  /\ (forall t d,
       built W ->
       (1 <= max_retries)%nat ->
       title_is data t ->
       Dict.get_default data Main.k_date (VStr []) = VStr d ->
       Str.strip d = [] ->
       let today := now W (clock_reads x) in
       let article_id := Dict.get_default data (py "article_id") (VStr []) in
       Dict.get (snd (fst r)) Main.k_date
       = Some (VStr (DT.strftime_dashed (libc_pads_year W) today))
       /\ (DT.valid today = true -> (1000 <= DT.year today)%Z ->
           dashed_shape (DT.strftime_dashed (libc_pads_year W) today) = true
           /\ (~ pid_ok data ->
               truthy article_id = true \/ Str.utf8_encode t <> None ->
               exists suffix,
                 Dict.get (snd (fst r)) Main.k_pid
                 = Some (VStr (DT.strftime_compact (libc_pads_year W) today
                               ++ suffix)))))
  /\ (forall t,
        built W ->
        (1 <= max_retries)%nat ->
        Dict.get_default data Main.k_title (VStr []) = VStr t ->
        Str.strip t = [] ->
        snd (fst r) = data /\ snd r = x)
  /\ (forall e,
        ESUploader.__init__ W = Raise e ->
        snd (fst r) = data /\ snd r = x).
Proof.
  intros r. split.
  { (* what is written *)
    subst r. unfold Main.save_to_es.
    pose proof (attempts_writes_dated W max_retries max_retries
                  (Main.mk_save data x)) as H.
    destruct (Main.attempts W max_retries max_retries (Main.mk_save data x))
      as [res s']. exact H. }
  split; [|split].
  2:{ intros t Hb Hn Ht Hblank. subst r.
      rewrite (save_to_es_blank_title W data max_retries x t Hb Hn Ht Hblank).
      split; reflexivity. }
  2:{ intros e Hb. subst r. destruct max_retries as [|n]; [split; reflexivity|].
      rewrite (save_to_es_unbuilt W data (S n) x e Hb) by lia.
      split; reflexivity. }
  intros t d Hb Hn Ht Hd Hblank today article_id.
  destruct keys_distinct as (Ktd & Ktp & Kdp & Kap & Kad).
  assert (Hda : date_after W (clock_reads x) d
                = DT.strftime_dashed (libc_pads_year W) today).
  { unfold date_after. rewrite Hblank. reflexivity. }
  split.
  - (* the date *)
    set (s := Main.mk_save data x).
    destruct (fill_date_ok W s d Hd) as (sa & Ea & _ & Hfr & Hget & _).
    cbn [s Main.sv_ext clock_reads] in Hget. rewrite Hda in Hget.
    assert (Hta : title_is (Main.sv_data sa) t).
    { apply (frame_title_is [Main.k_date] s sa);
        [apply not_in_1, Ktd | exact Hfr | exact Ht]. }
    assert (Hdef : Dict.get_default (Main.sv_data sa) Main.k_date (VStr [])
                   = VStr (DT.strftime_dashed (libc_pads_year W) today)).
    { unfold Dict.get_default. rewrite Hget. reflexivity. }
    destruct (fill_date_ok W sa _ Hdef) as (sa' & Ea' & _ & _ & _ & Hsame).
    rewrite (Hsame (strftime_dashed_not_blank _ _)) in Ea'.
    assert (Ep : Main.preamble W s = Main.preamble W sa).
    { rewrite (preamble_unfold W s t Ht), (preamble_unfold W sa t Hta), Ea, Ea'.
      reflexivity. }
    destruct max_retries as [|n]; [lia|].
    subst r. unfold Main.save_to_es. fold s.
    rewrite (attempts_cong W (S n) n s sa Hb Ep).
    pose proof (attempts_date_stays W (S n) (S n) sa) as Hstay.
    destruct (Main.attempts W (S n) (S n) sa) as [res s']. cbn [fst snd] in *.
    rewrite Hstay; [exact Hget|].
    eexists. split; [exact Hget | apply strftime_dashed_not_blank].
  - (* the identifier *)
    intros Hv Hy. split.
    { pose proof (strftime_iso_shape (libc_pads_year W)
                    (DT.mk_datetime (DT.year today) (DT.month today) (DT.day today)
                                    0 0 0 0)) as Hshape.
      unfold DT.strftime_iso in Hshape. cbn [DT.year DT.month DT.day DT.hour
        DT.minute DT.second] in Hshape.
      unfold dashed_shape, DT.strftime_dashed. rewrite <- !app_assoc.
      apply Hshape; [|right; exact Hy].
      revert Hv. unfold DT.valid. cbn [DT.year DT.month DT.day DT.hour
        DT.minute DT.second DT.microsecond].
      rewrite !andb_true_iff. intros H. decompose [and] H.
      repeat split; auto. }
    intros Hno Hid.
    destruct (save_to_es_data W data max_retries x t d Hb Hn Ht Hd
                (or_intror Hid)) as (s1 & Ep & Edata).
    destruct (preamble_ok W (Main.mk_save data x) t d Ht Hd (or_intror Hid))
      as (s1' & Ep' & _ & _ & _ & _ & Hpid).
    rewrite Ep in Ep'. injection Ep' as <-.
    destruct (Hpid Hno) as (prefix & suffix & Hget & Hsearch & _).
    cbn [Main.sv_ext clock_reads] in Hsearch. rewrite Hda in Hsearch.
    destruct (search_date_of_clock (libc_pads_year W) today Hv Hy)
      as (y & m & dd & Es & Ec).
    rewrite Hsearch, (date_prefix_for_found W _ _ y m dd Es), Ec in Hget.
    exists suffix. subst r. rewrite Edata. exact Hget.
Qed.

Lemma blank_date_becomes_today_witness :
  let r := Main.save_to_es (Fixture.world [] (Fixture.memory_es []) 1)
             Fixture.a_bare_record 3 Fixture.fresh_ext in
  Dict.get (snd (fst r)) Main.k_date = Some (VStr (py "2024-01-01"))
  /\ grows writes_dated [] (es_log (snd r))
  /\ exists suffix,
       Dict.get (snd (fst r)) Main.k_pid = Some (VStr (py "20240101" ++ suffix)).
Proof.
  intros r.
  destruct (blank_date_becomes_today (Fixture.world [] (Fixture.memory_es []) 1)
              Fixture.a_bare_record 3 Fixture.fresh_ext)
    as (H2 & H & _).
  destruct (H (py "X") []) as (H1 & H3).
  - reflexivity.
  - lia.
  - split; [reflexivity | vm_compute; discriminate].
  - reflexivity.
  - reflexivity.
  - split; [exact H1|]. split; [exact H2|].
    destruct (H3 eq_refl) as [_ H4]; [vm_compute; discriminate|].
    apply H4.
    + intros (v & Hv & _). discriminate Hv.
    + right. vm_compute. discriminate.
Defined.

(** ** C4: identifiers *)

(** The identifier that the md5 fallback of [save_to_es] gives a record
    without identifier and without article id. *)
Lemma md5_fallback (W : World) (data : dict) (n : nat) (x : Ext)
    (t d : pystr) (bytes : list Z) :
  built W ->
  (1 <= n)%nat ->
  title_is data t ->
  Dict.get_default data Main.k_date (VStr []) = VStr d ->
  ~ pid_ok data ->
  truthy (Dict.get_default data (py "article_id") (VStr [])) = false ->
  Str.utf8_encode t = Some bytes ->
  exists h,
    Str.int_of_hex (Str.last_chars 4 (MD5.hexdigest bytes)) = Some h
    /\ Dict.get (snd (fst (Main.save_to_es W data n x))) Main.k_pid
       = Some (VStr (date_prefix_for W (clock_after (clock_reads x) d)
                                     (date_after W (clock_reads x) d)
                     ++ Str.zfill 3 (Str.str_of_int (h mod 1000)))).
Proof.
  intros Hbuilt Hn Ht Hd Hno Haid Hb.
  assert (Hid : pid_ok data
                \/ truthy (Dict.get_default data (py "article_id") (VStr [])) = true
                \/ Str.utf8_encode t <> None).
  { right. right. congruence. }
  destruct (save_to_es_data W data n x t d Hbuilt Hn Ht Hd Hid) as (s1 & Ep & Edata).
  destruct (preamble_ok W (Main.mk_save data x) t d Ht Hd Hid)
    as (s1' & Ep' & _ & _ & _ & _ & Hpid).
  rewrite Ep in Ep'. injection Ep' as <-.
  destruct (Hpid Hno) as (prefix & suffix & Hget & Hprefix & _ & Hsuffix).
  specialize (Hsuffix Haid).
  destruct (hexdigest_tail bytes) as [h Eh].
  unfold Main.serial_num_of in Hsuffix. rewrite Hb, Eh in Hsuffix.
  injection Hsuffix as <-.
  exists h. split; [exact Eh|].
  rewrite Edata, Hget, Hprefix. reflexivity.
Qed.

Lemma space_no_digit (c : N) : Str.isspace c = true -> Str.digit_value c = None.
Proof.
  intros H. apply space_not_decimal in H. unfold Str.isdecimal in H.
  destruct (Str.digit_value c); [discriminate | reflexivity].
Qed.

(** A string that [strptime] reads with [%Y-%m-%d] is not blank. *)
Lemma strptime_not_blank (s : pystr) (dt : DT.datetime) :
  DT.strptime s (py "%Y-%m-%d") = Some dt -> Str.strip s <> [].
Proof.
  intros Hs Hblank. apply strip_nil in Hblank.
  unfold DT.strptime in Hs.
  change (DT.tokens (py "%Y-%m-%d"))
    with [DT.TY; DT.TLit 45%N; DT.Tm; DT.TLit 45%N; DT.Td] in Hs.
  cbn [DT.matches] in Hs.
  assert (E : DT.tok_matches DT.TY s = []).
  { destruct s as [|a [|b [|c [|e r]]]]; try reflexivity.
    cbn [forallb] in Hblank. apply andb_true_iff in Hblank.
    destruct Hblank as [Ha _]. cbn [DT.tok_matches].
    rewrite (space_no_digit a Ha). reflexivity. }
  rewrite E in Hs. discriminate.
Qed.

(** C4, as stated, fails: the same record, with a title, no date and no
    token, gets one identifier on the first of the month and another on the
    second. *)
Lemma md5_fallback_follows_the_clock :
  Dict.get (snd (fst (Main.save_to_es (Fixture.world [] (Fixture.memory_es []) 1)
                        Fixture.a_bare_record 3 Fixture.fresh_ext))) Main.k_pid
  = Some (VStr (py "20240101955"))
  /\ Dict.get (snd (fst (Main.save_to_es (Fixture.world [] (Fixture.memory_es []) 2)
                           Fixture.a_bare_record 3 Fixture.fresh_ext))) Main.k_pid
     = Some (VStr (py "20240102955")).
Proof. vm_compute. split; reflexivity. Qed.

(** C4, amended. With a stable token the identifier of a listing entry is
    the date without its dashes followed by the token, whatever the random
    source holds. Without token, identifier and article id, and with the
    uploader built, the fallback of [save_to_es] gives a date prefix followed
    by three digits that depend on the title alone: the last four
    hexadecimal digits of md5(title) as an integer, modulo 1000, padded to
    three digits. The prefix: when a date YYYY-M-D is found in the date of
    the record, that date, so two calls give the same identifier; when none
    is found but [strptime] reads the date with [%Y-%m-%d], the date read,
    as [strftime] writes it, so two calls on one C library give the same
    identifier; in the remaining cases, a date that is neither found nor
    read, or a blank one, the day of the call. *)
Theorem identifier_determinism :
  (forall date article_id random1 random2,
      Str.eqb article_id (py "fact-check-reporter") = false ->
      Main.make_pid date article_id random1
      = filter (fun c => negb (N.eqb c 45)) date ++ article_id
      /\ Main.make_pid date article_id random2
         = Main.make_pid date article_id random1)
  /\ (forall W1 W2 n1 n2 x1 x2 data t d bytes,
         built W1 -> built W2 ->
         (1 <= n1)%nat -> (1 <= n2)%nat ->
         title_is data t ->
         Dict.get_default data Main.k_date (VStr []) = VStr d ->
         ~ pid_ok data ->
         truthy (Dict.get_default data (py "article_id") (VStr [])) = false ->
         Str.utf8_encode t = Some bytes ->
         let pid1 := Dict.get (snd (fst (Main.save_to_es W1 data n1 x1))) Main.k_pid in
         let pid2 := Dict.get (snd (fst (Main.save_to_es W2 data n2 x2))) Main.k_pid in
         let today := now W1 (clock_reads x1) in
         exists prefix1 prefix2 h,
           Str.int_of_hex (Str.last_chars 4 (MD5.hexdigest bytes)) = Some h
           /\ let serial_num := Str.zfill 3 (Str.str_of_int (h mod 1000)) in
              pid1 = Some (VStr (prefix1 ++ serial_num))
              /\ pid2 = Some (VStr (prefix2 ++ serial_num))
              /\ length serial_num = 3%nat
              /\ forallb is_digit serial_num = true
              /\ (forall y m dd, DT.search_date d = Some (y, m, dd) ->
                                 prefix1 = y ++ Str.zfill 2 m ++ Str.zfill 2 dd
                                 /\ pid1 = pid2)
              /\ (forall dt, DT.search_date d = None ->
                             DT.strptime d (py "%Y-%m-%d") = Some dt ->
                             prefix1 = DT.strftime_compact (libc_pads_year W1) dt
                             /\ (libc_pads_year W1 = libc_pads_year W2 ->
                                 pid1 = pid2))
              /\ (Str.strip d <> [] ->
                  DT.search_date d = None ->
                  DT.strptime d (py "%Y-%m-%d") = None ->
                  prefix1 = DT.strftime_compact (libc_pads_year W1) today)
              /\ (Str.strip d = [] ->
                  DT.valid today = true -> (1000 <= DT.year today)%Z ->
                  prefix1 = DT.strftime_compact (libc_pads_year W1) today)).
Proof.
  split.
  - intros date article_id random1 random2 Hstable.
    unfold Main.make_pid. rewrite Hstable, replace_dash. split; reflexivity.
  - intros W1 W2 n1 n2 x1 x2 data t d bytes Hb1 Hb2 Hn1 Hn2 Ht Hd Hno Haid Hb
           pid1 pid2 today.
    destruct (md5_fallback W1 data n1 x1 t d bytes Hb1 Hn1 Ht Hd Hno Haid Hb)
      as (h & Eh & Hpid1).
    destruct (md5_fallback W2 data n2 x2 t d bytes Hb2 Hn2 Ht Hd Hno Haid Hb)
      as (h' & Eh' & Hpid2).
    rewrite Eh in Eh'. injection Eh' as <-.
    assert (Hstay : forall W n, Str.strip d <> [] ->
               date_after W n d = d /\ clock_after n d = n).
    { intros W n Hnb. apply nonempty_true in Hnb.
      unfold date_after, clock_after. rewrite Hnb. split; reflexivity. }
    eexists _, _, h. split; [exact Eh|]. cbv zeta.
    split; [exact Hpid1|]. split; [exact Hpid2|].
    destruct (serial_shape h) as [Hlen Hdig].
    split; [exact Hlen|]. split; [exact Hdig|].
    split; [|split; [|split]].
    + intros y m dd Es.
      pose proof (search_date_not_blank d _ Es) as Hnb.
      destruct (Hstay W1 (clock_reads x1) Hnb) as [-> ->].
      split; [apply date_prefix_for_found; exact Es|].
      subst pid1 pid2. rewrite Hpid1, Hpid2.
      destruct (Hstay W1 (clock_reads x1) Hnb) as [-> ->].
      destruct (Hstay W2 (clock_reads x2) Hnb) as [-> ->].
      rewrite !(date_prefix_for_found _ _ _ y m dd Es). reflexivity.
    + intros dt Es Ep.
      pose proof (strptime_not_blank d dt Ep) as Hnb.
      destruct (Hstay W1 (clock_reads x1) Hnb) as [-> ->].
      split; [unfold date_prefix_for; rewrite Es, Ep; reflexivity|].
      intros Hpads. subst pid1 pid2. rewrite Hpid1, Hpid2.
      destruct (Hstay W1 (clock_reads x1) Hnb) as [-> ->].
      destruct (Hstay W2 (clock_reads x2) Hnb) as [-> ->].
      unfold date_prefix_for. rewrite Es, Ep, Hpads. reflexivity.
    + intros Hnb Es Ep.
      destruct (Hstay W1 (clock_reads x1) Hnb) as [-> ->].
      unfold date_prefix_for. rewrite Es, Ep. reflexivity.
    + intros Hblank Hv Hy.
      assert (Hda : date_after W1 (clock_reads x1) d
                    = DT.strftime_dashed (libc_pads_year W1) today).
      { unfold date_after. rewrite Hblank. reflexivity. }
      rewrite Hda.
      destruct (search_date_of_clock (libc_pads_year W1) today Hv Hy)
        as (y & m & dd & Es & Ec).
      rewrite (date_prefix_for_found W1 _ _ y m dd Es). exact Ec.
Qed.

(** An entry dated 2024-1-05 with the token 12345; a record dated 2024-1-5
    with the title X, uploaded on two different days; and the same record
    dated 2024-01- 5, in which no date is found and which [strptime] reads
    as the fifth of January. *)
Lemma identifier_determinism_witness :
  Main.make_pid (py "2024-1-05") (py "12345") 300 = py "2024105" ++ py "12345"
  /\ (let data := [(py "title", VStr (py "X")); (py "date", VStr (py "2024-1-5"))] in
      let pid1 := Dict.get (snd (fst (Main.save_to_es
                    (Fixture.world [] (Fixture.memory_es []) 1) data 3
                    Fixture.fresh_ext))) Main.k_pid in
      let pid2 := Dict.get (snd (fst (Main.save_to_es
                    (Fixture.world [] (Fixture.deaf_es []) 2) data 1
                    Fixture.fresh_ext))) Main.k_pid in
      pid1 = pid2)
  /\ (let data := [(py "title", VStr (py "X")); (py "date", VStr (py "2024-01- 5"))] in
      exists prefix1,
        Dict.get (snd (fst (Main.save_to_es
                    (Fixture.world [] (Fixture.memory_es []) 9) data 3
                    Fixture.fresh_ext))) Main.k_pid
        = Some (VStr (prefix1 ++ py "955"))
        /\ prefix1 = py "20240105").
Proof.
  destruct identifier_determinism as [Ha Hb]. split; [|split].
  - destruct (Ha (py "2024-1-05") (py "12345") 300%Z 999%Z eq_refl) as [E _].
    rewrite E. reflexivity.
  - intros data pid1 pid2.
    destruct (Hb (Fixture.world [] (Fixture.memory_es []) 1)
                 (Fixture.world [] (Fixture.deaf_es []) 2) 3 1
                 Fixture.fresh_ext Fixture.fresh_ext data (py "X") (py "2024-1-5")
                 [88%Z])
      as (p1 & p2 & h & _ & _ & _ & _ & _ & Hsame & _).
    + reflexivity.
    + reflexivity.
    + lia.
    + lia.
    + split; [reflexivity | vm_compute; discriminate].
    + reflexivity.
    + intros (v & Hv & _). discriminate Hv.
    + reflexivity.
    + reflexivity.
    + destruct (Hsame (py "2024") (py "1") (py "5")) as [_ E].
      * vm_compute. reflexivity.
      * exact E.
  - intros data.
    destruct (Hb (Fixture.world [] (Fixture.memory_es []) 9)
                 (Fixture.world [] (Fixture.memory_es []) 9) 3 3
                 Fixture.fresh_ext Fixture.fresh_ext data (py "X") (py "2024-01- 5")
                 [88%Z])
      as (p1 & p2 & h & Eh & Hp1 & _ & _ & _ & _ & Hread & _).
    + reflexivity.
    + reflexivity.
    + lia.
    + lia.
    + split; [reflexivity | vm_compute; discriminate].
    + reflexivity.
    + intros (v & Hv & _). discriminate Hv.
    + reflexivity.
    + reflexivity.
    + vm_compute in Eh. injection Eh as <-.
      destruct (Hread (DT.mk_datetime 2024 1 5 0 0 0 0)) as [E _].
      * vm_compute. reflexivity.
      * vm_compute. reflexivity.
      * exists p1. split; [exact Hp1 | exact E].
Defined.

(** ** main_process: one listing entry *)

Lemma in_backup_print (e : event) (st : St) (y : pystr) :
  Main.in_backup y (Main.print e st) = Main.in_backup y st.
Proof. reflexivity. Qed.

Lemma existsb_snoc (A : Type) (p : A -> bool) (l : list A) (x : A) :
  existsb p (l ++ [x]) = existsb p l || p x.
Proof. rewrite existsb_app. simpl. rewrite orb_false_r. reflexivity. Qed.

(** *** The backup file: what an append changes for the scan *)

Lemma eq_str_reload (v : pyval) (y : pystr) :
  eq_str (json_reload v) y = eq_str v y.
Proof. destruct v; try reflexivity. cbn. destruct (is_nan bits); reflexivity. Qed.

Lemma line_has_title_reload (y : pystr) (report : dict) :
  Main.line_has_title y (Some (json_reload (VDict report)))
  = match Dict.get report Main.k_title with
    | Some v => eq_str v y
    | None => false
    end.
Proof.
  cbn [json_reload Main.line_has_title].
  induction report as [|[k v] report IH]; [reflexivity|].
  cbn [map Dict.get]. destruct (Str.eqb k Main.k_title); [|exact IH].
  apply eq_str_reload.
Qed.

(** The title test on the line an append makes, and the lines it leaves
    before that one. *)
Lemma in_backup_append (W : World) (report : dict) (st : St) (y : pystr) :
  backup_writable W (backup_appends st) = true ->
  let st' := snd (Main.backup_to_jsonl W report st) in
  let file := match backup_file st with
              | Some l => l
              | None => mk_ledger [] None
              end in
  Main.in_backup y st'
  = existsb (Main.line_has_title y) (full_lines file)
    || match last_open file with
       | Some (OpenText _) => false
       | _ => match Dict.get report Main.k_title with
              | Some v => eq_str v y
              | None => false
              end
       end.
Proof.
  intros Hw. cbv zeta. unfold Main.backup_to_jsonl. rewrite Hw. cbn [snd].
  unfold Main.in_backup. cbn [backup_file].
  unfold Main.decoded_lines, Main.appended. cbn [full_lines last_open].
  rewrite app_nil_r, existsb_snoc. f_equal.
  destruct (last_open _) as [[|alone]|]; try apply line_has_title_reload.
  reflexivity.
Qed.

Lemma in_backup_lines (y : pystr) (st : St) :
  let file := match backup_file st with
              | Some l => l
              | None => mk_ledger [] None
              end in
  Main.in_backup y st
  = existsb (Main.line_has_title y) (full_lines file)
    || match last_open file with
       | Some (OpenText alone) => Main.line_has_title y alone
       | _ => false
       end.
Proof.
  cbv zeta. unfold Main.in_backup, Main.decoded_lines.
  destruct (backup_file st) as [file|]; [|reflexivity].
  rewrite existsb_app.
  destruct (last_open file) as [[|alone]|]; cbn [existsb];
    rewrite ?orb_false_r; reflexivity.
Qed.

(** An append puts no title into the backup file but that of the record. *)
Lemma backup_to_jsonl_others (W : World) (report : dict) (st : St) (t y : pystr) :
  Dict.get report Main.k_title = Some (VStr t) ->
  y <> t ->
  Main.in_backup y st = false ->
  Main.in_backup y (snd (Main.backup_to_jsonl W report st)) = false.
Proof.
  intros Ht Hy Hb.
  destruct (backup_writable W (backup_appends st)) eqn:Hw.
  - rewrite (in_backup_append W report st y Hw). cbv zeta.
    rewrite in_backup_lines in Hb. cbv zeta in Hb.
    apply orb_false_iff in Hb. destruct Hb as [Hb _]. rewrite Hb, Ht.
    cbn [orb eq_str]. replace (Str.eqb t y) with false.
    + destruct (last_open _) as [[|alone]|]; reflexivity.
    + symmetry. apply str_eqb_neq. congruence.
  - unfold Main.backup_to_jsonl. rewrite Hw. exact Hb.
Qed.

(** What [embedding_and_save] leaves of the state of the driver: the history
    file is untouched, one line is printed, and the backup file has gained
    no title but that of the report. *)
Lemma embedding_and_save_effect (W : World) (report : dict) (st : St) (t : pystr) :
  Dict.get report Main.k_title = Some (VStr t) ->
  let st' := snd (Main.embedding_and_save W report st) in
  history_file st' = history_file st
  /\ stdout st' = EvProcess (VStr t) :: stdout st
  /\ (forall y, y <> t -> Main.in_backup y st = false ->
                 Main.in_backup y st' = false).
Proof.
  intros Ht. unfold Main.embedding_and_save. rewrite Ht.
  destruct (Dict.get_default report (py "full_content") (VStr []));
    try (cbn; repeat split; auto; fail).
  assert (Hback : forall report1 st1,
             Dict.get report1 Main.k_title = Some (VStr t) ->
             history_file st1 = history_file st ->
             stdout st1 = EvProcess (VStr t) :: stdout st ->
             backup_file st1 = backup_file st ->
             let r :=
               (let st' := snd (Main.backup_to_jsonl W report1 st1) in
                let '(result, report0, x) :=
                  Main.save_to_es W report1 3 (ext st') in
                (match Result result with
                 | code_Y => Main.success
                 | code_N => Main.error
                 | code_SKIP => Main.skip
                 end, true, report0, Main.with_ext x st')) in
             history_file (snd r) = history_file st
             /\ stdout (snd r) = EvProcess (VStr t) :: stdout st
             /\ (forall y, y <> t -> Main.in_backup y st = false ->
                            Main.in_backup y (snd r) = false)).
  { intros report1 st1 Ht1 Hh Hs Hb. cbv zeta.
    pose proof (fun y => backup_to_jsonl_others W report1 st1 t y Ht1) as Ho.
    destruct (Main.backup_to_jsonl W report1 st1) as [ok st2] eqn:Eb.
    cbn [snd] in *.
    assert (Hst2 : history_file st2 = history_file st1
                   /\ stdout st2 = stdout st1).
    { unfold Main.backup_to_jsonl in Eb.
      destruct (backup_writable W _); injection Eb as _ <-; split; reflexivity. }
    destruct Hst2 as [Hh2 Hs2].
    destruct (Main.save_to_es W report1 3 (ext st2)) as [[result report0] x].
    cbn [snd Main.with_ext history_file stdout].
    split; [congruence|]. split; [congruence|].
    intros y Hy Hin. unfold Main.in_backup. cbn [backup_file].
    apply (Ho y Hy). unfold Main.in_backup. rewrite Hb. exact Hin. }
  destruct (Str.nonempty (Str.strip s)).
  - unfold Main.text_embeddings_3.
    destruct (encode W s) as [tokens|detail]; [|cbn; repeat split; auto].
    match goal with
    | |- context [embed W ?n ?text] => destruct (embed W n text) as [v|detail]
    end; [|cbn; repeat split; auto].
    apply Hback; try reflexivity.
    rewrite get_set_other by discriminate. exact Ht.
  - apply Hback; try reflexivity.
    rewrite get_set_other by discriminate. exact Ht.
Qed.

Lemma refine_keeps_title (c : container) (label : pystr) (report : dict) :
  Dict.get (Main.refine_from_detail c label report) Main.k_title
  = Dict.get report Main.k_title.
Proof.
  unfold Main.refine_from_detail.
  repeat match goal with
         | |- context [match ?x with _ => _ end] => destruct x
         end;
    repeat (rewrite get_set_other by discriminate); reflexivity.
Qed.

(** The report of an entry carries the title of the entry, and building it
    only draws from the random source. *)
Lemma build_report_effect (W : World) (title : pystr) (a : article)
    (article_id : pystr) (st : St) :
  let r := Main.build_report W title a article_id st in
  Dict.get (fst r) Main.k_title = Some (VStr title)
  /\ history_file (snd r) = history_file st
  /\ stdout (snd r) = stdout st
  /\ backup_file (snd r) = backup_file st.
Proof.
  unfold Main.build_report. cbv zeta.
  destruct (Main.label_and_category (a_lists a)) as [label category].
  set (st1 := if Str.eqb article_id (py "fact-check-reporter") then _ else st).
  assert (H1 : history_file st1 = history_file st /\ stdout st1 = stdout st
               /\ backup_file st1 = backup_file st).
  { subst st1. destruct (Str.eqb article_id _); repeat split; reflexivity. }
  match goal with
  | |- context [if Str.nonempty ?l then _ else _] => destruct (Str.nonempty l)
  end; [|cbn [fst snd]; split; [reflexivity | exact H1]].
  match goal with
  | |- context [get_detail W ?l] => destruct (get_detail W l) as [page|detail]
  end; [|cbn [fst snd]; split; [reflexivity | exact H1]].
  destruct (d_container page) as [c|]; cbn [fst snd];
    (split; [|exact H1]); [|reflexivity].
  rewrite refine_keeps_title. reflexivity.
Qed.

Lemma process_article_untitled (W : World) (last : pyval) (page i : nat)
    (a : article) (article_id : pystr) (c : Main.counters) (st : St) :
  match a_title a with Some t => Str.nonempty t = false | None => True end ->
  Main.process_article W last page (i, a, article_id) c st
  = (c, Main.print (EvHeader page i article_id) st).
Proof.
  intros H. unfold Main.process_article.
  destruct (a_title a) as [t|]; [|reflexivity]. rewrite H. reflexivity.
Qed.

Lemma process_article_duplicate (W : World) (last : pyval) (page i : nat)
    (a : article) (article_id : pystr) (c : Main.counters) (st : St) (t : pystr) :
  a_title a = Some t -> Str.nonempty t = true -> Main.in_backup t st = true ->
  Main.process_article W last page (i, a, article_id) c st
  = (c, Main.print (EvDuplicate t)
          (Main.print (EvTitle t) (Main.print (EvHeader page i article_id) st))).
Proof.
  intros Ha Hn Hb. unfold Main.process_article. rewrite Ha, Hn. cbn [negb].
  rewrite !in_backup_print, Hb. reflexivity.
Qed.

Lemma process_article_stop (W : World) (last : pyval) (page i : nat)
    (a : article) (article_id : pystr) (c : Main.counters) (st : St) (t : pystr) :
  a_title a = Some t -> Str.nonempty t = true -> Main.in_backup t st = false ->
  truthy last && eq_str last t = true ->
  Main.process_article W last page (i, a, article_id) c st
  = (Main.mk_counters (Main.total_processed c) (Main.success_count c) (Main.skip_count c)
                 (Main.error_count c) (Main.backup_count c) (Main.first_article_title c) true,
     Main.print EvStop
       (Main.print (EvTitle t) (Main.print (EvHeader page i article_id) st))).
Proof.
  intros Ha Hn Hb Hl. unfold Main.process_article. rewrite Ha, Hn. cbn [negb].
  rewrite !in_backup_print, Hb, Hl. reflexivity.
Qed.

Lemma process_article_fresh (W : World) (last : pyval) (page i : nat)
    (a : article) (article_id : pystr) (c : Main.counters) (st : St) (t : pystr) :
  a_title a = Some t -> Str.nonempty t = true -> Main.in_backup t st = false ->
  truthy last && eq_str last t = false ->
  let r := Main.process_article W last page (i, a, article_id) c st in
  Main.total_processed (fst r) = S (Main.total_processed c)
  /\ Main.first_article_title (fst r)
     = match Main.first_article_title c with None => Some t | Some f => Some f end
  /\ Main.duplicate_found (fst r) = Main.duplicate_found c
  /\ history_file (snd r) = history_file st
  /\ stdout (snd r)
     = EvProcess (VStr t) :: EvTitle t :: EvHeader page i article_id :: stdout st
  /\ (forall y, y <> t -> Main.in_backup y st = false ->
                 Main.in_backup y (snd r) = false).
Proof.
  intros Ha Hn Hb Hl. unfold Main.process_article. rewrite Ha, Hn. cbn [negb].
  rewrite !in_backup_print, Hb, Hl.
  set (st1 := Main.print (EvTitle t) (Main.print (EvHeader page i article_id) st)).
  pose proof (build_report_effect W t a article_id st1) as B. cbv zeta in B.
  destruct (Main.build_report W t a article_id st1) as [report st2].
  cbn [fst snd] in B. destruct B as (Bt & Bh & Bs & Bb).
  pose proof (embedding_and_save_effect W report st2 t Bt) as E. cbv zeta in E.
  destruct (Main.embedding_and_save W report st2) as [[[rs rb] report'] st3].
  cbn [fst snd] in E. destruct E as (Eh & Es & Eb).
  cbn [fst snd Main.total_processed Main.first_article_title Main.duplicate_found].
  repeat split; try reflexivity.
  - rewrite Eh, Bh. reflexivity.
  - rewrite Es, Bs. reflexivity.
  - intros y Hy Hin. apply (Eb y Hy). unfold Main.in_backup. rewrite Bb.
    exact Hin.
Qed.

Lemma for_articles_stopped (W : World) (last : pyval) (page : nat)
    (infos : list (nat * article * pystr)) (c : Main.counters) (st : St) :
  Main.duplicate_found c = true ->
  Main.for_articles W last page infos c st = (c, st).
Proof. intros H. destruct infos; cbn [Main.for_articles]; [|rewrite H]; reflexivity. Qed.

Lemma for_articles_app (W : World) (last : pyval) (page : nat)
    (l1 l2 : list (nat * article * pystr)) (c : Main.counters) (st : St) :
  Main.for_articles W last page (l1 ++ l2) c st
  = Main.for_articles W last page l2
      (fst (Main.for_articles W last page l1 c st))
      (snd (Main.for_articles W last page l1 c st)).
Proof.
  revert c st. induction l1 as [|info l1 IH]; intros c st; [reflexivity|].
  cbn [app Main.for_articles].
  destruct (Main.duplicate_found c) eqn:D.
  - cbn [fst snd]. rewrite for_articles_stopped by exact D. reflexivity.
  - destruct (Main.process_article W last page info c st) as [c1 st1]. apply IH.
Qed.

Lemma examined_app (e1 e2 : list event) :
  examined (e1 ++ e2) = examined e2 ++ examined e1.
Proof. unfold examined. rewrite flat_map_app, rev_app_distr. reflexivity. Qed.

Lemma processed_app (e1 e2 : list event) :
  processed (e1 ++ e2) = processed e2 ++ processed e1.
Proof. unfold processed. rewrite flat_map_app, rev_app_distr. reflexivity. Qed.

Lemma stopped_app (e1 e2 : list event) :
  stopped (e1 ++ e2) = stopped e1 || stopped e2.
Proof. unfold stopped. apply existsb_app. Qed.

Lemma cursor_saved_app (e1 e2 : list event) :
  cursor_saved (e1 ++ e2) = cursor_saved e1 ++ cursor_saved e2.
Proof. unfold cursor_saved. apply flat_map_app. Qed.

(** ** main_process: the counters and the printed events *)

Lemma hd_error_snoc (A : Type) (l : list A) (x : A) :
  hd_error (l ++ [x]) = match hd_error l with Some y => Some y | None => Some x end.
Proof. destruct l; reflexivity. Qed.

Lemma accounts_quiet (c : Main.counters) (new : list event) (e : event) :
  match e with
  | EvProcess _ | EvStop | EvCursorSaved _ => False
  | _ => True
  end ->
  accounts c new -> accounts c (e :: new).
Proof.
  intros He (A1 & A2 & A3 & A4). unfold accounts.
  change (e :: new) with ([e] ++ new).
  rewrite processed_app, stopped_app, cursor_saved_app.
  destruct e; try contradiction; cbn; rewrite app_nil_r; auto.
Qed.

Lemma process_article_run_state (W : World) (last : pyval) (page : nat)
    (info : nat * article * pystr) (st0 : St) (c : Main.counters) (st : St) :
  run_state st0 c st ->
  run_state st0 (fst (Main.process_article W last page info c st))
            (snd (Main.process_article W last page info c st)).
Proof.
  intros (new & Hs & Ha & Hh). destruct info as [[i a] article_id].
  assert (U : run_state st0 c (Main.print (EvHeader page i article_id) st)).
  { exists (EvHeader page i article_id :: new). cbn [Main.print stdout history_file].
    rewrite Hs. split; [reflexivity|]. split; [|exact Hh].
    apply accounts_quiet; [exact I | exact Ha]. }
  destruct (a_title a) as [t|] eqn:Et.
  2:{ rewrite process_article_untitled by (rewrite Et; exact I). exact U. }
  destruct (Str.nonempty t) eqn:En.
  2:{ rewrite process_article_untitled by (rewrite Et; exact En). exact U. }
  assert (Q : accounts c (EvTitle t :: EvHeader page i article_id :: new))
    by (repeat (apply accounts_quiet; [exact I |]); exact Ha).
  destruct (Main.in_backup t st) eqn:Eb.
  { rewrite (process_article_duplicate W last page i a article_id c st t Et En Eb).
    cbn [fst snd].
    exists (EvDuplicate t :: EvTitle t :: EvHeader page i article_id :: new).
    cbn [Main.print stdout history_file]. rewrite Hs.
    split; [reflexivity|]. split; [|exact Hh].
    apply accounts_quiet; [exact I | exact Q]. }
  destruct Q as (A1 & A2 & A3 & A4).
  destruct (truthy last && eq_str last t) eqn:El.
  { rewrite (process_article_stop W last page i a article_id c st t Et En Eb El).
    cbn [fst snd].
    exists (EvStop :: EvTitle t :: EvHeader page i article_id :: new).
    cbn [Main.print stdout history_file]. rewrite Hs.
    split; [reflexivity|]. split; [|exact Hh].
    unfold accounts.
    change (EvStop :: EvTitle t :: EvHeader page i article_id :: new)
      with ([EvStop] ++ EvTitle t :: EvHeader page i article_id :: new).
    rewrite processed_app, stopped_app, cursor_saved_app.
    change (processed [EvStop]) with (@nil pyval).
    change (stopped [EvStop]) with true.
    change (cursor_saved [EvStop]) with (@nil pystr).
    rewrite app_nil_r.
    cbn [Main.total_processed Main.first_article_title Main.duplicate_found orb app].
    auto. }
  pose proof (process_article_fresh W last page i a article_id c st t Et En Eb El)
    as F. cbv zeta in F.
  destruct (Main.process_article W last page (i, a, article_id) c st) as [c1 st1].
  cbn [fst snd] in *. destruct F as (F1 & F2 & F3 & F4 & F5 & _).
  exists (EvProcess (VStr t) :: EvTitle t :: EvHeader page i article_id :: new).
  rewrite F5, Hs, F4, Hh. split; [reflexivity|]. split; [|reflexivity].
  unfold accounts.
  change (EvProcess (VStr t) :: EvTitle t :: EvHeader page i article_id :: new)
    with ([EvProcess (VStr t)] ++ EvTitle t :: EvHeader page i article_id :: new).
  rewrite processed_app, stopped_app, cursor_saved_app.
  change (processed [EvProcess (VStr t)]) with [VStr t].
  change (stopped [EvProcess (VStr t)]) with false.
  change (cursor_saved [EvProcess (VStr t)]) with (@nil pystr).
  rewrite length_app, hd_error_snoc, F1, F2, F3, <- A2, A1.
  cbn [length orb app]. repeat split; auto.
  - lia.
  - destruct (Main.first_article_title c); reflexivity.
Qed.

Lemma for_articles_run_state (W : World) (last : pyval) (page : nat)
    (infos : list (nat * article * pystr)) (st0 : St) (c : Main.counters) (st : St) :
  run_state st0 c st ->
  run_state st0 (fst (Main.for_articles W last page infos c st))
            (snd (Main.for_articles W last page infos c st)).
Proof.
  revert c st. induction infos as [|info rest IH]; intros c st H; [exact H|].
  cbn [Main.for_articles]. destruct (Main.duplicate_found c); [exact H|].
  pose proof (process_article_run_state W last page info st0 c st H) as P.
  destruct (Main.process_article W last page info c st) as [c1 st1].
  apply IH. exact P.
Qed.

(** Whether the page loop returns or a page fetch aborts it, the state it
    ends in is one the entry loop left. *)
Lemma pages_loop_run_state (W : World) (last : pyval) (remaining : nat) :
  forall (page : nat) (st0 : St) (c : Main.counters) (st : St),
    run_state st0 c st ->
    match Main.pages_loop W last remaining page c st with
    | (Ok c', st') => run_state st0 c' st'
    | (Raise _, st') => exists c', run_state st0 c' st'
    end.
Proof.
  induction remaining as [|remaining IH]; intros page st0 c st H; [exact H|].
  cbn [Main.pages_loop].
  destruct (get_listing W page) as [soup|detail]; [|exists c; exact H].
  destruct (articles soup) as [|a0 rest] eqn:Ea; [exact H|].
  pose proof (for_articles_run_state W last page
                (Main.reporter_articles (a0 :: rest)) st0 c st H) as P.
  destruct (Main.for_articles W last page _ c st) as [c1 st1]. cbn [fst snd] in P.
  destruct (Main.duplicate_found c1); [exact P|].
  destruct (next_button soup); [|exact P]. apply IH. exact P.
Qed.

Lemma run_state_start (st : St) : run_state st Main.initial_counters st.
Proof.
  exists []. split; [reflexivity|]. split; [|reflexivity].
  repeat split; reflexivity.
Qed.

Lemma processed_quiet (e : event) (new : list event) :
  match e with EvProcess _ => False | _ => True end ->
  processed (e :: new) = processed new.
Proof.
  intros H. change (e :: new) with ([e] ++ new). rewrite processed_app.
  destruct e; try contradiction; apply app_nil_r.
Qed.

(** C1 (as amended). Every run of [main_process], whatever it reads from the
    listing: when the run returns its statistics, the cursor is saved if and
    only if at least one entry was processed and the stop condition never
    fired, and what is saved is the title of the first entry the run
    processed; when the stop condition fired, or nothing was processed, the
    history file is as it was. A run that a page fetch aborts leaves the
    history file as it was, whatever it processed before. *)
Theorem cursor_update_rule (W : World) (max_pages : nat) (st : St) :
  let r := Main.main_process W max_pages st in
  exists new,
    stdout (snd r) = new ++ stdout st
    /\ match fst r with
       | Ok stats =>
           Main.n_total stats = length (processed new)
           /\ match processed new with
              | first :: _ =>
                  if stopped new
                  then history_file (snd r) = history_file st
                       /\ cursor_saved new = []
                  else exists t,
                         first = VStr t
                         /\ cursor (snd r) = Some (VStr t)
                         /\ cursor_saved new = [t]
              | [] => history_file (snd r) = history_file st
                      /\ cursor_saved new = []
              end
       | Raise _ => history_file (snd r) = history_file st
                    /\ cursor_saved new = []
       end.
Proof.
  cbv zeta. unfold Main.main_process, Main.get_last_crawled_title.
  destruct (Main.load_crawler_history st) as [| | | | |  |  |history] eqn:L;
    try solve [exists []; cbn; auto].
  set (last := Dict.get_default history (py "last_crawled_title") VNone).
  pose proof (pages_loop_run_state W last max_pages 1 st Main.initial_counters st
                (run_state_start st)) as P.
  destruct (Main.pages_loop W last max_pages 1 Main.initial_counters st)
    as [[c|e] st1].
  2:{ destruct P as (c' & new & Hs & (_ & _ & _ & A4) & Hh).
      exists new. cbn [fst snd]. auto. }
  destruct P as (new & Hs & (A1 & A2 & A3 & A4) & Hh).
  destruct (Main.first_article_title c) as [first|] eqn:F; cbn [option_map] in A2.
  2:{ exists new. cbn [fst snd Main.n_total]. split; [exact Hs|].
      split; [exact A1|]. destruct (processed new); [auto | discriminate]. }
  destruct (processed new) as [|p ps] eqn:Pn; [discriminate|].
  cbn [hd_error] in A2. injection A2 as A2. cbn [length] in A1.
  rewrite A1, A3. cbn [Nat.ltb Nat.leb andb].
  destruct (stopped new) eqn:Sn; cbn [negb].
  { exists new. cbn [fst snd Main.n_total]. rewrite Pn, Sn. cbn [length]. auto. }
  unfold Main.update_last_crawled_title.
  assert (L1 : Main.load_crawler_history st1 = VDict history).
  { unfold Main.load_crawler_history in *. rewrite Hh. exact L. }
  rewrite L1. exists (EvCursorSaved first :: new).
  cbn [fst snd Main.n_total Main.print stdout]. rewrite Hs.
  split; [reflexivity|]. rewrite processed_quiet by exact I. rewrite Pn.
  split; [reflexivity|].
  change (stopped (EvCursorSaved first :: new)) with (stopped new). rewrite Sn.
  exists first. split; [auto|]. split.
  - unfold cursor, Main.save_crawler_history. cbn [history_file Main.print].
    rewrite get_set_other by discriminate. apply get_set_same.
  - change (cursor_saved (EvCursorSaved first :: new))
      with (first :: cursor_saved new). rewrite A4. reflexivity.
Qed.

(** C1 (counterexample). Two runs against a store that accepts everything.
    In the first the listing shows one entry [A] and a next-page button, and
    the fetch of page 2 fails: the run processed [A], never met the stop
    condition, and ends with the exception and without a cursor. In the
    second the first entry [X] is already in the backup file and the second,
    [Y], is new: the first title the run saw is [X], the cursor it saves is
    [Y]. *)
Lemma aborted_run_saves_no_cursor :
  (let W := Fixture.world [mk_listing [Fixture.entry "a" "A"] true]
                          (Fixture.steady_es Fixture.report_fields) 1 in
   let r := Main.main_process W 40 (Fixture.fresh_state None) in
   fst r = Raise (CollaboratorError (py "connection refused"))
   /\ processed (stdout (snd r)) = [VStr (py "A")]
   /\ stopped (stdout (snd r)) = false
   /\ cursor (snd r) = None)
  /\ (let W := Fixture.world
                 [mk_listing [Fixture.entry "x" "X"; Fixture.entry "y" "Y"] false]
                 (Fixture.steady_es Fixture.report_fields) 1 in
      let r := Main.main_process W 40
                 (Fixture.state_with None (Fixture.ledger_of ["X"%string])) in
      fst r = Ok (Main.mk_statistics 1 1 0 0 1)
      /\ examined (stdout (snd r)) = [py "X"; py "Y"]
      /\ processed (stdout (snd r)) = [VStr (py "Y")]
      /\ stopped (stdout (snd r)) = false
      /\ cursor (snd r) = Some (VStr (py "Y"))).
Proof. vm_compute. repeat split; reflexivity. Qed.

(** The scenario of the specification: the listing shows [C], [B], [A] and the
    cursor is [B]: the run processes [C], stops at [B] and leaves the history
    file as it was; without a cursor it processes the three and saves [C]. *)
Example cursor_scenario :
  let pages := [mk_listing [Fixture.entry "c" "C"; Fixture.entry "b" "B";
                            Fixture.entry "a" "A"] false] in
  let W := Fixture.world pages (Fixture.steady_es Fixture.report_fields) 1 in
  let r := Main.main_process W 40 (Fixture.fresh_state (Fixture.history_with "B")) in
  let r' := Main.main_process W 40 (Fixture.fresh_state None) in
  (fst r = Ok (Main.mk_statistics 1 1 0 0 1)
   /\ processed (stdout (snd r)) = [VStr (py "C")]
   /\ history_file (snd r) = Fixture.history_with "B")
  /\ (fst r' = Ok (Main.mk_statistics 3 3 0 0 3)
      /\ processed (stdout (snd r')) = [VStr (py "C"); VStr (py "B"); VStr (py "A")]
      /\ cursor (snd r') = Some (VStr (py "C"))).
Proof. vm_compute. repeat split; reflexivity. Qed.

(** ** main_process: the stop condition *)

Lemma for_articles_fresh (W : World) (t : pystr) (page : nat) :
  forall (infos : list (nat * article * pystr)) (ts : list pystr)
         (c : Main.counters) (st : St),
    map title_of infos = map Some ts ->
    Forall (fun x => x <> []) ts ->
    NoDup ts ->
    Forall (fun x => Main.in_backup x st = false) ts ->
    ~ In t ts ->
    Main.duplicate_found c = false ->
    let r := Main.for_articles W (VStr t) page infos c st in
    Main.duplicate_found (fst r) = false
    /\ Main.total_processed (fst r) = Main.total_processed c + length ts
    /\ history_file (snd r) = history_file st
    /\ (forall y, ~ In y ts -> Main.in_backup y st = false ->
                   Main.in_backup y (snd r) = false)
    /\ exists new,
         stdout (snd r) = new ++ stdout st
         /\ examined new = ts
         /\ processed new = map VStr ts
         /\ stopped new = false.
Proof.
  induction infos as [|info rest IH]; intros ts c st Hm Hn Hd Hb Ht Hc;
    destruct ts as [|x ts]; try discriminate.
  - cbn [Main.for_articles fst snd length map]. rewrite Nat.add_0_r.
    repeat split; auto. exists []. repeat split; reflexivity.
  - cbn [map] in Hm. injection Hm as Hx Hm.
    destruct info as [[i a] article_id]. unfold title_of in Hx. cbn [fst snd] in Hx.
    inversion Hn as [|? ? Hx0 Hn']; subst. inversion Hd as [|? ? Hx1 Hd']; subst.
    inversion Hb as [|? ? Hx2 Hb']; subst.
    assert (Hl : truthy (VStr t) && eq_str (VStr t) x = false).
    { cbn [eq_str]. replace (Str.eqb t x) with false; [apply andb_false_r|].
      symmetry. apply str_eqb_neq. intros E. apply Ht. left. auto. }
    pose proof (process_article_fresh W (VStr t) page i a article_id c st x Hx
                  (proj2 (nonempty_true x) Hx0) Hx2 Hl) as F. cbv zeta in F.
    cbn [Main.for_articles]. rewrite Hc.
    destruct (Main.process_article W (VStr t) page (i, a, article_id) c st)
      as [c1 st1]. cbn [fst snd] in F.
    destruct F as (F1 & F2 & F3 & F4 & F5 & F6).
    assert (Hb1 : Forall (fun y => Main.in_backup y st1 = false) ts).
    { rewrite Forall_forall in *. intros y Hy. apply F6; [|auto].
      intros E. subst y. contradiction. }
    assert (Ht1 : ~ In t ts) by (intros E; apply Ht; right; exact E).
    specialize (IH ts c1 st1 Hm Hn' Hd' Hb1 Ht1 (eq_trans F3 Hc)). cbv zeta in IH.
    destruct IH as (I1 & I2 & I3 & I4 & new & I5 & I6 & I7 & I8).
    split; [exact I1|]. split; [rewrite I2, F1; cbn [length]; lia|].
    split; [rewrite I3; exact F4|]. split.
    + intros y Hy Hin. apply I4; [intros E; apply Hy; right; exact E|].
      apply F6; [|exact Hin]. intros E. apply Hy. left. auto.
    + exists (new ++ [EvProcess (VStr x); EvTitle x; EvHeader page i article_id]).
      rewrite I5, F5, <- app_assoc. split; [reflexivity|].
      rewrite examined_app, processed_app, stopped_app, I6, I7, I8.
      repeat split; reflexivity.
Qed.

Lemma for_articles_until_stop (W : World) (t : pystr) (page : nat)
    (pre : list (nat * article * pystr)) (stop : nat * article * pystr)
    (post : list (nat * article * pystr)) (ts : list pystr)
    (c : Main.counters) (st : St) :
  map title_of pre = map Some ts ->
  title_of stop = Some t ->
  Forall (fun x => x <> []) (ts ++ [t]) ->
  NoDup (ts ++ [t]) ->
  Forall (fun x => Main.in_backup x st = false) (ts ++ [t]) ->
  Main.duplicate_found c = false ->
  let r := Main.for_articles W (VStr t) page (pre ++ stop :: post) c st in
  Main.duplicate_found (fst r) = true
  /\ Main.total_processed (fst r) = Main.total_processed c + length ts
  /\ history_file (snd r) = history_file st
  /\ exists new,
       stdout (snd r) = new ++ stdout st
       /\ examined new = ts ++ [t]
       /\ processed new = map VStr ts
       /\ stopped new = true.
Proof.
  intros Hm Hs Hn Hd Hb Hc. cbv zeta.
  apply Forall_app in Hn. destruct Hn as [Hn Hnt].
  apply Forall_app in Hb. destruct Hb as [Hb Hbt].
  inversion Hnt as [|? ? Hnt' _]; subst. inversion Hbt as [|? ? Hbt' _]; subst.
  assert (Hin : ~ In t ts).
  { intros E. apply NoDup_remove_2 in Hd. apply Hd. rewrite app_nil_r. exact E. }
  apply NoDup_remove_1 in Hd. rewrite app_nil_r in Hd.
  pose proof (for_articles_fresh W t page pre ts c st Hm Hn Hd Hb Hin Hc) as F.
  cbv zeta in F. rewrite for_articles_app.
  destruct (Main.for_articles W (VStr t) page pre c st) as [c1 st1].
  cbn [fst snd] in *. destruct F as (F1 & F2 & F3 & F4 & new & F5 & F6 & F7 & F8).
  destruct stop as [[i a] article_id]. unfold title_of in Hs. cbn [fst snd] in Hs.
  cbn [Main.for_articles]. rewrite F1.
  assert (Hl : truthy (VStr t) && eq_str (VStr t) t = true).
  { cbn [truthy eq_str]. rewrite str_eqb_refl, (proj2 (nonempty_true t) Hnt').
    reflexivity. }
  rewrite (process_article_stop W (VStr t) page i a article_id c1 st1 t Hs
             (proj2 (nonempty_true t) Hnt')
             (F4 t Hin Hbt') Hl).
  rewrite for_articles_stopped by reflexivity.
  cbn [fst snd Main.duplicate_found Main.total_processed Main.print
       history_file stdout].
  split; [reflexivity|]. split; [exact F2|]. split; [exact F3|].
  exists ([EvStop; EvTitle t; EvHeader page i article_id] ++ new).
  rewrite F5, <- app_assoc. split; [reflexivity|].
  rewrite examined_app, processed_app, stopped_app, F6, F7.
  split; [reflexivity|]. split; [apply app_nil_r | reflexivity].
Qed.

Lemma NoDup_app_apart (A : Type) (l1 l2 : list A) (y : A) :
  NoDup (l1 ++ l2) -> In y l2 -> ~ In y l1.
Proof.
  induction l1 as [|x l1 IH]; intros Hd Hy; [intros []|].
  cbn [app] in Hd. inversion Hd as [|? ? Hx Hd']; subst.
  intros [E|E].
  - subst. apply Hx. apply in_or_app. right. exact Hy.
  - exact (IH Hd' Hy E).
Qed.

Lemma stop_in_page_or_later (A : Type) (es rest pre post : list A) (stop : A) :
  es ++ rest = pre ++ stop :: post ->
  (exists l, es = pre ++ stop :: l)
  \/ (exists l, pre = es ++ l /\ rest = l ++ stop :: post).
Proof.
  intros H. apply app_eq_app in H. destruct H as [l [[H1 H2] | [H1 H2]]].
  - destruct l as [|s l].
    + right. exists []. rewrite app_nil_r in H1. subst es.
      rewrite app_nil_r. cbn [app] in H2. auto.
    + cbn [app] in H2. injection H2 as Hs Hp. subst s. left. exists l. exact H1.
  - right. exists l. auto.
Qed.

(** When the walk of the listing reaches an entry with the cursor title
    after entries that are new, the page loop returns there. *)
Lemma pages_loop_until_stop (W : World) (t : pystr) (remaining : nat) :
  forall (page : nat) (pre : list (nat * article * pystr))
         (stop : nat * article * pystr) (post : list (nat * article * pystr))
         (ts : list pystr) (c : Main.counters) (st : St),
    listing_walk W remaining page = pre ++ stop :: post ->
    map title_of pre = map Some ts ->
    title_of stop = Some t ->
    Forall (fun x => x <> []) (ts ++ [t]) ->
    NoDup (ts ++ [t]) ->
    Forall (fun x => Main.in_backup x st = false) (ts ++ [t]) ->
    Main.duplicate_found c = false ->
    exists c' st' new,
      Main.pages_loop W (VStr t) remaining page c st = (Ok c', st')
      /\ Main.duplicate_found c' = true
      /\ Main.total_processed c' = Main.total_processed c + length ts
      /\ history_file st' = history_file st
      /\ stdout st' = new ++ stdout st
      /\ examined new = ts ++ [t]
      /\ processed new = map VStr ts
      /\ stopped new = true.
Proof.
  induction remaining as [|remaining IH];
    intros page pre stop post ts c st Hw Hm Hs Hn Hd Hb Hc;
    cbn [listing_walk] in Hw; [destruct pre; discriminate|].
  cbn [Main.pages_loop].
  destruct (get_listing W page) as [soup|detail]; [|destruct pre; discriminate].
  destruct (articles soup) as [|a0 arts] eqn:Ea; [destruct pre; discriminate|].
  set (es := Main.reporter_articles (a0 :: arts)) in *.
  apply stop_in_page_or_later in Hw. destruct Hw as [[l He] | [l [Hp Hr]]].
  - pose proof (for_articles_until_stop W t page pre stop l ts c st
                  Hm Hs Hn Hd Hb Hc) as F. cbv zeta in F. rewrite <- He in F.
    destruct (Main.for_articles W (VStr t) page es c st) as [c1 st1].
    cbn [fst snd] in F. destruct F as (F1 & F2 & F3 & new & F4 & F5 & F6 & F7).
    rewrite F1. exists c1, st1, new. repeat split; assumption.
  - destruct (next_button soup); [|destruct l; discriminate].
    subst pre. rewrite map_app in Hm. symmetry in Hm.
    apply map_eq_app in Hm. destruct Hm as (ts1 & ts2 & Ets & Hm1 & Hm2).
    subst ts. rewrite <- app_assoc in Hn, Hd, Hb.
    apply Forall_app in Hn. destruct Hn as [Hn1 Hn2].
    apply Forall_app in Hb. destruct Hb as [Hb1 Hb2].
    assert (Ht1 : ~ In t ts1).
    { apply (NoDup_app_apart _ ts1 (ts2 ++ [t]) t Hd).
      apply in_or_app. right. left. reflexivity. }
    pose proof (for_articles_fresh W t page es ts1 c st (eq_sym Hm1) Hn1
                  (NoDup_app_remove_r _ _ Hd) Hb1 Ht1 Hc) as F. cbv zeta in F.
    destruct (Main.for_articles W (VStr t) page es c st) as [c1 st1].
    cbn [fst snd] in F. destruct F as (F1 & F2 & F3 & F4 & new1 & F5 & F6 & F7 & F8).
    rewrite F1.
    assert (Hb2' : Forall (fun x => Main.in_backup x st1 = false) (ts2 ++ [t])).
    { rewrite Forall_forall in *. intros y Hy.
      apply F4; [apply (NoDup_app_apart _ ts1 (ts2 ++ [t]) y Hd Hy)|].
      apply Hb2. exact Hy. }
    destruct (IH (S page) l stop post ts2 c1 st1 Hr (eq_sym Hm2) Hs Hn2
                 (NoDup_app_remove_l _ _ Hd) Hb2' F1)
      as (c' & st' & new2 & I1 & I2 & I3 & I4 & I5 & I6 & I7 & I8).
    exists c', st', (new2 ++ new1). split; [exact I1|]. split; [exact I2|].
    split; [rewrite I3, F2, length_app; lia|].
    split; [rewrite I4; exact F3|].
    split; [rewrite I5, F5; apply app_assoc|].
    rewrite examined_app, processed_app, stopped_app, F6, F7, I6, I7, I8.
    rewrite map_app, orb_true_l, app_assoc. repeat split; reflexivity.
Qed.

(** C2. A listing whose entries, in iteration order, have the distinct
    non-empty titles [ts], none of them in the backup file, and a cursor that
    is the title at position [k]: the run returns, it processed exactly the
    first [k - 1] entries (its count is [k - 1]), the titles it examined are
    the first [k] and no later one, the stop condition fired, and the history
    file, hence the cursor, is as it was. *)
Theorem stop_at_the_cursor (W : World) (max_pages : nat) (st : St)
    (ts : list pystr) (k : nat) (t : pystr) :
  map title_of (iteration_order W max_pages) = map Some ts ->
  Forall (fun x => x <> []) ts ->
  NoDup ts ->
  Forall (fun x => Main.in_backup x st = false) ts ->
  1 <= k ->
  nth_error ts (k - 1) = Some t ->
  cursor st = Some (VStr t) ->
  exists stats st' new,
    Main.main_process W max_pages st = (Ok stats, st')
    /\ stdout st' = new ++ stdout st
    /\ Main.n_total stats = k - 1
    /\ processed new = map VStr (firstn (k - 1) ts)
    /\ examined new = firstn k ts
    /\ stopped new = true
    /\ history_file st' = history_file st.
Proof.
  intros Hw Hn Hd Hb Hk Ht Hcur.
  apply nth_error_split in Ht. destruct Ht as (ts1 & ts2 & Ets & Hlen).
  assert (E : ts = (ts1 ++ [t]) ++ ts2) by (rewrite <- app_assoc; exact Ets).
  assert (F1 : firstn (k - 1) ts = ts1).
  { rewrite Ets, <- Hlen. rewrite <- (Nat.add_0_r (length ts1)) at 1.
    rewrite firstn_app_2. cbn [firstn]. apply app_nil_r. }
  assert (Fk : firstn k ts = ts1 ++ [t]).
  { rewrite Ets. replace k with (length ts1 + 1) by lia.
    rewrite firstn_app_2. reflexivity. }
  rewrite Ets, map_app in Hw. cbn [map] in Hw.
  apply map_eq_app in Hw. destruct Hw as (pre & rest & Hwalk & Hpre & Hrest).
  apply map_eq_cons in Hrest. destruct Hrest as (stop & post & Er & Hstop & _).
  subst rest. rewrite E in Hn, Hd, Hb.
  apply Forall_app in Hn. destruct Hn as [Hn _].
  apply Forall_app in Hb. destruct Hb as [Hb _].
  apply NoDup_app_remove_r in Hd.
  unfold cursor in Hcur.
  destruct (history_file st) as [[| | | | | | |history]|] eqn:Hh; try discriminate.
  unfold Main.main_process, Main.get_last_crawled_title, Main.load_crawler_history.
  rewrite Hh. unfold Dict.get_default. rewrite Hcur.
  destruct (pages_loop_until_stop W t max_pages 1 pre stop post ts1
              Main.initial_counters st Hwalk Hpre Hstop Hn Hd Hb eq_refl)
    as (c' & st' & new & P1 & P2 & P3 & P4 & P5 & P6 & P7 & P8).
  rewrite P1, P2, andb_false_r.
  exists (Main.mk_statistics (Main.total_processed c') (Main.success_count c')
            (Main.skip_count c') (Main.error_count c') (Main.backup_count c')),
         st', new.
  split; [destruct (Main.first_article_title c'); reflexivity|].
  split; [exact P5|]. cbn [Main.n_total].
  split; [rewrite P3; cbn [Main.initial_counters Main.total_processed]; lia|].
  rewrite F1, Fk. repeat split; try assumption. rewrite P4. exact Hh.
Qed.

Lemma stop_at_the_cursor_witness :
  let pages := [mk_listing [Fixture.entry "c" "C"; Fixture.entry "b" "B"] true;
                mk_listing [Fixture.entry "a" "A"] false] in
  let W := Fixture.world pages (Fixture.steady_es Fixture.report_fields) 1 in
  let st := Fixture.fresh_state (Fixture.history_with "A") in
  exists stats st' new,
    Main.main_process W 40 st = (Ok stats, st')
    /\ stdout st' = new ++ stdout st
    /\ Main.n_total stats = 2
    /\ processed new = [VStr (py "C"); VStr (py "B")]
    /\ examined new = [py "C"; py "B"; py "A"]
    /\ stopped new = true
    /\ history_file st' = history_file st.
Proof.
  intros pages W st.
  apply (stop_at_the_cursor W 40 st [py "C"; py "B"; py "A"] 3 (py "A")).
  - reflexivity.
  - repeat constructor; discriminate.
  - repeat constructor; cbn [In]; intros H;
      repeat (destruct H as [H|H]; try discriminate); exact H.
  - repeat constructor.
  - lia.
  - reflexivity.
  - reflexivity.
Defined.

(* ================================================================== *)
(** * Part III. Further properties of the code *)
(* ================================================================== *)

(** ** es_Upload.py: upload_single_document *)

(** One step of running [upload_steps] on whatever the store answers. *)
Ltac run_upload :=
  repeat first
    [ progress (unfold bind, ret, raise, es_request,
                  ESUploader.get_index_fields; cbn beta iota)
    | match goal with
      | |- context [es ?W ?l ?c] => destruct (es W l c) eqn:?
      | |- context [Dict.get ?d ?k] => destruct (Dict.get d k) eqn:?
      | |- context [(total ?h >? 0)%Z] => destruct (total h >? 0)%Z eqn:?
      | |- context [ids ?h] => destruct (ids h) eqn:?
      | |- context [if ?b then _ else _] => is_var b; destruct b eqn:?
      end ].

(** A returned upload: the answer is Y, and the last two calls were the
    write of the filtered document and the refresh. *)
Lemma upload_steps_returns (W : World) (document : dict) (idx : pystr)
    (strict : bool) (log log' : list es_call) (r : result) :
  ESUploader.upload_steps W document idx strict log = (Ok r, log') ->
  Result r = code_Y
  /\ existing_id r = None
  /\ exists rd id sent rest,
       ResultData r = Some rd
       /\ Message r = MsgDone (operation_type rd) (ignored_fields rd)
       /\ log' = Refresh idx :: Index idx id sent :: rest
       /\ grows (fun c => is_index c = false) log rest
       /\ (strict = false ->
           sent = ESUploader.clean_document (libc_pads_year W) document
           /\ ignored_fields rd = []).
Proof.
  unfold ESUploader.upload_steps. cbv zeta.
  destruct strict; run_upload; intros E; try discriminate E;
    injection E as <- <-;
    (split; [reflexivity|]); (split; [reflexivity|]);
    eexists _, _, _, _;
    (split; [reflexivity|]); (split; [reflexivity|]); (split; [reflexivity|]);
    (split; [repeat (first [apply grows_refl | apply grows_call; [reflexivity|]])|]);
    first [discriminate | intros _; split; reflexivity].
Qed.

(** X1. The two checks made before anything is sent: an empty document is
    answered with N and "Document cannot be empty", a document without [pid]
    with N and "Document must contain 'pid' field"; in both cases no call is
    made to the store; and these two messages are given in no other case. *)
Theorem upload_rejects_before_the_store (W : World) (document : dict)
    (idx : pystr) (strict : bool) (log : list es_call) :
  let r := ESUploader.upload_single_document W document idx strict log in
  (Message (fst r) = MsgEmptyDocument <-> document = [])
  /\ (Message (fst r) = MsgNoPid
      <-> document <> [] /\ Dict.has document (py "pid") = false)
  /\ (document = [] \/ Dict.has document (py "pid") = false ->
      Result (fst r) = code_N /\ ResultData (fst r) = None /\ snd r = log).
Proof.
  cbv zeta. unfold ESUploader.upload_single_document.
  destruct document as [|kv rest].
  - cbn. intuition congruence.
  - set (doc := kv :: rest).
    assert (Hne : doc <> []) by discriminate.
    destruct (Dict.has doc (py "pid")) eqn:Hp; cbn [negb].
    + destruct (ESUploader.upload_steps W doc idx strict log) as [[r|e] log']
        eqn:E; cbn [fst snd].
      * destruct (upload_steps_returns W doc idx strict log log' r E)
          as (_ & _ & rd & id & sent & rest' & _ & Hm & _).
        rewrite Hm. intuition congruence.
      * cbn. intuition congruence.
    + cbn. intuition congruence.
Qed.

Ltac refute_failed Hh :=
  match goal with
  | H : es ?W ?l ?c = Failed _ |- _ =>
      let a := fresh in let E := fresh in
      destruct (Hh l c eq_refl) as [a [E _]]; congruence
  | H : es ?W ?l ?c = Replied ?h, Ht : (total ?h >? 0)%Z = true,
    Hi : ids ?h = [] |- _ =>
      let a := fresh in let E := fresh in let R := fresh in
      destruct (Hh l c eq_refl) as [a [E R]];
      rewrite H in E; injection E as <-; cbn in R;
      apply Z.gtb_lt in Ht; specialize (R Ht); congruence
  end.

(** X2. The upsert, on a store that answers: the index is created when (and
    only when) the store says it does not exist; the document written is the
    cleaned one; it goes under the store id of the first hit of the [pid]
    search when that search counts a hit (operation "updated"), and without
    id otherwise (operation "created"); the index is refreshed afterwards;
    the answer is Y and carries the response of the write. *)
Theorem upload_upserts_by_pid (W : World) (document : dict) (idx : pystr)
    (log : list es_call) :
  healthy W ->
  Dict.has document (py "pid") = true ->
  let cleaned := ESUploader.clean_document (libc_pads_year W) document in
  let r := ESUploader.upload_single_document W document idx false log in
  exists (e : bool) (pid : pyval) (h : hits) (resp : indexed),
    es W log (IndicesExists idx) = Replied e
    /\ Dict.get cleaned (py "pid") = Some pid
    /\ let pre := (if e then [] else [IndicesCreate idx]) ++ IndicesExists idx :: log in
       es W pre (SearchPid idx pid) = Replied h
       /\ let found := (total h >? 0)%Z in
          let target := if found then hd_error (ids h) else None in
          let op := if found then updated else created in
          (found = true -> target <> None)
          /\ es W (SearchPid idx pid :: pre) (Index idx target cleaned) = Replied resp
          /\ snd r = Refresh idx :: Index idx target cleaned :: SearchPid idx pid :: pre
          /\ fst r = mk_result code_Y (MsgDone op [])
                       (Some (mk_result_data resp op (r_id resp) (r_index resp)
                                (r_version resp) []))
                       None.
Proof.
  intros Hh Hp cleaned r. subst r cleaned.
  unfold ESUploader.upload_single_document.
  destruct document as [|kv rest]; [discriminate|].
  set (doc := kv :: rest) in *. rewrite Hp. cbn [negb].
  assert (Hpid : exists v, Dict.get (ESUploader.clean_document (libc_pads_year W) doc)
                             (py "pid") = Some v).
  { rewrite get_clean_document, pid_not_time_field. unfold Dict.has in Hp.
    destruct (Dict.get doc (py "pid")) as [v|]; [|discriminate].
    eexists. reflexivity. }
  destruct Hpid as [v Hpid].
  unfold ESUploader.upload_steps. cbv zeta. rewrite Hpid.
  run_upload; try refute_failed Hh; cbn [fst snd];
    match goal with
    | He : es W log (IndicesExists idx) = Replied ?e |- _ =>
        match goal with
        | Hs : es W _ (SearchPid idx ?p) = Replied ?h |- _ =>
            match goal with
            | Hi : es W _ (Index _ _ _) = Replied ?resp |- _ =>
                exists e, p, h, resp
            end
        end
    end;
    cbv zeta; cbn [app];
    match goal with
    | H : (total _ >? 0)%Z = _ |- _ => rewrite H
    end;
    try match goal with
    | H : ids _ = _ |- _ => rewrite H
    end; cbn [hd_error];
    (split; [reflexivity|]); (split; [reflexivity|]);
    (split; [assumption|]);
    (split; [congruence|]); (split; [assumption|]); split; reflexivity.
Qed.

Lemma memory_es_healthy (fields : list pystr) (pages : list listing_page)
    (day : Z) :
  healthy (Fixture.world pages (Fixture.memory_es fields) day).
Proof.
  intros log c _. destruct c; cbn.
  - eexists; split; [reflexivity|]. cbn.
    destruct (filter _ _); cbn; [lia | discriminate].
  - eexists; split; [reflexivity | exact I].
  - eexists; split; [reflexivity | exact I].
  - eexists; split; [reflexivity | exact I].
  - eexists; split; [reflexivity|]. cbn.
    destruct (filter _ _); cbn; [lia | discriminate].
  - destruct id; eexists; (split; [reflexivity | exact I]).
  - eexists; split; [reflexivity | exact I].
Qed.

Lemma upload_upserts_by_pid_witness :
  let W := Fixture.world [] (Fixture.memory_es [py "pid"; py "title"]) 1 in
  let idx := Fixture.an_index in
  let log := [Index idx None [(py "pid", VStr (py "p1"))]] in
  let cleaned := ESUploader.clean_document false Fixture.extra_field_document in
  let r := ESUploader.upload_single_document W Fixture.extra_field_document
             idx false log in
  exists (e : bool) (pid : pyval) (h : hits) (resp : indexed),
    es W log (IndicesExists idx) = Replied e
    /\ Dict.get cleaned (py "pid") = Some pid
    /\ let pre := (if e then [] else [IndicesCreate idx]) ++ IndicesExists idx :: log in
       es W pre (SearchPid idx pid) = Replied h
       /\ let found := (total h >? 0)%Z in
          let target := if found then hd_error (ids h) else None in
          let op := if found then updated else created in
          (found = true -> target <> None)
          /\ es W (SearchPid idx pid :: pre) (Index idx target cleaned) = Replied resp
          /\ snd r = Refresh idx :: Index idx target cleaned :: SearchPid idx pid :: pre
          /\ fst r = mk_result code_Y (MsgDone op [])
                       (Some (mk_result_data resp op (r_id resp) (r_index resp)
                                (r_version resp) []))
                       None.
Proof.
  intros W idx log cleaned r.
  apply (upload_upserts_by_pid W Fixture.extra_field_document idx log).
  - apply memory_es_healthy.
  - reflexivity.
Defined.

(** The same upload, run: the record with [pid] p1 is already in the store
    under the id doc-0, and the write goes under that id. *)
Example upsert_scenario :
  let W := Fixture.world [] (Fixture.memory_es [py "pid"; py "title"]) 1 in
  let idx := Fixture.an_index in
  let r := ESUploader.upload_single_document W Fixture.extra_field_document
             idx false [Index idx None [(py "pid", VStr (py "p1"))]] in
  snd r = [Refresh idx;
           Index idx (Some (py "doc-0")) Fixture.extra_field_document;
           SearchPid idx (VStr (py "p1")); IndicesExists idx;
           Index idx None [(py "pid", VStr (py "p1"))]]
  /\ option_map operation_type (ResultData (fst r)) = Some updated.
Proof. vm_compute. split; reflexivity. Qed.

Lemma upload_with_failing_refresh (W : World) (document : dict)
    (idx : pystr) (log : list es_call) (detail : pystr) :
  answers W (fun c => negb (is_refresh c)) ->
  (forall l, es W l (Refresh idx) = Failed detail) ->
  Dict.has document (py "pid") = true ->
  let r := ESUploader.upload_single_document W document idx false log in
  fst r = ESUploader.failure (MsgUploadRaised (CollaboratorError detail))
  /\ indexed_documents (snd r)
     = ESUploader.clean_document (libc_pads_year W) document
       :: indexed_documents log.
Proof.
  intros Hh Hf Hp r. subst r.
  unfold ESUploader.upload_single_document.
  destruct document as [|kv rest]; [discriminate|].
  set (doc := kv :: rest) in *. rewrite Hp. cbn [negb].
  assert (Hpid : exists v, Dict.get (ESUploader.clean_document (libc_pads_year W) doc)
                             (py "pid") = Some v).
  { rewrite get_clean_document, pid_not_time_field. unfold Dict.has in Hp.
    destruct (Dict.get doc (py "pid")) as [v|]; [|discriminate].
    eexists. reflexivity. }
  destruct Hpid as [v Hpid].
  unfold ESUploader.upload_steps. cbv zeta. rewrite Hpid.
  run_upload; try refute_failed Hh;
    try match goal with
        | H : es W ?l (Refresh idx) = _ |- _ => rewrite (Hf l) in H
        end;
    try discriminate; cbn [fst snd];
    match goal with
    | H : Failed _ = Failed _ |- _ => injection H as <-
    end; split; reflexivity.
Qed.

(** X3. A refresh that fails comes after the write: the upload answers N with
    the error of the refresh, and the cleaned document is in the store all
    the same. *)
Theorem refresh_failure_follows_the_write (W : World) (document : dict)
    (idx : pystr) (log : list es_call) (detail : pystr) :
  answers W (fun c => negb (is_refresh c)) ->
  (forall l, es W l (Refresh idx) = Failed detail) ->
  Dict.has document (py "pid") = true ->
  let r := ESUploader.upload_single_document W document idx false log in
  fst r = ESUploader.failure (MsgUploadRaised (CollaboratorError detail))
  /\ indexed_documents (snd r)
     = ESUploader.clean_document (libc_pads_year W) document
       :: indexed_documents log.
Proof. exact (upload_with_failing_refresh W document idx log detail). Qed.

Lemma no_refresh_es_answers (pages : list listing_page) (day : Z) :
  answers (Fixture.world pages Scene.no_refresh_es day)
          (fun c => negb (is_refresh c)).
Proof.
  intros log c Hc. destruct c; try discriminate; cbn; eexists;
    (split; [reflexivity|]); cbn; try exact I; intros H; inversion H.
Qed.

Lemma refresh_failure_follows_the_write_witness :
  let W := Fixture.world [] Scene.no_refresh_es 1 in
  let r := ESUploader.upload_single_document W Fixture.extra_field_document
             Fixture.an_index false [] in
  fst r = ESUploader.failure
            (MsgUploadRaised (CollaboratorError (py "refresh failed")))
  /\ indexed_documents (snd r)
     = [ESUploader.clean_document false Fixture.extra_field_document].
Proof.
  intros W r.
  apply (refresh_failure_follows_the_write W Fixture.extra_field_document
           Fixture.an_index [] (py "refresh failed")).
  - apply no_refresh_es_answers.
  - reflexivity.
  - reflexivity.
Defined.



Lemma existsb_false_In (A : Type) (p : A -> bool) (l : list A) (x : A) :
  existsb p l = false -> In x l -> p x = false.
Proof.
  intros H Hin. destruct (p x) eqn:E; [|reflexivity].
  rewrite <- H. symmetry. apply existsb_exists. exists x. auto.
Qed.

(** X5. What the cleaning loop does reach: in the cleaned document no field
    is None, no field is a tuple (a tuple becomes a list), no element of a
    list field is None and no value of a mapping field is None. *)
Theorem sanitize_reaches_one_level (pads : bool) (document : dict)
    (k : pystr) (v : pyval) :
  In (k, v) (ESUploader.clean_document pads document) ->
  v <> VNone
  /\ (forall l, v <> VTuple l)
  /\ (forall l, v = VList l -> ~ In VNone l)
  /\ (forall d k', v = VDict d -> ~ In (k', VNone) d).
Proof.
  unfold ESUploader.clean_document. rewrite in_flat_map.
  intros [[k0 v0] [_ Hin]]. cbn [fst snd] in Hin.
  destruct (ESUploader.mem k0 ESUploader.time_fields_to_exclude); [contradiction|].
  destruct Hin as [[= <- <-]|[]].
  pose proof (clean_value_shallow pads k0 v0) as Hs.
  split; [|split; [|split]].
  - intros E. rewrite E in Hs. discriminate.
  - intros l E. destruct v0; try discriminate E.
    unfold ESUploader.clean_value in E. destruct (ESUploader.mem k0 _); [|discriminate].
    destruct (ESUploader._format_date pads s) as [f|]; [|discriminate].
    destruct (Str.nonempty f); discriminate.
  - intros l E Hin. rewrite E in Hs. cbn [shallow_null] in Hs.
    pose proof (existsb_false_In _ _ _ _ Hs Hin) as H. discriminate.
  - intros d k' E Hin. rewrite E in Hs. cbn [shallow_null] in Hs.
    pose proof (existsb_false_In _ _ _ _ Hs Hin) as H. discriminate.
Qed.

Lemma sanitize_reaches_one_level_witness :
  ESUploader.clean_document false Scene.holed_document
  = [(py "pid", VStr (py "p1")); (py "note", VStr []);
     (py "tags", VList [VStr []; VStr (py "demo")]);
     (py "author", VDict [(py "name", VStr []); (py "email", VStr (py "a@b"))])]
  /\ (forall l, VList [VStr []; VStr (py "demo")] = VList l -> ~ In VNone l).
Proof.
  split; [reflexivity|].
  apply (sanitize_reaches_one_level false Scene.holed_document (py "tags")
           (VList [VStr []; VStr (py "demo")])).
  right. right. left. reflexivity.
Defined.

(** ** main.py: the crawler history *)

(** X6. The cursor, written and read back. When the history file is absent,
    unreadable or holds an object, [update_last_crawled_title] succeeds;
    [get_last_crawled_title] then returns the title; the time of the update
    is recorded, every other key of the history keeps its value, and nothing
    but the history file and the clock is touched. When the history file
    holds some other JSON value, the update raises with the file as it was,
    and so does the reading. A missing history file reads as no cursor. *)
Theorem cursor_round_trip (W : World) (title : pystr) (st : St) :
  let r := Main.update_last_crawled_title W title st in
  match Main.load_crawler_history st with
  | VDict history =>
      fst r = Ok tt
      /\ Main.get_last_crawled_title (snd r) = (Ok (VStr title), snd r)
      /\ (exists history',
            history_file (snd r) = Some (VDict history')
            /\ Dict.get history' (py "last_crawled_time")
               = Some (VStr (DT.isoformat (now W (clock_reads (ext st)))))
            /\ forall k, k <> py "last_crawled_title" ->
                         k <> py "last_crawled_time" ->
                         Dict.get history' k = Dict.get history k)
      /\ backup_file (snd r) = backup_file st
      /\ stdout (snd r) = stdout st
      /\ es_log (ext (snd r)) = es_log (ext st)
      /\ (history_file st = None -> Main.get_last_crawled_title st = (Ok VNone, st))
  | _ =>
      r = (Raise TypeError, st)
      /\ Main.get_last_crawled_title st = (Raise AttributeError, st)
  end.
Proof.
  cbv zeta. unfold Main.update_last_crawled_title, Main.get_last_crawled_title.
  destruct (Main.load_crawler_history st) as [| | | | | | |history] eqn:L;
    try (split; reflexivity).
  cbn [fst snd]. split; [reflexivity|]. split.
  { unfold Main.load_crawler_history, Main.save_crawler_history.
    cbn [history_file]. unfold Dict.get_default.
    rewrite get_set_other by discriminate. rewrite get_set_same. reflexivity. }
  split.
  { eexists. split; [reflexivity|]. split; [apply get_set_same|].
    intros k H1 H2. rewrite !get_set_other by congruence. reflexivity. }
  split; [reflexivity|]. split; [reflexivity|]. split; [reflexivity|].
  intros Hnone. unfold Main.load_crawler_history in *. rewrite Hnone in *.
  injection L as <-. reflexivity.
Qed.

Example cursor_round_trip_scenario :
  let W := Fixture.world [] (Fixture.steady_es []) 5 in
  let st := Fixture.fresh_state (Fixture.history_with "old") in
  let r := Main.update_last_crawled_title W (py "new") st in
  history_file (snd r)
  = Some (VDict [(py "last_crawled_title", VStr (py "new"));
                 (py "last_crawled_time", VStr (py "2024-01-05T12:00:00"))])
  /\ Main.update_last_crawled_title W (py "new")
       (Fixture.fresh_state (Some (VList [])))
     = (Raise TypeError, Fixture.fresh_state (Some (VList []))).
Proof. vm_compute. split; reflexivity. Qed.

(** ** main.py: save_to_es *)

Lemma attempt_body_unfold (W : World) (n : nat) (last : bool) (s : Main.SaveSt) :
  Main.attempt_body W n last s
  = match ESUploader.__init__ W with
    | Raise e => (Raise e, s)
    | Ok _ =>
        match Main.preamble W s with
        | (Raise e, s1) => (Raise e, s1)
        | (Ok false, s1) => (Ok (Some (mk_result code_N MsgEmptyTitle None None)), s1)
        | (Ok true, s1) =>
            match Main.title_check W last s1 with
            | (Raise e, s2) => (Raise e, s2)
            | (Ok (Main.TitleFound existing_id), s2) =>
                (Ok (Some (mk_result code_SKIP MsgTitleExists None (Some existing_id))), s2)
            | (Ok Main.NextAttempt, s2) => (Ok None, s2)
            | (Ok Main.GoOn, s2) => Main.upload_stage W n last s2
            end
        end
    end.
Proof.
  unfold Main.attempt_body, Main.new_uploader, Main.attempt_steps, bind.
  destruct (ESUploader.__init__ W) as [[]|e]; [|reflexivity].
  destruct (Main.preamble W s) as [[[|]|e] s1]; cbn [negb]; try reflexivity.
  destruct (Main.title_check W last s1) as [[[id| |]|e] s2]; reflexivity.
Qed.

(** The title search of an attempt: it never raises, leaves the record and
    the clock alone, and makes at most one call, a title search. *)
Lemma title_check_outcome (W : World) (last : bool) (s : Main.SaveSt) :
  exists o s' new,
    Main.title_check W last s = (Ok o, s')
    /\ Main.sv_data s' = Main.sv_data s
    /\ clock_reads (Main.sv_ext s') = clock_reads (Main.sv_ext s)
    /\ es_log (Main.sv_ext s') = new ++ es_log (Main.sv_ext s)
    /\ (new = [] \/ exists t, new = [SearchTitle Main.index_name t])
    /\ match o with
       | Main.TitleFound id =>
           exists t h,
             Dict.get (Main.sv_data s) Main.k_title = Some (VStr t)
             /\ new = [SearchTitle Main.index_name t]
             /\ es W (es_log (Main.sv_ext s)) (SearchTitle Main.index_name t)
                = Replied h
             /\ (0 < total h)%Z
             /\ hd_error (ids h) = Some id
       | Main.NextAttempt => last = false
       | Main.GoOn => True
       end.
Proof.
  unfold Main.title_check, bind, Main.get_data, try_except, Main.on_store,
    es_request, ret, raise. cbn beta iota.
  unfold Dict.get_default.
  destruct (Dict.get (Main.sv_data s) Main.k_title) as [v|] eqn:Ev;
    [|cbn; exists Main.GoOn, s, []; repeat split; auto].
  destruct (truthy v) eqn:Etr;
    [|exists Main.GoOn, s, []; repeat split; auto].
  destruct v as [| | | |t| | |];
    try (destruct last; eexists _, _, []; cbn;
         repeat split; auto; fail).
  destruct (es W (es_log (Main.sv_ext s)) (SearchTitle Main.index_name t))
    as [h|d] eqn:Es; cbn beta iota.
  - destruct (total h >? 0)%Z eqn:Et.
    + destruct (ids h) as [|id rest] eqn:Ei; cbn beta iota.
      * destruct last; eexists _, _, [SearchTitle Main.index_name t]; cbn;
          repeat split; eauto.
      * eexists _, _, [SearchTitle Main.index_name t]; cbn.
        repeat split; eauto. exists t, h. rewrite Ei.
        repeat split; auto. apply Z.gtb_lt. exact Et.
    + eexists _, _, [SearchTitle Main.index_name t]; cbn. repeat split; eauto.
  - destruct last; eexists _, _, [SearchTitle Main.index_name t]; cbn;
      repeat split; eauto.
Qed.

(** The calls of one upload: at most one write of a document, and no title
    search. *)
Lemma upload_calls (W : World) (document : dict) (idx : pystr) (strict : bool)
    (log : list es_call) :
  exists new,
    snd (ESUploader.upload_single_document W document idx strict log) = new ++ log
    /\ (length (filter is_index new) <= 1)%nat
    /\ filter is_title_search new = [].
Proof.
  unfold ESUploader.upload_single_document.
  destruct document as [|kv rest]; [exists []; cbn; auto|].
  set (doc := kv :: rest).
  destruct (negb (Dict.has doc (py "pid"))); [exists []; cbn; auto|].
  unfold ESUploader.upload_steps. cbv zeta.
  destruct strict; run_upload; cbn [fst snd];
    match goal with
    | |- exists new, ?l = new ++ log /\ _ =>
        let rec strip l acc :=
          match l with
          | log => exists (rev acc)
          | ?c :: ?l' => strip l' (c :: acc)
          end in
        strip l (@nil es_call)
    end; cbn; auto.
Qed.

(** What an upload answers. *)
Lemma upload_outcome (W : World) (document : dict) (idx : pystr)
    (log : list es_call) :
  let r := ESUploader.upload_single_document W document idx false log in
  match Result (fst r) with
  | code_Y =>
      existing_id (fst r) = None
      /\ (exists rd, ResultData (fst r) = Some rd
                     /\ Message (fst r) = MsgDone (operation_type rd) [])
      /\ exists id rest,
           snd r = Refresh idx
                   :: Index idx id
                        (ESUploader.clean_document (libc_pads_year W) document)
                   :: rest
  | code_N => True
  | code_SKIP => False
  end.
Proof.
  cbv zeta. unfold ESUploader.upload_single_document.
  destruct document as [|kv rest]; [exact I|].
  set (doc := kv :: rest).
  destruct (negb (Dict.has doc (py "pid"))); [exact I|].
  destruct (ESUploader.upload_steps W doc idx false log) as [[r|e] log'] eqn:E;
    [|exact I].
  destruct (upload_steps_returns W doc idx false log log' r E)
    as (HY & Hex & rd & id & sent & rest' & Hrd & Hm & Hlog & _ & Hns).
  destruct (Hns eq_refl) as [-> Hig]. cbn [fst snd]. rewrite HY.
  split; [exact Hex|]. split.
  - exists rd. split; [exact Hrd|]. rewrite Hm, Hig. reflexivity.
  - exists id, rest'. exact Hlog.
Qed.

Lemma filter_app_length (A : Type) (p : A -> bool) (l1 l2 : list A) :
  length (filter p (l1 ++ l2)) = (length (filter p l1) + length (filter p l2))%nat.
Proof. rewrite filter_app, length_app. reflexivity. Qed.

(** One attempt: what it answers and the calls it makes. *)
Lemma attempt_body_outcome (W : World) (n : nat) (last : bool) (s : Main.SaveSt) :
  let r := Main.attempt_body W n last s in
  (exists new,
      es_log (Main.sv_ext (snd r)) = new ++ es_log (Main.sv_ext s)
      /\ (length (filter is_index new) <= 1)%nat
      /\ (length (filter is_title_search new) <= 1)%nat)
  /\ match fst r with
     | Ok (Some res) => certified W n res (snd r)
     | Ok None => last = false
     | Raise _ => True
     end.
Proof.
  cbv zeta. rewrite attempt_body_unfold.
  destruct (ESUploader.__init__ W) as [[]|e0];
    [|split; [exists []; cbn; auto | exact I]].
  pose proof (preamble_same_log W s) as Hlog. unfold same_log in Hlog.
  destruct (Main.preamble W s) as [[[|]|e] s1]; cbn [fst snd] in *.
  2:{ split; [exists []; rewrite Hlog; cbn; auto|].
      unfold certified. cbn. auto. }
  2:{ split; [exists []; rewrite Hlog; cbn; auto | exact I]. }
  destruct (title_check_outcome W last s1)
    as (o & s2 & new1 & Et & Hd & Hc & Hl & Hnew & Ho).
  rewrite Et.
  assert (Hcount1 : length (filter is_index new1) = 0%nat
                    /\ (length (filter is_title_search new1) <= 1)%nat).
  { destruct Hnew as [->|[t ->]]; cbn; auto. }
  destruct o as [id| |].
  - cbn [fst snd]. split.
    + exists new1. rewrite Hl, Hlog. split; [reflexivity|]. lia.
    + destruct Ho as (t & h & Ht & -> & Es & Hpos & Hid).
      unfold certified. cbn [Result Message ResultData existing_id].
      split; [reflexivity|]. split; [reflexivity|].
      exists id, t, h, (es_log (Main.sv_ext s1)).
      rewrite Hd, Hl. repeat split; auto.
  - rewrite upload_stage_spec. cbv zeta. cbn [fst snd Main.sv_ext es_log Main.sv_data].
    destruct (upload_calls W (Main.cleaned_data_of (Main.sv_data s2))
                Main.index_name false (es_log (Main.sv_ext s2)))
      as (new2 & Hl2 & Hi2 & Ht2).
    pose proof (upload_outcome W (Main.cleaned_data_of (Main.sv_data s2))
                  Main.index_name (es_log (Main.sv_ext s2))) as Hup.
    cbv zeta in Hup. split.
    + exists (new2 ++ new1). rewrite Hl2, Hl, Hlog, app_assoc.
      split; [reflexivity|]. rewrite !filter_app_length, Ht2. cbn [length]. lia.
    + destruct (Result (fst (ESUploader.upload_single_document W _ _ _ _))) eqn:ER.
      * unfold certified. rewrite ER. exact Hup.
      * destruct last; [|reflexivity]. unfold certified. cbn. eauto 6.
      * contradiction.
  - cbn [fst snd]. split; [|exact Ho].
    exists new1. rewrite Hl, Hlog. split; [reflexivity|]. lia.
Qed.

(** The attempts of a call: with [r] attempts to go, at most [r] writes and
    at most [r] title searches are made; the answer after the last attempt
    is certified, and without attempts it is the fall-through answer. *)
Lemma attempts_outcome (W : World) (n r : nat) (s : Main.SaveSt) :
  let a := Main.attempts W n r s in
  (exists new,
      es_log (Main.sv_ext (snd a)) = new ++ es_log (Main.sv_ext s)
      /\ (length (filter is_index new) <= r)%nat
      /\ (length (filter is_title_search new) <= r)%nat)
  /\ match r with
     | O => a = (mk_result code_N MsgUnexpected None None, s)
     | S _ => certified W n (fst a) (snd a)
     end.
Proof.
  revert s. induction r as [|r IH]; intros s.
  - cbn. split; [exists []; cbn; auto | reflexivity].
  - cbv zeta. rewrite attempts_S.
    destruct (attempt_body_outcome W n (r =? 0)%nat s) as [(new & Hl & Hi & Ht) Ho].
    destruct (Main.attempt_body W n (r =? 0)%nat s) as [[[res|]|e] s1];
      cbn [fst snd] in *.
    + split; [|exact Ho]. exists new. split; [exact Hl|]. lia.
    + destruct r as [|r']; [discriminate|].
      destruct (IH s1) as [(new' & Hl' & Hi' & Ht') Ho'].
      split; [|exact Ho'].
      exists (new' ++ new). rewrite Hl', Hl, app_assoc. split; [reflexivity|].
      rewrite !filter_app_length. lia.
    + destruct r as [|r']; cbn [Nat.eqb].
      * split; [exists new; split; [exact Hl|]; lia|].
        unfold certified. cbn. eauto 6.
      * destruct (IH s1) as [(new' & Hl' & Hi' & Ht') Ho'].
        split; [|exact Ho'].
        exists (new' ++ new). rewrite Hl', Hl, app_assoc. split; [reflexivity|].
        rewrite !filter_app_length. lia.
Qed.

(** X7. A record whose title is missing, empty or blank: once the uploader
    is built it is answered at the first attempt with N and the message that
    the title must not be empty; when the uploader cannot be built, every
    attempt raises before the title is looked at, and the answer is N with
    "ES operation failed after {max_retries} attempts" and the error of the
    constructor. Either way the store is not called, the clock is not read
    and the record is not changed. *)
Theorem save_to_es_rejects_a_blank_title (W : World) (data : dict)
    (max_retries : nat) (x : Ext) (t : pystr) :
  (1 <= max_retries)%nat ->
  Dict.get_default data Main.k_title (VStr []) = VStr t ->
  Str.strip t = [] ->
  (built W ->
   Main.save_to_es W data max_retries x
   = (mk_result code_N MsgEmptyTitle None None, data, x))
  /\ (forall e, ESUploader.__init__ W = Raise e ->
                Main.save_to_es W data max_retries x
                = (mk_result code_N (MsgOperationFailed max_retries e) None None,
                   data, x)).
Proof.
  intros Hn Ht Hb. split.
  - intros Hbuilt. exact (save_to_es_blank_title W data max_retries x t Hbuilt Hn Ht Hb).
  - intros e He. exact (save_to_es_unbuilt W data max_retries x e He Hn).
Qed.

Lemma save_to_es_rejects_a_blank_title_witness :
  let data := [(py "title", VStr (py "  ")); (py "date", VStr (py "2024-01-05"))] in
  let W := Fixture.world [] (Fixture.steady_es []) 1 in
  Main.save_to_es W data 3 Fixture.fresh_ext
  = (mk_result code_N MsgEmptyTitle None None, data, Fixture.fresh_ext)
  /\ Main.save_to_es (Scene.no_credentials W) data 3 Fixture.fresh_ext
     = (mk_result code_N
          (MsgOperationFailed 3
             (CollaboratorError (py "'basic_auth' must be a 2-tuple of str/bytes")))
          None None, data, Fixture.fresh_ext).
Proof.
  intros data W. split.
  - apply (save_to_es_rejects_a_blank_title W data 3 Fixture.fresh_ext (py "  "));
      [lia | reflexivity | reflexivity | reflexivity].
  - apply (save_to_es_rejects_a_blank_title (Scene.no_credentials W) data 3
             Fixture.fresh_ext (py "  "));
      [lia | reflexivity | reflexivity | reflexivity].
Defined.

(** X8. With the uploader built, a title that is not a string (a null, a
    number) makes every attempt raise at [.strip()]: the call goes through
    all its attempts and answers N with "ES operation failed after
    {max_retries} attempts" and that error, without a call to the store and
    without a change to the record. *)
Theorem save_to_es_retries_a_title_that_is_no_string (W : World) (data : dict)
    (max_retries : nat) (x : Ext) (v : pyval) :
  built W ->
  (1 <= max_retries)%nat ->
  Dict.get data Main.k_title = Some v ->
  (forall t, v <> VStr t) ->
  Main.save_to_es W data max_retries x
  = (mk_result code_N (MsgOperationFailed max_retries AttributeError) None None,
     data, x).
Proof.
  intros Hbuilt Hn Hv Hns.
  assert (Hbody : forall last,
             Main.attempt_body W max_retries last (Main.mk_save data x)
             = (Raise AttributeError, Main.mk_save data x)).
  { intros last. rewrite attempt_body_unfold, Hbuilt.
    unfold Main.preamble, bind, Main.get_data, Main.strip_of, raise.
    cbn beta iota. cbn [Main.sv_data]. unfold Dict.get_default. rewrite Hv.
    destruct v; try reflexivity. exfalso. exact (Hns s eq_refl). }
  unfold Main.save_to_es.
  assert (Hall : forall r,
             Main.attempts W max_retries (S r) (Main.mk_save data x)
             = (mk_result code_N (MsgOperationFailed max_retries AttributeError)
                          None None, Main.mk_save data x)).
  { induction r as [|r IH]; rewrite attempts_S, Hbody; [reflexivity|].
    cbn [Nat.eqb]. exact IH. }
  destruct max_retries as [|r]; [lia|]. rewrite Hall. reflexivity.
Qed.

Lemma save_to_es_retries_a_title_that_is_no_string_witness :
  Main.save_to_es (Fixture.world [] (Fixture.steady_es []) 1)
    [(py "title", VNone)] 3 Fixture.fresh_ext
  = (mk_result code_N (MsgOperationFailed 3 AttributeError) None None,
     [(py "title", VNone)], Fixture.fresh_ext).
Proof.
  apply (save_to_es_retries_a_title_that_is_no_string _ _ 3 _ VNone).
  - reflexivity.
  - lia.
  - reflexivity.
  - discriminate.
Defined.

(** X9. The answer after the loop, "Unexpected error in save_to_es", is
    given exactly when [max_retries] is 0: with one attempt or more, every
    path through the loop returns from inside it. With no attempt nothing
    is done. *)
Theorem unexpected_error_only_without_attempts (W : World) (data : dict)
    (max_retries : nat) (x : Ext) :
  (Message (fst (fst (Main.save_to_es W data max_retries x))) = MsgUnexpected
   <-> max_retries = 0%nat)
  /\ Main.save_to_es W data 0 x
     = (mk_result code_N MsgUnexpected None None, data, x).
Proof.
  split; [|reflexivity].
  unfold Main.save_to_es.
  destruct (attempts_outcome W max_retries max_retries (Main.mk_save data x))
    as [_ Ho].
  destruct (Main.attempts W max_retries max_retries (Main.mk_save data x))
    as [res s']. cbn [fst snd] in *.
  destruct max_retries as [|r].
  - injection Ho as -> _. split; reflexivity.
  - split; [|discriminate]. intros Hm. exfalso.
    unfold certified in Ho. rewrite Hm in Ho.
    destruct (Result res).
    + destruct Ho as (_ & (rd & _ & H) & _). discriminate.
    + destruct Ho as (_ & _ & [H|[[m H]|[e H]]]); discriminate.
    + destruct Ho as (H & _). discriminate.
Qed.

(** X10. What each answer of [save_to_es] certifies. Y: the last two calls to
    the store were the write of the record (as cleaned by [save_to_es] and by
    the uploader) and the refresh, and the answer carries the data of the
    write. SKIP: the last call was the title search for the title of the
    record, it counted a hit, and the answer carries the store id of its
    first hit. N: neither data nor id, and the message is one of the three
    of the function. *)
Theorem save_to_es_answer_is_certified (W : World) (data : dict)
    (max_retries : nat) (x : Ext) :
  (1 <= max_retries)%nat ->
  let r := Main.save_to_es W data max_retries x in
  certified W max_retries (fst (fst r)) (Main.mk_save (snd (fst r)) (snd r)).
Proof.
  intros Hn r. subst r. unfold Main.save_to_es.
  destruct (attempts_outcome W max_retries max_retries (Main.mk_save data x))
    as [_ Ho].
  destruct (Main.attempts W max_retries max_retries (Main.mk_save data x))
    as [res [data' x']]. cbn [fst snd Main.sv_data Main.sv_ext] in *.
  destruct max_retries as [|n]; [lia | exact Ho].
Qed.

Lemma save_to_es_answer_is_certified_witness :
  let W := Fixture.world [] (Fixture.memory_es []) 1 in
  let r := Main.save_to_es W Fixture.a_record 3 Fixture.fresh_ext in
  Result (fst (fst r)) = code_Y
  /\ certified W 3 (fst (fst r)) (Main.mk_save (snd (fst r)) (snd r)).
Proof.
  intros W r. split; [reflexivity|].
  apply (save_to_es_answer_is_certified W Fixture.a_record 3 Fixture.fresh_ext).
  lia.
Defined.

(** X11. The retry bound: a call of [save_to_es] makes at most [max_retries]
    title searches and writes at most [max_retries] documents, whatever the
    store answers. *)
Theorem save_to_es_respects_the_retry_bound (W : World) (data : dict)
    (max_retries : nat) (x : Ext) :
  exists new,
    es_log (snd (Main.save_to_es W data max_retries x)) = new ++ es_log x
    /\ (length (filter is_index new) <= max_retries)%nat
    /\ (length (filter is_title_search new) <= max_retries)%nat.
Proof.
  unfold Main.save_to_es.
  destruct (attempts_outcome W max_retries max_retries (Main.mk_save data x))
    as [H _].
  destruct (Main.attempts W max_retries max_retries (Main.mk_save data x))
    as [res s']. exact H.
Qed.

(** *** What a call changes in the record *)

Lemma pid_stays_refl (s : Main.SaveSt) : pid_stays s s.
Proof. intros _; reflexivity. Qed.

Lemma pid_stays_trans (s1 s2 s3 : Main.SaveSt) :
  pid_stays s1 s2 -> pid_stays s2 s3 -> pid_stays s1 s3.
Proof.
  intros H1 H2 Hok. specialize (H1 Hok). rewrite <- H1. apply H2.
  destruct Hok as (v & Hv & Ht). exists v. split; [congruence | exact Ht].
Qed.

Lemma frame_keeps_pid_stays (ks : list pystr) (A : Type) (m : M Main.SaveSt A) :
  ~ In Main.k_pid ks -> keeps (frame ks) m -> keeps pid_stays m.
Proof. intros Hk H s _. apply (H s), Hk. Qed.

Lemma fill_pid_pid_stays (W : World) : keeps pid_stays (Main.fill_pid W).
Proof.
  intros s Hok. unfold Main.fill_pid, bind, Main.get_data. cbn beta iota.
  rewrite (proj2 (pid_test (Main.sv_data s)) Hok). reflexivity.
Qed.

Ltac pid_stays_leaf :=
  first [ apply fill_pid_pid_stays
        | apply (frame_keeps_pid_stays []); [simpl; tauto | frame_leaf]
        | apply (frame_keeps_pid_stays [Main.k_date]);
          [ intros [E|[]]; discriminate E
          | apply frame_set_data; left; reflexivity ] ].

Lemma attempt_body_pid_stays (W : World) (n : nat) (last : bool) :
  keeps pid_stays (Main.attempt_body W n last).
Proof.
  unfold Main.attempt_body.
  apply (@keeps_bind _ _ pid_stays_trans);
    [apply keeps_new_uploader, pid_stays_refl|].
  intros _.
  unfold Main.attempt_steps, Main.preamble, Main.fill_date, Main.title_check,
    Main.upload_stage.
  cbv zeta.
  keeps_steps pid_stays_refl pid_stays_trans ltac:(idtac; pid_stays_leaf).
Qed.

Lemma attempts_pid_stays (W : World) (n r : nat) (s : Main.SaveSt) :
  pid_stays s (snd (Main.attempts W n r s)).
Proof.
  revert s. induction r as [|r IH]; intros s.
  - apply pid_stays_refl.
  - rewrite attempts_S.
    pose proof (attempt_body_pid_stays W n (r =? 0)%nat s) as H.
    destruct (Main.attempt_body W n (r =? 0)%nat s) as [[[res|]|e] s']; simpl in *.
    + exact H.
    + eapply pid_stays_trans; [exact H | apply IH].
    + destruct (r =? 0)%nat; simpl.
      * exact H.
      * eapply pid_stays_trans; [exact H | apply IH].
Qed.

(** X12. What [save_to_es] does to the record it is given: no field other
    than [date] and [pid] is changed, added or removed; a date that is a
    string and not blank is kept; an identifier that counts as present is
    kept. *)
Theorem save_to_es_touches_date_and_pid_only (W : World) (data : dict)
    (max_retries : nat) (x : Ext) :
  let data' := snd (fst (Main.save_to_es W data max_retries x)) in
  (forall k, k <> Main.k_date -> k <> Main.k_pid ->
             Dict.get data' k = Dict.get data k)
  /\ (date_ok data -> Dict.get data' Main.k_date = Dict.get data Main.k_date)
  /\ (pid_ok data -> Dict.get data' Main.k_pid = Dict.get data Main.k_pid).
Proof.
  cbv zeta. split; [|split].
  - intros k Hd Hp. apply save_to_es_frame; assumption.
  - unfold Main.save_to_es.
    pose proof (attempts_date_stays W max_retries max_retries (Main.mk_save data x))
      as H.
    destruct (Main.attempts W max_retries max_retries (Main.mk_save data x))
      as [r s]. exact H.
  - unfold Main.save_to_es.
    pose proof (attempts_pid_stays W max_retries max_retries (Main.mk_save data x))
      as H.
    destruct (Main.attempts W max_retries max_retries (Main.mk_save data x))
      as [r s]. exact H.
Qed.

(** ** main.py: the backup file and the entry loop *)

Lemma backup_to_jsonl_ends_cleanly (W : World) (report : dict) (st : St) :
  backup_writable W (backup_appends st) = true ->
  ends_cleanly (snd (Main.backup_to_jsonl W report st)).
Proof.
  intros Hw. unfold Main.backup_to_jsonl. rewrite Hw. exact I.
Qed.

(** After an append to a file that ended cleanly, the scan finds what it
    found before and the title of the record. *)
Lemma in_backup_clean_append (W : World) (report : dict) (st : St) (y : pystr) :
  backup_writable W (backup_appends st) = true ->
  ends_cleanly st ->
  Main.in_backup y (snd (Main.backup_to_jsonl W report st))
  = Main.in_backup y st
    || match Dict.get report Main.k_title with
       | Some v => eq_str v y
       | None => false
       end.
Proof.
  intros Hw Hc. rewrite (in_backup_append W report st y Hw), in_backup_lines.
  cbv zeta. unfold ends_cleanly in Hc.
  destruct (backup_file st) as [file|]; cbn [last_open full_lines];
    [|reflexivity].
  destruct (last_open file) as [[|alone]|]; try contradiction;
    rewrite orb_false_r; reflexivity.
Qed.

(** X13. The backup file, appended to and scanned. An append that fails
    leaves the file as it was; one that succeeds leaves a file that ends with
    a line break. When the file was absent, or ended with a line break or
    with blanks after the last one, the scan then finds the title of the
    record and every title it found before. When the file ended with other
    text, the record makes one line with that text and the line does not
    decode: the scan then finds the titles of the lines before it and no
    other, so neither the title of the record nor that of the unfinished
    line, unless an earlier line has it. In no case does the scan find a
    title other than that of the record that it did not find before. *)
Theorem backup_then_scan (W : World) (report : dict) (st : St) (t : pystr) :
  Dict.get report Main.k_title = Some (VStr t) ->
  let r := Main.backup_to_jsonl W report st in
  fst r = backup_writable W (backup_appends st)
  /\ (fst r = false -> backup_file (snd r) = backup_file st)
  /\ (fst r = true ->
      ends_cleanly (snd r)
      /\ (ends_cleanly st ->
          Main.in_backup t (snd r) = true
          /\ forall y, Main.in_backup y st = true ->
                       Main.in_backup y (snd r) = true)
      /\ (forall file alone,
            backup_file st = Some file ->
            last_open file = Some (OpenText alone) ->
            forall y, Main.in_backup y (snd r)
                      = existsb (Main.line_has_title y) (full_lines file)))
  /\ (forall y, y <> t -> Main.in_backup y st = false ->
                 Main.in_backup y (snd r) = false).
Proof.
  intros Ht r.
  assert (Hfst : fst r = backup_writable W (backup_appends st)).
  { subst r. unfold Main.backup_to_jsonl.
    destruct (backup_writable W (backup_appends st)); reflexivity. }
  split; [exact Hfst|]. split; [|split].
  - intros Hf. rewrite Hfst in Hf. subst r. unfold Main.backup_to_jsonl.
    rewrite Hf. reflexivity.
  - intros Hf. rewrite Hfst in Hf. subst r.
    split; [apply backup_to_jsonl_ends_cleanly; exact Hf|]. split.
    + intros Hc. split.
      * rewrite (in_backup_clean_append W report st t Hf Hc), Ht.
        cbn [eq_str]. rewrite str_eqb_refl. apply orb_true_r.
      * intros y Hy. rewrite (in_backup_clean_append W report st y Hf Hc), Hy.
        reflexivity.
    + intros file alone Hfile Hopen y.
      rewrite (in_backup_append W report st y Hf). cbv zeta.
      rewrite Hfile, Hopen. apply orb_false_r.
  - intros y Hy Hb. subst r. apply (backup_to_jsonl_others W report st t y Ht Hy Hb).
Qed.

(** A file that ends with a line break, and one whose only line is not
    ended: there the record [X] and the unfinished record [A] are both lost
    to the scan. *)
Lemma backup_then_scan_witness :
  let W := Fixture.world [] (Fixture.steady_es []) 1 in
  let st := Fixture.state_with None (Fixture.ledger_of ["A"%string]) in
  let r := Main.backup_to_jsonl W Fixture.a_record st in
  let st2 := Fixture.state_with None Scene.unfinished_ledger in
  let r2 := Main.backup_to_jsonl W Fixture.a_record st2 in
  (fst r = true
   /\ Main.in_backup (py "X") st = false
   /\ Main.in_backup (py "X") (snd r) = true
   /\ Main.in_backup (py "A") (snd r) = true)
  /\ (fst r2 = true
      /\ Main.in_backup (py "A") st2 = true
      /\ Main.in_backup (py "A") (snd r2) = false
      /\ Main.in_backup (py "X") (snd r2) = false).
Proof.
  intros W st r st2 r2. split.
  - destruct (backup_then_scan W Fixture.a_record st (py "X") eq_refl)
      as (H1 & _ & H3 & _).
    fold r in H1, H3. destruct (H3 H1) as (_ & Hclean & _).
    destruct (Hclean I) as [Hx Hkept].
    split; [exact H1|]. split; [reflexivity|]. split; [exact Hx|].
    apply Hkept. reflexivity.
  - destruct (backup_then_scan W Fixture.a_record st2 (py "X") eq_refl)
      as (H1 & _ & H3 & _).
    fold r2 in H1, H3. destruct (H3 H1) as (_ & _ & Hopen).
    split; [exact H1|]. split; [reflexivity|].
    split; [exact (Hopen _ _ eq_refl eq_refl (py "A"))
           | exact (Hopen _ _ eq_refl eq_refl (py "X"))].
Defined.

(** X14. When the entry loop raises the stop flag: at an entry whose title is
    not empty, is not found in the backup file, and is the cursor, and at no
    other entry. An entry found in the backup file is skipped as a duplicate
    before the cursor is looked at, so it never stops the crawl; without a
    cursor (or with an empty one) nothing does. *)
Theorem stop_flag_is_raised_at_the_cursor_only (W : World) (last : pyval)
    (page i : nat) (a : article) (article_id : pystr) (c : Main.counters)
    (st : St) :
  Main.duplicate_found c = false ->
  (Main.duplicate_found
     (fst (Main.process_article W last page (i, a, article_id) c st)) = true
   <-> exists t, a_title a = Some t /\ t <> []
                 /\ Main.in_backup t st = false /\ last = VStr t).
Proof.
  intros Hc.
  destruct (a_title a) as [t|] eqn:Et.
  2:{ rewrite process_article_untitled by (rewrite Et; exact I). cbn [fst].
      rewrite Hc. split; [discriminate | intros (t & H & _); discriminate]. }
  destruct (Str.nonempty t) eqn:En.
  2:{ rewrite process_article_untitled by (rewrite Et; exact En). cbn [fst].
      rewrite Hc. split; [discriminate|].
      intros (t' & [= <-] & Hne & _). apply nonempty_false in En. contradiction. }
  destruct (Main.in_backup t st) eqn:Eb.
  { rewrite (process_article_duplicate W last page i a article_id c st t Et En Eb).
    cbn [fst]. rewrite Hc. split; [discriminate|].
    intros (t' & [= <-] & _ & Hb & _). congruence. }
  destruct (truthy last && eq_str last t) eqn:El.
  - rewrite (process_article_stop W last page i a article_id c st t Et En Eb El).
    cbn [fst Main.duplicate_found]. split; [intros _|reflexivity].
    exists t. apply andb_true_iff in El. destruct El as [_ El].
    destruct last; try discriminate. cbn [eq_str] in El.
    apply str_eqb_eq in El. subst s.
    repeat split; auto. apply nonempty_true. exact En.
  - pose proof (process_article_fresh W last page i a article_id c st t Et En Eb El)
      as F. cbv zeta in F. destruct F as (_ & _ & F & _).
    rewrite F, Hc. split; [discriminate|].
    intros (t' & [= <-] & _ & _ & ->). cbn [truthy eq_str] in El.
    rewrite En, str_eqb_refl in El. discriminate.
Qed.

Lemma stop_flag_is_raised_at_the_cursor_only_witness :
  let W := Fixture.world [] (Fixture.steady_es Fixture.report_fields) 1 in
  let stop_at (st : St) :=
    Main.duplicate_found
      (fst (Main.process_article W (VStr (py "B")) 1
              (0%nat, Fixture.entry "b" "B", py "b") Main.initial_counters st)) in
  stop_at (Fixture.fresh_state None) = true
  /\ stop_at (Fixture.state_with None (Fixture.ledger_of ["B"%string])) = false.
Proof.
  intros W stop_at. split.
  - apply (stop_flag_is_raised_at_the_cursor_only W (VStr (py "B")) 1 0
             (Fixture.entry "b" "B") (py "b") Main.initial_counters
             (Fixture.fresh_state None) eq_refl).
    exists (py "B"). repeat split; reflexivity || discriminate.
  - reflexivity.
Defined.

(** *** The statistics *)

Lemma process_article_tally (W : World) (last : pyval) (page : nat)
    (info : nat * article * pystr) (c : Main.counters) (st : St) :
  tally c -> tally (fst (Main.process_article W last page info c st)).
Proof.
  intros [H1 H2]. unfold Main.process_article.
  destruct info as [[i a] article_id].
  destruct (a_title a) as [t|]; [|split; assumption].
  destruct (negb (Str.nonempty t)); [split; assumption|].
  destruct (Main.in_backup t _); [split; assumption|].
  destruct (truthy last && eq_str last t); [split; assumption|].
  destruct (Main.build_report W t a article_id _) as [report st1].
  destruct (Main.embedding_and_save W report st1) as [[[rs rb] report'] st2].
  unfold tally. cbn [fst Main.total_processed Main.success_count Main.skip_count
                     Main.error_count Main.backup_count].
  destruct rs, rb; lia.
Qed.

Lemma for_articles_tally (W : World) (last : pyval) (page : nat)
    (infos : list (nat * article * pystr)) (c : Main.counters) (st : St) :
  tally c -> tally (fst (Main.for_articles W last page infos c st)).
Proof.
  revert c st. induction infos as [|info rest IH]; intros c st H; [exact H|].
  cbn [Main.for_articles]. destruct (Main.duplicate_found c); [exact H|].
  pose proof (process_article_tally W last page info c st H) as P.
  destruct (Main.process_article W last page info c st) as [c1 st1].
  apply IH. exact P.
Qed.

Lemma pages_loop_tally (W : World) (last : pyval) (remaining : nat) :
  forall (page : nat) (c : Main.counters) (st : St),
    tally c ->
    match fst (Main.pages_loop W last remaining page c st) with
    | Ok c' => tally c'
    | Raise _ => True
    end.
Proof.
  induction remaining as [|remaining IH]; intros page c st H; [exact H|].
  cbn [Main.pages_loop].
  destruct (get_listing W page) as [soup|detail]; [|exact I].
  destruct (articles soup) as [|a0 rest] eqn:Ea; [exact H|].
  pose proof (for_articles_tally W last page
                (Main.reporter_articles (a0 :: rest)) c st H) as P.
  destruct (Main.for_articles W last page _ c st) as [c1 st1]. cbn [fst] in P.
  destruct (Main.duplicate_found c1); [exact P|].
  destruct (next_button soup); [|exact P]. apply IH. exact P.
Qed.

(** X15. The returned statistics add up: [total] is the sum of [success],
    [skip] and [error], and [backup] is at most [total]. *)
Theorem statistics_add_up (W : World) (max_pages : nat) (st st' : St)
    (stats : Main.statistics) :
  Main.main_process W max_pages st = (Ok stats, st') ->
  Main.n_total stats
  = (Main.n_success stats + Main.n_skip stats + Main.n_error stats)%nat
  /\ (Main.n_backup stats <= Main.n_total stats)%nat.
Proof.
  unfold Main.main_process.
  destruct (Main.get_last_crawled_title st) as [[last|e] st0]; [|discriminate].
  pose proof (pages_loop_tally W last max_pages 1 Main.initial_counters st0) as P.
  destruct (Main.pages_loop W last max_pages 1 Main.initial_counters st0)
    as [[c|e] st1]; [|discriminate].
  cbn [fst] in P.
  assert (T : tally c) by (apply P; split; cbn; lia).
  destruct T as [T1 T2].
  destruct (Main.first_article_title c) as [first|].
  - destruct ((0 <? Main.total_processed c)%nat && negb (Main.duplicate_found c)).
    + destruct (Main.update_last_crawled_title W first st1) as [[[]|e] st2];
        [|discriminate].
      intros [= <- _]. cbn. auto.
    + intros [= <- _]. cbn. auto.
  - intros [= <- _]. cbn. auto.
Qed.

Lemma statistics_add_up_witness :
  let pages := [mk_listing [Fixture.entry "c" "C"; Fixture.entry "b" "B";
                            Fixture.entry "a" "A"] false] in
  let W := Fixture.world pages (Fixture.memory_es Fixture.report_fields) 1 in
  let st := Fixture.fresh_state None in
  exists stats,
    fst (Main.main_process W 40 st) = Ok stats
    /\ Main.n_total stats = 3%nat
    /\ Main.n_total stats
       = (Main.n_success stats + Main.n_skip stats + Main.n_error stats)%nat
    /\ (Main.n_backup stats <= Main.n_total stats)%nat.
Proof.
  intros pages W st.
  destruct (Main.main_process W 40 st) as [[stats|e] st'] eqn:E;
    [|vm_compute in E; discriminate].
  exists stats. split; [reflexivity|].
  split; [vm_compute in E; injection E as <- _; reflexivity|].
  apply (statistics_add_up W 40 st st' stats E).
Defined.

(** *** A listing without news *)

Lemma idle_refl (st : St) : idle st st.
Proof. repeat split; auto. exists []. repeat split; reflexivity. Qed.

Lemma idle_trans (st1 st2 st3 : St) : idle st1 st2 -> idle st2 st3 -> idle st1 st3.
Proof.
  intros (A1 & A2 & A3 & A4 & A5 & A6 & n1 & A7 & A8 & A9 & A10)
         (B1 & B2 & B3 & B4 & B5 & B6 & n2 & B7 & B8 & B9 & B10).
  repeat split; try congruence.
  exists (n2 ++ n1). rewrite B7, A7, app_assoc. split; [reflexivity|].
  rewrite processed_app, stopped_app, cursor_saved_app, A8, A9, A10, B8, B9, B10.
  repeat split; reflexivity.
Qed.

Lemma idle_print (e : event) (st : St) :
  match e with
  | EvProcess _ | EvStop | EvCursorSaved _ => False
  | _ => True
  end ->
  idle st (Main.print e st).
Proof.
  intros He. repeat split; auto. exists [e].
  destruct e; try contradiction; repeat split; reflexivity.
Qed.

Lemma idle_in_backup (st st' : St) (y : pystr) :
  idle st st' -> Main.in_backup y st' = Main.in_backup y st.
Proof. intros (_ & H & _). unfold Main.in_backup. rewrite H. reflexivity. Qed.

Lemma process_article_known (W : World) (last : pyval) (page : nat)
    (info : nat * article * pystr) (c : Main.counters) (st : St) :
  known st info ->
  fst (Main.process_article W last page info c st) = c
  /\ idle st (snd (Main.process_article W last page info c st)).
Proof.
  destruct info as [[i a] article_id]. unfold known, title_of. cbn [fst snd].
  intros Hk.
  destruct (a_title a) as [t|] eqn:Et.
  2:{ rewrite process_article_untitled by (rewrite Et; exact I).
      split; [reflexivity | apply idle_print; exact I]. }
  destruct (Str.nonempty t) eqn:En.
  2:{ rewrite process_article_untitled by (rewrite Et; exact En).
      split; [reflexivity | apply idle_print; exact I]. }
  destruct Hk as [->|Hb]; [discriminate|].
  rewrite (process_article_duplicate W last page i a article_id c st t Et En Hb).
  split; [reflexivity|]. cbn [snd].
  apply (idle_trans _ (Main.print (EvHeader page i article_id) st));
    [apply idle_print; exact I|].
  apply (idle_trans _ (Main.print (EvTitle t)
                         (Main.print (EvHeader page i article_id) st)));
    apply idle_print; exact I.
Qed.

Lemma known_idle (st st' : St) (infos : list (nat * article * pystr)) :
  idle st st' -> Forall (known st) infos -> Forall (known st') infos.
Proof.
  intros Hi. apply Forall_impl. intros info. unfold known.
  destruct (title_of info); [|auto].
  rewrite (idle_in_backup st st' _ Hi). auto.
Qed.

Lemma for_articles_known (W : World) (last : pyval) (page : nat)
    (infos : list (nat * article * pystr)) (c : Main.counters) (st : St) :
  Forall (known st) infos ->
  fst (Main.for_articles W last page infos c st) = c
  /\ idle st (snd (Main.for_articles W last page infos c st)).
Proof.
  revert st. induction infos as [|info rest IH]; intros st H.
  - split; [reflexivity | apply idle_refl].
  - inversion H as [|? ? Hk Hrest]; subst. cbn [Main.for_articles].
    destruct (Main.duplicate_found c); [split; [reflexivity | apply idle_refl]|].
    destruct (process_article_known W last page info c st Hk) as [Hc Hi].
    destruct (Main.process_article W last page info c st) as [c1 st1].
    cbn [fst snd] in *. subst c1.
    destruct (IH st1 (known_idle st st1 rest Hi Hrest)) as [Hc' Hi'].
    split; [exact Hc' | exact (idle_trans _ _ _ Hi Hi')].
Qed.

Lemma pages_loop_known (W : World) (last : pyval) (remaining : nat) :
  forall (page : nat) (c : Main.counters) (st : St),
    Forall (known st) (listing_walk W remaining page) ->
    Main.duplicate_found c = false ->
    let r := Main.pages_loop W last remaining page c st in
    idle st (snd r) /\ (forall c', fst r = Ok c' -> c' = c).
Proof.
  induction remaining as [|remaining IH]; intros page c st H Hc.
  - split; [apply idle_refl | intros c' [= <-]; reflexivity].
  - cbn [listing_walk] in H. cbv zeta. cbn [Main.pages_loop].
    destruct (get_listing W page) as [soup|detail];
      [|split; [apply idle_refl | discriminate]].
    destruct (articles soup) as [|a0 rest] eqn:Ea;
      [split; [apply idle_refl | intros c' [= <-]; reflexivity]|].
    apply Forall_app in H. destruct H as [Hes Hrest].
    destruct (for_articles_known W last page
                (Main.reporter_articles (a0 :: rest)) c st Hes) as [Hc1 Hi].
    destruct (Main.for_articles W last page _ c st) as [c1 st1].
    cbn [fst snd] in *. subst c1. rewrite Hc.
    destruct (next_button soup);
      [|split; [exact Hi | intros c' [= <-]; reflexivity]].
    destruct (IH (S page) c st1 (known_idle st st1 _ Hi Hrest) Hc) as [Hi' Hc'].
    split; [exact (idle_trans _ _ _ Hi Hi') | exact Hc'].
Qed.

(** X16. A listing without news. When every entry of the listing, in
    iteration order, has no title or has its title in the backup file, the
    run does nothing: no embedding is asked for, the store is not called, the
    backup file and the history file are as they were, no entry is
    processed, the stop condition does not fire (even when one of the titles
    is the cursor), and the statistics, if the run returns, are all zero. *)
Theorem a_listing_without_news_changes_nothing (W : World) (max_pages : nat)
    (st : St) :
  Forall (known st) (iteration_order W max_pages) ->
  let r := Main.main_process W max_pages st in
  idle st (snd r)
  /\ forall stats, fst r = Ok stats -> stats = Main.mk_statistics 0 0 0 0 0.
Proof.
  intros H r. subst r. unfold Main.main_process, Main.get_last_crawled_title.
  destruct (Main.load_crawler_history st) as [| | | | | | |history];
    try (split; [apply idle_refl | discriminate]).
  destruct (pages_loop_known W
              (Dict.get_default history (py "last_crawled_title") VNone)
              max_pages 1 Main.initial_counters st H eq_refl) as [Hi Hc].
  destruct (Main.pages_loop W _ max_pages 1 Main.initial_counters st)
    as [[c|e] st1]; cbn [fst snd] in *; [|split; [exact Hi | discriminate]].
  rewrite (Hc c eq_refl). cbn.
  split; [exact Hi | intros stats [= <-]; reflexivity].
Qed.

Lemma a_listing_without_news_changes_nothing_witness :
  let pages := [mk_listing [Fixture.entry "c" "C"; Fixture.entry "b" "B"] false] in
  let W := Fixture.world pages (Fixture.memory_es Fixture.report_fields) 1 in
  let st := Fixture.state_with (Fixture.history_with "C")
              (Fixture.ledger_of ["B"%string; "C"%string]) in
  let r := Main.main_process W 40 st in
  fst r = Ok (Main.mk_statistics 0 0 0 0 0)
  /\ examined (stdout (snd r)) = [py "C"; py "B"]
  /\ idle st (snd r).
Proof.
  intros pages W st r. split; [reflexivity|]. split; [reflexivity|].
  apply (a_listing_without_news_changes_nothing W 40 st).
  repeat constructor; right; reflexivity.
Defined.

(** *** The report of a listing entry *)

Lemma keys_set_present (d : dict) (k : pystr) (v : pyval) :
  In k (Dict.keys d) -> Dict.keys (Dict.set d k v) = Dict.keys d.
Proof.
  induction d as [|[k0 v0] d IH]; [intros []|].
  cbn [Dict.keys map fst In Dict.set]. intros [E|Hin].
  - subst k0. rewrite str_eqb_refl. reflexivity.
  - destruct (Str.eqb k0 k); [reflexivity|].
    cbn [map fst]. f_equal. apply IH. exact Hin.
Qed.

Lemma all_str_set (d : dict) (k s : pystr) :
  forallb (fun kv => is_str (snd kv)) d = true ->
  forallb (fun kv => is_str (snd kv)) (Dict.set d k (VStr s)) = true.
Proof.
  induction d as [|[k0 v0] d IH]; [reflexivity|].
  cbn [forallb snd Dict.set]. intros H. apply andb_true_iff in H.
  destruct H as [H0 H1].
  destruct (Str.eqb k0 k); cbn [forallb snd is_str]; [exact H1|].
  rewrite H0, (IH H1). reflexivity.
Qed.

Lemma refine_keeps_shape (c : container) (label : pystr) (report : dict) :
  Dict.keys report = report_keys ->
  forallb (fun kv => is_str (snd kv)) report = true ->
  Dict.keys (Main.refine_from_detail c label report) = report_keys
  /\ forallb (fun kv => is_str (snd kv)) (Main.refine_from_detail c label report)
     = true.
Proof.
  intros Hk Hs. unfold Main.refine_from_detail.
  assert (Hset : forall d k s,
             In k report_keys ->
             Dict.keys d = report_keys /\ forallb (fun kv => is_str (snd kv)) d = true ->
             Dict.keys (Dict.set d k (VStr s)) = report_keys
             /\ forallb (fun kv => is_str (snd kv)) (Dict.set d k (VStr s)) = true).
  { intros d k s Hin [Hk' Hs']. split.
    - rewrite keys_set_present; [exact Hk' | rewrite Hk'; exact Hin].
    - apply all_str_set. exact Hs'. }
  repeat match goal with
         | |- context [match ?x with _ => _ end] => destruct x
         end;
    repeat (apply Hset; [cbn; tauto|]); split; assumption.
Qed.

(** X17. The report built for a listing entry always has the same eight
    keys, in the same order, and every value is a string; its title is the
    title of the entry. When the link of the entry cannot be followed (no
    link, a page that cannot be fetched, a page without container), the
    report is the one made from the listing alone: an empty [full_content]
    and a summary of at most 200 characters. *)
Theorem report_shape (W : World) (title : pystr) (a : article)
    (article_id : pystr) (st : St) :
  let report := fst (Main.build_report W title a article_id st) in
  Dict.keys report = report_keys
  /\ forallb (fun kv => is_str (snd kv)) report = true
  /\ Dict.get report Main.k_title = Some (VStr title)
  /\ (no_detail W a ->
      Dict.get report (py "full_content") = Some (VStr [])
      /\ exists summary,
           Dict.get report (py "summary") = Some (VStr summary)
           /\ (length summary <= 200)%nat).
Proof.
  cbv zeta. split; [|split; [|split]].
  - unfold Main.build_report. cbv zeta.
    destruct (Main.label_and_category (a_lists a)) as [label category].
    repeat match goal with
           | |- context [if ?b then _ else _] => destruct b
           | |- context [match get_detail W ?l with _ => _ end] =>
               destruct (get_detail W l)
           | |- context [match d_container ?p with _ => _ end] =>
               destruct (d_container p)
           end; cbn [fst];
      try reflexivity; apply refine_keeps_shape; reflexivity.
  - unfold Main.build_report. cbv zeta.
    destruct (Main.label_and_category (a_lists a)) as [label category].
    repeat match goal with
           | |- context [if ?b then _ else _] => destruct b
           | |- context [match get_detail W ?l with _ => _ end] =>
               destruct (get_detail W l)
           | |- context [match d_container ?p with _ => _ end] =>
               destruct (d_container p)
           end; cbn [fst];
      try reflexivity; apply refine_keeps_shape; reflexivity.
  - apply (build_report_effect W title a article_id st).
  - unfold no_detail, Main.build_report. cbv zeta.
    destruct (Main.label_and_category (a_lists a)) as [label category].
    intros Hn.
    assert (Hsum : (length (match a_summary a with
                            | Some s => firstn 200 s
                            | None => []
                            end) <= 200)%nat).
    { destruct (a_summary a); [apply firstn_le_length | cbn; lia]. }
    destruct (a_link a) as [[href|]|]; cbn [Str.nonempty];
      try (cbn [fst]; split; [reflexivity|];
           eexists; split; [reflexivity | exact Hsum]).
    destruct (Str.nonempty href) eqn:En;
      [|cbn [fst]; split; [reflexivity|];
        eexists; split; [reflexivity | exact Hsum]].
    destruct Hn as [->|[[detail Hd]|Hd]]; [discriminate| |];
      cbn beta iota; rewrite ?En, Hd;
      cbn [d_container fst]; (split; [reflexivity|]);
      eexists; (split; [reflexivity | exact Hsum]).
Qed.

(** *** Every processed title goes to the backup file *)

Lemma all_str_get (d : dict) (k : pystr) (v : pyval) :
  forallb (fun kv => is_str (snd kv)) d = true ->
  Dict.get d k = Some v -> is_str v = true.
Proof.
  induction d as [|[k0 v0] d IH]; [discriminate|].
  cbn [forallb snd Dict.get]. intros H. apply andb_true_iff in H.
  destruct H as [H0 H1]. destruct (Str.eqb k0 k).
  - intros [= <-]. exact H0.
  - apply IH. exact H1.
Qed.

(** The report of an entry has its title and a string for [full_content]. *)
Lemma report_shape_helper (W : World) (title : pystr) (a : article)
    (article_id : pystr) (st : St) :
  let report := fst (Main.build_report W title a article_id st) in
  Dict.get report Main.k_title = Some (VStr title)
  /\ exists fc, Dict.get_default report (py "full_content") (VStr []) = VStr fc.
Proof.
  cbv zeta. split; [apply (build_report_effect W title a article_id st)|].
  assert (Hs : forallb (fun kv => is_str (snd kv))
                 (fst (Main.build_report W title a article_id st)) = true).
  { unfold Main.build_report. cbv zeta.
    destruct (Main.label_and_category (a_lists a)) as [label category].
    repeat match goal with
           | |- context [if ?b then _ else _] => destruct b
           | |- context [match get_detail W ?l with _ => _ end] =>
               destruct (get_detail W l)
           | |- context [match d_container ?p with _ => _ end] =>
               destruct (d_container p)
           end; cbn [fst];
      try reflexivity; apply refine_keeps_shape; reflexivity. }
  unfold Dict.get_default.
  destruct (Dict.get (fst (Main.build_report W title a article_id st))
              (py "full_content")) as [v|] eqn:E; [|eexists; reflexivity].
  pose proof (all_str_get _ _ _ Hs E) as Hv. destruct v; try discriminate.
  eexists; reflexivity.
Qed.

Lemma ends_cleanly_same (st st' : St) :
  backup_file st' = backup_file st -> ends_cleanly st -> ends_cleanly st'.
Proof. unfold ends_cleanly. intros ->. auto. Qed.

Lemma in_backup_same (st st' : St) (y : pystr) :
  backup_file st' = backup_file st -> Main.in_backup y st' = Main.in_backup y st.
Proof. unfold Main.in_backup. intros ->. reflexivity. Qed.

(** In a dependable world [embedding_and_save] writes the record to a
    backup file that ended cleanly: its title is then found, the titles
    found before are still found, and the file ends cleanly again. *)
Lemma embedding_and_save_backs_up (W : World) (report : dict) (st : St)
    (t fc : pystr) :
  dependable W ->
  ends_cleanly st ->
  Dict.get report Main.k_title = Some (VStr t) ->
  Dict.get_default report (py "full_content") (VStr []) = VStr fc ->
  let st' := snd (Main.embedding_and_save W report st) in
  Main.in_backup t st' = true
  /\ ends_cleanly st'
  /\ (forall y, Main.in_backup y st = true -> Main.in_backup y st' = true).
Proof.
  intros (Hw & Henc & Hemb) Hc Ht Hfc. cbv zeta. unfold Main.embedding_and_save.
  rewrite Ht, Hfc.
  assert (Hback : forall report' st1,
             Dict.get report' Main.k_title = Some (VStr t) ->
             backup_file st1 = backup_file st ->
             let r :=
               (let st' := snd (Main.backup_to_jsonl W report' st1) in
                let '(result, report0, x) :=
                  Main.save_to_es W report' 3 (ext st') in
                (match Result result with
                 | code_Y => Main.success
                 | code_N => Main.error
                 | code_SKIP => Main.skip
                 end, true, report0, Main.with_ext x st')) in
             Main.in_backup t (snd r) = true
             /\ ends_cleanly (snd r)
             /\ (forall y, Main.in_backup y st = true ->
                            Main.in_backup y (snd r) = true)).
  { intros report' st1 Ht' Hb1. cbv zeta.
    assert (Hc1 : ends_cleanly st1) by (apply (ends_cleanly_same st); assumption).
    pose proof (fun y => in_backup_clean_append W report' st1 y (Hw _) Hc1) as Hscan.
    pose proof (backup_to_jsonl_ends_cleanly W report' st1 (Hw _)) as Hend.
    destruct (Main.backup_to_jsonl W report' st1) as [ok st2]. cbn [snd] in *.
    destruct (Main.save_to_es W report' 3 (ext st2)) as [[result report0] x].
    cbn [snd].
    assert (Hsame : backup_file (Main.with_ext x st2) = backup_file st2)
      by reflexivity.
    split; [|split].
    - rewrite (in_backup_same _ _ t Hsame), Hscan, Ht'. cbn [eq_str].
      rewrite str_eqb_refl. apply orb_true_r.
    - apply (ends_cleanly_same st2); assumption.
    - intros y Hy. rewrite (in_backup_same _ _ y Hsame), Hscan.
      rewrite (in_backup_same _ _ y Hb1), Hy. reflexivity. }
  destruct (Str.nonempty (Str.strip fc)).
  - unfold Main.text_embeddings_3.
    destruct (Henc fc) as [tokens ->].
    match goal with
    | |- context [embed W ?n ?text] => destruct (Hemb n text) as [v ->]
    end.
    apply Hback; [|reflexivity].
    rewrite get_set_other by discriminate. exact Ht.
  - apply Hback; [|reflexivity].
    rewrite get_set_other by discriminate. exact Ht.
Qed.

Lemma process_article_fresh_backed (W : World) (last : pyval) (page i : nat)
    (a : article) (article_id : pystr) (c : Main.counters) (st : St) (t : pystr) :
  dependable W ->
  ends_cleanly st ->
  a_title a = Some t -> Str.nonempty t = true -> Main.in_backup t st = false ->
  truthy last && eq_str last t = false ->
  let st' := snd (Main.process_article W last page (i, a, article_id) c st) in
  Main.in_backup t st' = true
  /\ ends_cleanly st'
  /\ (forall y, Main.in_backup y st = true -> Main.in_backup y st' = true).
Proof.
  intros Hw Hc Ha Hn Hb Hl. cbv zeta.
  unfold Main.process_article. rewrite Ha, Hn. cbn [negb].
  rewrite !in_backup_print, Hb, Hl.
  set (st1 := Main.print (EvTitle t) (Main.print (EvHeader page i article_id) st)).
  pose proof (report_shape_helper W t a article_id st1) as B.
  pose proof (build_report_effect W t a article_id st1) as B'. cbv zeta in B'.
  destruct (Main.build_report W t a article_id st1) as [report st2].
  cbn [fst snd] in B, B'. destruct B as (Bt & fc & Bfc).
  destruct B' as (_ & _ & _ & Bb).
  assert (Hb2 : backup_file st2 = backup_file st) by exact Bb.
  pose proof (embedding_and_save_backs_up W report st2 t fc Hw
                (ends_cleanly_same st st2 Hb2 Hc) Bt Bfc) as E.
  cbv zeta in E.
  destruct (Main.embedding_and_save W report st2) as [[[rs rb] report'] st3].
  cbn [snd] in *. destruct E as (E1 & E2 & E3).
  split; [exact E1|]. split; [exact E2|].
  intros y Hy. apply E3. rewrite (in_backup_same _ _ y Hb2). exact Hy.
Qed.

Lemma NoDup_snoc (A : Type) (l : list A) (x : A) :
  NoDup l -> ~ In x l -> NoDup (l ++ [x]).
Proof.
  induction l as [|y l IH]; intros Hd Hx.
  - repeat constructor. intros [].
  - inversion Hd as [|? ? Hy Hd']; subst. cbn [app]. constructor.
    + intros Hin. apply in_app_or in Hin. destruct Hin as [Hin|[E|[]]].
      * contradiction.
      * subst. apply Hx. left. reflexivity.
    + apply IH; [exact Hd'|]. intros Hin. apply Hx. right. exact Hin.
Qed.

Lemma backed_up_print (e : event) (st0 st : St) :
  match e with EvProcess _ => False | _ => True end ->
  backed_up st0 st -> backed_up st0 (Main.print e st).
Proof.
  intros He [(new & Hs & Hd & Hf) [Hm Hc]]. split; [|split].
  - exists (e :: new). cbn [Main.print stdout]. rewrite Hs.
    split; [reflexivity|]. rewrite (processed_quiet e new He).
    split; [exact Hd|]. exact Hf.
  - exact Hm.
  - exact Hc.
Qed.

Lemma process_article_backed_up (W : World) (last : pyval) (page : nat)
    (info : nat * article * pystr) (st0 : St) (c : Main.counters) (st : St) :
  dependable W ->
  backed_up st0 st ->
  backed_up st0 (snd (Main.process_article W last page info c st)).
Proof.
  intros Hw Hb. destruct info as [[i a] article_id].
  destruct (a_title a) as [t|] eqn:Et.
  2:{ rewrite process_article_untitled by (rewrite Et; exact I).
      apply backed_up_print; [exact I | exact Hb]. }
  destruct (Str.nonempty t) eqn:En.
  2:{ rewrite process_article_untitled by (rewrite Et; exact En).
      apply backed_up_print; [exact I | exact Hb]. }
  destruct (Main.in_backup t st) eqn:Eb.
  { rewrite (process_article_duplicate W last page i a article_id c st t Et En Eb).
    cbn [snd]. repeat (apply backed_up_print; [exact I|]). exact Hb. }
  destruct (truthy last && eq_str last t) eqn:El.
  { rewrite (process_article_stop W last page i a article_id c st t Et En Eb El).
    cbn [snd]. repeat (apply backed_up_print; [exact I|]). exact Hb. }
  destruct Hb as [(new & Hs & Hd & Hf) [Hm Hc]].
  pose proof (process_article_fresh W last page i a article_id c st t Et En Eb El)
    as F. cbv zeta in F. destruct F as (_ & _ & _ & _ & F5 & _).
  pose proof (process_article_fresh_backed W last page i a article_id c st t
                Hw Hc Et En Eb El) as Ft. cbv zeta in Ft.
  destruct (Main.process_article W last page (i, a, article_id) c st) as [c1 st1].
  cbn [snd] in *. destruct Ft as (Ft & Fc & Hother).
  split; [|split].
  - exists ([EvProcess (VStr t); EvTitle t; EvHeader page i article_id] ++ new).
    rewrite F5, Hs. split; [reflexivity|]. rewrite processed_app.
    change (processed [EvProcess (VStr t); EvTitle t; EvHeader page i article_id])
      with [VStr t].
    split.
    + apply NoDup_snoc; [exact Hd|]. intros Hin.
      rewrite Forall_forall in Hf. destruct (Hf _ Hin) as (t' & [= <-] & _ & H).
      congruence.
    + apply Forall_app. split.
      * revert Hf. apply Forall_impl. intros v (t' & -> & H0 & H1).
        exists t'. repeat split; auto.
      * constructor; [|constructor]. exists t. repeat split; auto.
        destruct (Main.in_backup t st0) eqn:E0; [|reflexivity].
        rewrite (Hm t E0) in Eb. discriminate.
  - intros y Hy. apply Hother, Hm, Hy.
  - exact Fc.
Qed.

Lemma for_articles_backed_up (W : World) (last : pyval) (page : nat)
    (infos : list (nat * article * pystr)) (st0 : St) (c : Main.counters) (st : St) :
  dependable W ->
  backed_up st0 st ->
  backed_up st0 (snd (Main.for_articles W last page infos c st)).
Proof.
  intros Hw. revert c st. induction infos as [|info rest IH]; intros c st H;
    [exact H|].
  cbn [Main.for_articles]. destruct (Main.duplicate_found c); [exact H|].
  pose proof (process_article_backed_up W last page info st0 c st Hw H) as P.
  destruct (Main.process_article W last page info c st) as [c1 st1].
  apply IH. exact P.
Qed.

Lemma pages_loop_backed_up (W : World) (last : pyval) (remaining : nat) :
  dependable W ->
  forall (page : nat) (st0 : St) (c : Main.counters) (st : St),
    backed_up st0 st ->
    backed_up st0 (snd (Main.pages_loop W last remaining page c st)).
Proof.
  intros Hw. induction remaining as [|remaining IH]; intros page st0 c st H;
    [exact H|].
  cbn [Main.pages_loop].
  destruct (get_listing W page) as [soup|detail]; [|exact H].
  destruct (articles soup) as [|a0 rest] eqn:Ea; [exact H|].
  pose proof (for_articles_backed_up W last page
                (Main.reporter_articles (a0 :: rest)) st0 c st Hw H) as P.
  destruct (Main.for_articles W last page _ c st) as [c1 st1]. cbn [snd] in P.
  destruct (Main.duplicate_found c1); [exact P|].
  destruct (next_button soup); [|exact P]. apply IH. exact P.
Qed.

(** X18. In a world where tokenizer, embedding provider and backup file do
    not fail, and from a backup file that ends cleanly (it is absent, or
    ends with a line break, or with blanks after the last one), a run
    processes no title twice: the titles it processed are pairwise
    different, none of them was in the backup file when the run started, and
    each of them is in it when the run ends, whatever the store answered.
    From a backup file with an unfinished last line this fails: the first
    record appended is lost with that line, and its title is processed again
    when the listing shows it again. *)
Theorem no_title_is_processed_twice (W : World) (max_pages : nat) (st : St) :
  dependable W ->
  ends_cleanly st ->
  let st' := snd (Main.main_process W max_pages st) in
  exists new,
    stdout st' = new ++ stdout st
    /\ NoDup (processed new)
    /\ Forall (fun v => exists t, v = VStr t
                                  /\ Main.in_backup t st = false
                                  /\ Main.in_backup t st' = true)
              (processed new).
Proof.
  intros Hw Hc st'. subst st'.
  assert (H0 : backed_up st st).
  { split; [|auto]. exists []. repeat split; constructor. }
  unfold Main.main_process.
  destruct (Main.get_last_crawled_title st) as [[last|e] st0] eqn:Eg.
  2:{ unfold Main.get_last_crawled_title in Eg.
      destruct (Main.load_crawler_history st); injection Eg as _ <-;
        exact (proj1 H0). }
  assert (Est : st0 = st).
  { unfold Main.get_last_crawled_title in Eg.
    destruct (Main.load_crawler_history st); injection Eg as _ <-; reflexivity. }
  subst st0.
  pose proof (pages_loop_backed_up W last max_pages Hw 1 st Main.initial_counters
                st H0) as P.
  destruct (Main.pages_loop W last max_pages 1 Main.initial_counters st)
    as [[c|e] st1]; cbn [snd] in *; [|exact (proj1 P)].
  destruct (Main.first_article_title c) as [first|]; [|exact (proj1 P)].
  destruct ((0 <? Main.total_processed c)%nat && negb (Main.duplicate_found c));
    [|exact (proj1 P)].
  unfold Main.update_last_crawled_title.
  destruct (Main.load_crawler_history st1); try exact (proj1 P).
  cbn [snd]. destruct P as [(new & Hs & Hd & Hf) _].
  exists (EvCursorSaved first :: new). cbn [Main.print stdout].
  rewrite Hs. split; [reflexivity|]. rewrite processed_quiet by exact I.
  split; [exact Hd|]. exact Hf.
Qed.

(** The listing shows [A], [B] and [A] again. From an absent backup file [A]
    is processed once; from a backup file with an unfinished last line it is
    processed twice. *)
Lemma no_title_is_processed_twice_witness :
  let pages := [mk_listing [Fixture.entry "a1" "A"; Fixture.entry "b" "B";
                            Fixture.entry "a2" "A"] false] in
  let W := Fixture.world pages (Fixture.steady_es Fixture.report_fields) 1 in
  let st := Fixture.fresh_state None in
  let st' := snd (Main.main_process W 40 st) in
  let unfinished :=
    Some (mk_ledger [] (Some (OpenText (Some (VDict [(py "title", VStr (py "Z"))]))))) in
  (examined (stdout st') = [py "A"; py "B"; py "A"]
   /\ processed (stdout st') = [VStr (py "A"); VStr (py "B")]
   /\ exists new,
        stdout st' = new ++ stdout st
        /\ NoDup (processed new)
        /\ Forall (fun v => exists t, v = VStr t
                                      /\ Main.in_backup t st = false
                                      /\ Main.in_backup t st' = true)
                  (processed new))
  /\ processed (stdout (snd (Main.main_process W 40
                               (Fixture.state_with None unfinished))))
     = [VStr (py "A"); VStr (py "B"); VStr (py "A")].
Proof.
  intros pages W st st' unfinished. split; [|reflexivity].
  split; [reflexivity|]. split; [reflexivity|].
  apply (no_title_is_processed_twice W 40 st).
  - repeat split; intros; eexists; reflexivity.
  - exact I.
Defined.

(** ** main.py: embedding_and_save *)

(** X19. The [backup] flag of [embedding_and_save] says that the backup step
    was reached, not that it succeeded: for a record with a title whose
    embedding step does not raise, the flag is True and the status is that of
    the store, also when the append to the backup file fails, in which case
    the backup file is as it was. *)
Theorem backup_flag_ignores_the_append (W : World) (report : dict) (st : St)
    (title : pyval) (fc : pystr) :
  Dict.get report Main.k_title = Some title ->
  Dict.get_default report (py "full_content") (VStr []) = VStr fc ->
  (Str.strip fc = []
   \/ exists v st1,
        Main.text_embeddings_3 W fc (Main.print (EvProcess title) st)
        = (Ok v, st1)) ->
  let r := Main.embedding_and_save W report st in
  snd (fst (fst r)) = true
  /\ (backup_writable W (backup_appends st) = false ->
      backup_file (snd r) = backup_file st).
Proof.
  intros Ht Hfc Hemb r. subst r. unfold Main.embedding_and_save.
  rewrite Ht, Hfc.
  assert (Hback : forall report' st1,
             backup_file st1 = backup_file st ->
             backup_appends st1 = backup_appends st ->
             let r :=
               (let st' := snd (Main.backup_to_jsonl W report' st1) in
                let '(result, report0, x) :=
                  Main.save_to_es W report' 3 (ext st') in
                (match Result result with
                 | code_Y => Main.success
                 | code_N => Main.error
                 | code_SKIP => Main.skip
                 end, true, report0, Main.with_ext x st')) in
             snd (fst (fst r)) = true
             /\ (backup_writable W (backup_appends st) = false ->
                 backup_file (snd r) = backup_file st)).
  { intros report' st1 Hb Ha. cbv zeta. unfold Main.backup_to_jsonl. rewrite Ha.
    destruct (backup_writable W (backup_appends st)); cbn [snd ext];
      destruct (Main.save_to_es W report' 3 (ext st1)) as [[result report0] x];
      cbn [fst snd]; (split; [reflexivity|]); [discriminate|].
    intros _. exact Hb. }
  destruct (Str.nonempty (Str.strip fc)) eqn:En.
  - destruct Hemb as [Hblank|(v & st1 & Hv)];
      [rewrite Hblank in En; discriminate|].
    rewrite Hv. apply Hback.
    + unfold Main.text_embeddings_3 in Hv.
      destruct (encode W fc); [|discriminate].
      destruct (embed W _ _); injection Hv as _ <-; reflexivity.
    + unfold Main.text_embeddings_3 in Hv.
      destruct (encode W fc); [|discriminate].
      destruct (embed W _ _); injection Hv as _ <-; reflexivity.
  - apply Hback; reflexivity.
Qed.

Lemma backup_flag_ignores_the_append_witness :
  let W := Scene.read_only (Fixture.world [] (Fixture.steady_es Fixture.report_fields) 1) in
  let st := Fixture.fresh_state None in
  let r := Main.embedding_and_save W Fixture.a_record st in
  fst (fst r) = (Main.success, true)
  /\ backup_file (snd r) = None.
Proof.
  intros W st r.
  destruct (backup_flag_ignores_the_append W Fixture.a_record st
              (VStr (py "X")) [] eq_refl eq_refl (or_introl eq_refl))
    as [H1 H2].
  split; [reflexivity|]. apply H2. reflexivity.
Defined.

(** X20. When the tokenizer or the embedding provider fails on a record with
    content, [embedding_and_save] ends there: status error with the backup
    flag False, no line in the backup file, no call to the store, and the
    record without [embeddings]. *)
Theorem embedding_failure_ends_the_article (W : World) (report : dict) (st : St)
    (title : pyval) (fc : pystr) :
  Dict.get report Main.k_title = Some title ->
  Dict.get_default report (py "full_content") (VStr []) = VStr fc ->
  Str.strip fc <> [] ->
  (forall v st1, Main.text_embeddings_3 W fc (Main.print (EvProcess title) st)
                 <> (Ok v, st1)) ->
  let r := Main.embedding_and_save W report st in
  fst (fst r) = (Main.error, false)
  /\ snd (fst r) = report
  /\ backup_file (snd r) = backup_file st
  /\ backup_appends (snd r) = backup_appends st
  /\ ext (snd r) = ext st.
Proof.
  intros Ht Hfc Hne Hfail r. subst r. unfold Main.embedding_and_save.
  rewrite Ht, Hfc. apply nonempty_true in Hne. rewrite Hne.
  destruct (Main.text_embeddings_3 W fc (Main.print (EvProcess title) st))
    as [[v|e] st1] eqn:E.
  - exfalso. exact (Hfail v st1 eq_refl).
  - cbn [fst snd]. unfold Main.text_embeddings_3 in E.
    destruct (encode W fc); [destruct (embed W _ _)|]; try discriminate;
      injection E as _ <-; repeat split; reflexivity.
Qed.

Lemma embedding_failure_ends_the_article_witness :
  let W := Scene.no_provider (Fixture.world [] (Fixture.steady_es Fixture.report_fields) 1) in
  let st := Fixture.fresh_state None in
  let report := Dict.set Fixture.a_record (py "full_content") (VStr (py "text")) in
  let r := Main.embedding_and_save W report st in
  fst (fst r) = (Main.error, false)
  /\ snd (fst r) = report
  /\ backup_file (snd r) = backup_file st
  /\ backup_appends (snd r) = backup_appends st
  /\ ext (snd r) = ext st.
Proof.
  intros W st report r.
  apply (embedding_failure_ends_the_article W report st (VStr (py "X")) (py "text")).
  - reflexivity.
  - reflexivity.
  - discriminate.
  - intros v st1. discriminate.
Defined.

(** ** main.py: what is read from the pages *)

Lemma after_heading_long (found : bool) (elems : list (bool * pystr)) :
  Forall (fun t => (10 < length t)%nat) (Main.after_heading found elems).
Proof.
  revert found. induction elems as [|[h text] rest IH]; intros found;
    [constructor|].
  cbn [Main.after_heading]. destruct found; [|apply IH].
  apply Forall_app. split; [|apply IH].
  unfold Main.long_text.
  destruct (Str.nonempty text && (10 <? length text)%nat) eqn:E; [|constructor].
  apply andb_true_iff in E. destruct E as [_ E]. apply Nat.ltb_lt in E.
  repeat constructor. exact E.
Qed.

Lemma full_content_texts_long (b : background) :
  exists texts,
    Main.full_content_texts b = Main.marker :: texts
    /\ Forall (fun t => (10 < length t)%nat) texts.
Proof.
  unfold Main.full_content_texts. cbv zeta.
  destruct (_ <? 3)%nat.
  - eexists. split; [reflexivity | apply after_heading_long].
  - eexists. split; [reflexivity|].
    induction (b_siblings b) as [|[text|] rest IH]; cbn [flat_map];
      [constructor| |exact IH].
    apply Forall_app. split; [|exact IH].
    unfold Main.long_text.
    destruct (Str.nonempty text && (10 <? length text)%nat) eqn:E; [|constructor].
    apply andb_true_iff in E. destruct E as [_ E]. apply Nat.ltb_lt in E.
    repeat constructor. exact E.
Qed.

(** X21. The full content taken from an article page: [full_content] is
    either left as it was or set to the marker word of the background
    heading followed by one or more texts, each longer than ten characters,
    joined by blank lines; the marker alone is never stored. *)
Theorem full_content_shape (c : container) (label : pystr) (report : dict) :
  let report' := Main.refine_from_detail c label report in
  Dict.get report' (py "full_content") = Dict.get report (py "full_content")
  \/ exists texts,
       texts <> []
       /\ Forall (fun t => (10 < length t)%nat) texts
       /\ Dict.get report' (py "full_content")
          = Some (VStr (Str.join [10%N; 10%N] (Main.marker :: texts))).
Proof.
  cbv zeta. unfold Main.refine_from_detail.
  destruct (negb (Str.nonempty label));
    [destruct (find _ (c_lists c)) as [[[href text]|]|]|];
    match goal with
    | |- context [find ?p (c_summaries c)] => destruct (find p (c_summaries c))
    end;
    (destruct (c_background c) as [b|];
     [|left; rewrite ?get_set_other by discriminate; reflexivity]);
    destruct (full_content_texts_long b) as (texts & Et & Hlong); rewrite Et;
    (destruct texts as [|t0 texts]; cbn [length Nat.ltb Nat.leb];
     [left; rewrite ?get_set_other by discriminate; reflexivity|]);
    right; exists (t0 :: texts);
    (split; [discriminate|]); (split; [exact Hlong|]); apply get_set_same.
Qed.

Lemma combine_seq_In (A : Type) (l : list A) (s i : nat) (a : A) :
  In (i, a) (combine (seq s (length l)) l)
  <-> (s <= i)%nat /\ nth_error l (i - s) = Some a.
Proof.
  revert s. induction l as [|x l IH]; intros s; cbn [length seq combine In].
  - split; [intros [] | intros [_ H]]. destruct (i - s)%nat; discriminate.
  - rewrite IH. split.
    + intros [[= <- <-]|[Hle Hn]].
      * rewrite Nat.sub_diag. split; [lia | reflexivity].
      * split; [lia|]. replace (i - s)%nat with (S (i - S s)) by lia. exact Hn.
    + intros [Hle Hn]. destruct (i - s)%nat as [|k] eqn:Ek.
      * left. injection Hn as <-. f_equal. lia.
      * right. split; [lia|]. replace (i - S s)%nat with k by lia. exact Hn.
Qed.

Lemma reporter_increasing (l : list article) (s : nat) :
  increasing s
    (map (fun x => fst (fst x))
       (flat_map
          (fun ia =>
             match find (fun cls => Str.startswith cls Main.reporter_prefix)
                        (a_class (snd ia)) with
             | Some cls => [(fst ia, snd ia, Str.replace Main.reporter_prefix [] cls)]
             | None => []
             end)
          (combine (seq s (length l)) l))) = true.
Proof.
  assert (Hw : forall lo hi r, (lo <= hi)%nat -> increasing hi r = true ->
                               increasing lo r = true).
  { intros lo hi r Hle. destruct r as [|x r]; [reflexivity|].
    cbn [increasing]. intros H. apply andb_true_iff in H. destruct H as [H1 H2].
    apply Nat.leb_le in H1. rewrite H2, andb_true_r. apply Nat.leb_le. lia. }
  revert s. induction l as [|a l IH]; intros s; [reflexivity|].
  cbn [length seq combine flat_map fst snd].
  destruct (find _ (a_class a)); cbn [app map fst increasing].
  - rewrite Nat.leb_refl. apply IH.
  - apply (Hw s (S s)); [lia | apply IH].
Qed.

(** X22. The entries taken from a listing page: exactly the articles that
    carry a class beginning with [fact-check-reporter-], each with its
    position on the page and, as id, the first such class without that
    text; they come in page order, no position twice. *)
Theorem reporter_articles_positions (arts : list article) :
  (forall i a id,
      In (i, a, id) (Main.reporter_articles arts)
      <-> nth_error arts i = Some a
          /\ exists cls,
               find (fun cls => Str.startswith cls Main.reporter_prefix)
                    (a_class a) = Some cls
               /\ id = Str.replace Main.reporter_prefix [] cls)
  /\ increasing 0 (map (fun x => fst (fst x)) (Main.reporter_articles arts)) = true.
Proof.
  split; [|apply reporter_increasing].
  intros i a id. unfold Main.reporter_articles. rewrite in_flat_map. split.
  - intros [[i0 a0] [Hin H]]. cbn [fst snd] in H.
    destruct (find _ (a_class a0)) as [cls|] eqn:Ef; [|contradiction].
    destruct H as [[= <- <- <-]|[]].
    apply combine_seq_In in Hin. destruct Hin as [_ Hn].
    rewrite Nat.sub_0_r in Hn. split; [exact Hn|]. exists cls. auto.
  - intros [Hn (cls & Ef & ->)]. exists (i, a). split.
    + apply combine_seq_In. rewrite Nat.sub_0_r. split; [lia | exact Hn].
    + cbn [fst snd]. rewrite Ef. left. reflexivity.
Qed.

Lemma find_app_first (A : Type) (p : A -> bool) (l1 l2 : list A) :
  find p (l1 ++ l2)
  = match find p l1 with Some x => Some x | None => find p l2 end.
Proof.
  induction l1 as [|x l1 IH]; [reflexivity|].
  cbn [app find]. destruct (p x); [reflexivity | exact IH].
Qed.

(** X23. Label and category of a listing entry: the label is the text of the
    last link, over the dynamic lists of the entry, whose address contains
    [fact-check-report-classification/]; the category is the text of the
    last link whose address contains [fact-check-report-type/] and not the
    former; each is empty when there is no such link. *)
Theorem label_and_category_take_the_last_link
    (lists : list (option (pystr * pystr))) :
  Main.label_and_category lists
  = (link_text (find is_label_link (rev lists)),
     link_text (find is_category_link (rev lists))).
Proof.
  unfold Main.label_and_category.
  assert (H : forall l label category,
             fold_left
               (fun lc dynamic_list =>
                  match dynamic_list with
                  | Some (href, text) =>
                      if Str.contains Main.classification href then (text, snd lc)
                      else if Str.contains Main.report_type href then (fst lc, text)
                      else lc
                  | None => lc
                  end) l (label, category)
             = (match find is_label_link (rev l) with
                | Some x => link_text (Some x)
                | None => label
                end,
                match find is_category_link (rev l) with
                | Some x => link_text (Some x)
                | None => category
                end)).
  { induction l as [|x l IH]; intros label category; [reflexivity|].
    cbn [fold_left rev]. rewrite !find_app_first.
    destruct x as [[href text]|]; cbn [find is_label_link is_category_link].
    - destruct (Str.contains Main.classification href); cbn [negb andb snd fst].
      + rewrite IH. destruct (find is_label_link (rev l));
          destruct (find is_category_link (rev l)); reflexivity.
      + destruct (Str.contains Main.report_type href); cbn [fst snd];
          rewrite IH; destruct (find is_label_link (rev l));
          destruct (find is_category_link (rev l)); reflexivity.
    - rewrite IH. destruct (find is_label_link (rev l));
        destruct (find is_category_link (rev l)); reflexivity. }
  rewrite H. destruct (find is_label_link (rev lists));
    destruct (find is_category_link (rev lists)); reflexivity.
Qed.

(** ** main.py: from the status of an article back to the store *)

(** X24. What the status of [embedding_and_save] says about the store. With
    status success the last two calls were the write of the record, as the
    call leaves it and as cleaned on the way, and the refresh, and the
    record carries its embedding. With status skip the last call was the
    search for the title of the record. *)
Theorem status_of_an_article_reflects_the_store (W : World) (report : dict)
    (st : St) :
  let r := Main.embedding_and_save W report st in
  let report' := snd (fst r) in
  match fst (fst (fst r)) with
  | Main.success =>
      (exists id rest,
          es_log (ext (snd r))
          = Refresh Main.index_name
            :: Index Main.index_name id
                 (ESUploader.clean_document (libc_pads_year W)
                    (Main.cleaned_data_of report'))
            :: rest)
      /\ exists v, Dict.get report' (py "embeddings") = Some (VList v)
  | Main.skip =>
      exists t rest,
        Dict.get report' Main.k_title = Some (VStr t)
        /\ es_log (ext (snd r)) = SearchTitle Main.index_name t :: rest
  | Main.error => True
  end.
Proof.
  cbv zeta. unfold Main.embedding_and_save.
  destruct (Dict.get report Main.k_title) as [title|]; [|exact I].
  destruct (Dict.get_default report (py "full_content") (VStr []));
    try exact I.
  assert (H : forall report1 st1 v,
             Dict.get report1 (py "embeddings") = Some (VList v) ->
             let r :=
               (let st' := snd (Main.backup_to_jsonl W report1 st1) in
                let '(result, report0, x) :=
                  Main.save_to_es W report1 3 (ext st') in
                (match Result result with
                 | code_Y => Main.success
                 | code_N => Main.error
                 | code_SKIP => Main.skip
                 end, true, report0, Main.with_ext x st')) in
             match fst (fst (fst r)) with
             | Main.success =>
                 (exists id rest,
                     es_log (ext (snd r))
                     = Refresh Main.index_name
                       :: Index Main.index_name id
                            (ESUploader.clean_document (libc_pads_year W)
                               (Main.cleaned_data_of (snd (fst r))))
                       :: rest)
                 /\ exists v, Dict.get (snd (fst r)) (py "embeddings")
                              = Some (VList v)
             | Main.skip =>
                 exists t rest,
                   Dict.get (snd (fst r)) Main.k_title = Some (VStr t)
                   /\ es_log (ext (snd r)) = SearchTitle Main.index_name t :: rest
             | Main.error => True
             end).
  { intros report1 st1 v Hv. cbv zeta.
    set (st' := snd (Main.backup_to_jsonl W report1 st1)).
    pose proof (save_to_es_frame W report1 3 (ext st') (py "embeddings")
                  (proj1 embeddings_key_distinct) (proj2 embeddings_key_distinct))
      as Hframe.
    unfold Main.save_to_es in *.
    destruct (attempts_outcome W 3 3 (Main.mk_save report1 (ext st'))) as [_ Ho].
    destruct (Main.attempts W 3 3 (Main.mk_save report1 (ext st')))
      as [res [data' x']]. cbn [fst snd Main.sv_data Main.sv_ext] in *.
    unfold certified in Ho. cbn [Main.sv_data Main.sv_ext] in Ho.
    destruct (Result res); cbn [fst snd Main.with_ext ext].
    - destruct Ho as (_ & _ & id & rest & Hlog). split.
      + exists id, rest. exact Hlog.
      + exists v. rewrite Hframe. exact Hv.
    - exact I.
    - destruct Ho as (_ & _ & id & t & h & rest & _ & Ht & Hlog & _).
      exists t, rest. split; assumption. }
  destruct (Str.nonempty (Str.strip s)).
  - destruct (Main.text_embeddings_3 W s (Main.print (EvProcess title) st))
      as [[v|e] st1]; [|exact I].
    apply (H _ st1 v). apply get_set_same.
  - apply (H _ _ []). apply get_set_same.
Qed.

(** ** main.py: the page loop *)

Lemma within_refl (lo hi : nat) (st : St) : within lo hi st st.
Proof. exists []. split; [reflexivity | constructor]. Qed.

Lemma within_trans (lo hi : nat) (st1 st2 st3 : St) :
  within lo hi st1 st2 -> within lo hi st2 st3 -> within lo hi st1 st3.
Proof.
  intros (n1 & E1 & F1) (n2 & E2 & F2). exists (n2 ++ n1).
  rewrite E2, E1, app_assoc. split; [reflexivity|].
  unfold pages_seen in *. rewrite flat_map_app. apply Forall_app. auto.
Qed.

Lemma within_wider (lo hi lo' hi' : nat) (st st' : St) :
  (lo' <= lo)%nat -> (hi <= hi')%nat ->
  within lo hi st st' -> within lo' hi' st st'.
Proof.
  intros Hlo Hhi (new & E & F). exists new. split; [exact E|].
  revert F. apply Forall_impl. intros p. lia.
Qed.

Lemma process_article_within (W : World) (last : pyval) (page : nat)
    (info : nat * article * pystr) (c : Main.counters) (st : St) :
  within page (S page) st (snd (Main.process_article W last page info c st)).
Proof.
  destruct info as [[i a] article_id].
  assert (Hp : forall evs,
             Forall (fun p => (page <= p < S page)%nat)
               (pages_seen (evs ++ [EvHeader page i article_id]))
             <-> Forall (fun p => (page <= p < S page)%nat) (pages_seen evs)).
  { intros evs. unfold pages_seen. rewrite flat_map_app, Forall_app. cbn.
    split; [tauto|]. intros H. split; [exact H|]. repeat constructor. }
  destruct (a_title a) as [t|] eqn:Et.
  2:{ rewrite process_article_untitled by (rewrite Et; exact I).
      exists [EvHeader page i article_id]. split; [reflexivity|].
      apply (Hp []). constructor. }
  destruct (Str.nonempty t) eqn:En.
  2:{ rewrite process_article_untitled by (rewrite Et; exact En).
      exists [EvHeader page i article_id]. split; [reflexivity|].
      apply (Hp []). constructor. }
  destruct (Main.in_backup t st) eqn:Eb.
  { rewrite (process_article_duplicate W last page i a article_id c st t Et En Eb).
    exists [EvDuplicate t; EvTitle t; EvHeader page i article_id].
    split; [reflexivity|]. apply (Hp [EvDuplicate t; EvTitle t]). constructor. }
  destruct (truthy last && eq_str last t) eqn:El.
  { rewrite (process_article_stop W last page i a article_id c st t Et En Eb El).
    exists [EvStop; EvTitle t; EvHeader page i article_id].
    split; [reflexivity|]. apply (Hp [EvStop; EvTitle t]). constructor. }
  pose proof (process_article_fresh W last page i a article_id c st t Et En Eb El)
    as F. cbv zeta in F. destruct F as (_ & _ & _ & _ & F5 & _).
  exists [EvProcess (VStr t); EvTitle t; EvHeader page i article_id].
  split; [exact F5|]. apply (Hp [EvProcess (VStr t); EvTitle t]). constructor.
Qed.

Lemma for_articles_within (W : World) (last : pyval) (page : nat)
    (infos : list (nat * article * pystr)) (c : Main.counters) (st : St) :
  within page (S page) st (snd (Main.for_articles W last page infos c st)).
Proof.
  revert c st. induction infos as [|info rest IH]; intros c st;
    [apply within_refl|].
  cbn [Main.for_articles]. destruct (Main.duplicate_found c); [apply within_refl|].
  pose proof (process_article_within W last page info c st) as P.
  destruct (Main.process_article W last page info c st) as [c1 st1].
  exact (within_trans _ _ _ _ _ P (IH c1 st1)).
Qed.

Lemma pages_loop_within (W : World) (last : pyval) (remaining : nat) :
  forall (page : nat) (c : Main.counters) (st : St),
    within page (page + remaining) st
           (snd (Main.pages_loop W last remaining page c st)).
Proof.
  induction remaining as [|remaining IH]; intros page c st; [apply within_refl|].
  cbn [Main.pages_loop].
  destruct (get_listing W page) as [soup|detail]; [|apply within_refl].
  destruct (articles soup) as [|a0 rest] eqn:Ea; [apply within_refl|].
  pose proof (for_articles_within W last page
                (Main.reporter_articles (a0 :: rest)) c st) as P.
  destruct (Main.for_articles W last page _ c st) as [c1 st1]. cbn [snd] in P.
  apply (within_wider page (S page) page (page + S remaining)) in P; [|lia|lia].
  destruct (Main.duplicate_found c1); [exact P|].
  destruct (next_button soup); [|exact P].
  eapply within_trans; [exact P|].
  apply (within_wider (S page) (S page + remaining)); [lia | lia | apply IH].
Qed.

(** X25. The page bound: a run examines entries of the listing pages 1 to
    [max_pages] only, whatever the pages hold; with [max_pages] 0 it examines
    none. *)
Theorem crawl_stays_within_max_pages (W : World) (max_pages : nat) (st : St) :
  exists new,
    stdout (snd (Main.main_process W max_pages st)) = new ++ stdout st
    /\ Forall (fun p => (1 <= p <= max_pages)%nat) (pages_seen new).
Proof.
  assert (Hw : forall st', within 1 (1 + max_pages) st st' ->
                 exists new, stdout st' = new ++ stdout st
                   /\ Forall (fun p => (1 <= p <= max_pages)%nat) (pages_seen new)).
  { intros st' (new & E & F). exists new. split; [exact E|].
    revert F. apply Forall_impl. intros p. lia. }
  unfold Main.main_process, Main.get_last_crawled_title.
  destruct (Main.load_crawler_history st);
    try (apply Hw; apply within_refl).
  pose proof (pages_loop_within W
                (Dict.get_default d (py "last_crawled_title") VNone)
                max_pages 1 Main.initial_counters st) as P.
  destruct (Main.pages_loop W _ max_pages 1 Main.initial_counters st)
    as [[c|e] st1]; cbn [snd] in *; [|apply Hw; exact P].
  destruct (Main.first_article_title c) as [first|]; [|apply Hw; exact P].
  destruct ((0 <? Main.total_processed c)%nat && negb (Main.duplicate_found c));
    [|apply Hw; exact P].
  unfold Main.update_last_crawled_title.
  destruct (Main.load_crawler_history st1); try (apply Hw; exact P).
  cbn [snd]. apply Hw. eapply within_trans; [exact P|].
  exists [EvCursorSaved first]. split; [reflexivity | constructor].
Qed.

(** ** main.py: the shape of a generated identifier *)

Lemma take_digits_shape (n : nat) (s d r : pystr) :
  DT.take_digits n s = Some (d, r) ->
  length d = n /\ forallb Str.isdecimal d = true.
Proof.
  unfold DT.take_digits.
  destruct ((n <=? length s)%nat) eqn:El; [|discriminate]. cbn [andb].
  destruct (forallb Str.isdecimal (firstn n s)) eqn:Ed; [|discriminate].
  intros [= <- _]. split; [|exact Ed].
  apply firstn_length_le. apply Nat.leb_le. exact El.
Qed.

Lemma digits_1_2_shape (A : Type) (s : pystr) (k : pystr -> pystr -> option A)
    (x : A) :
  DT.digits_1_2 s k = Some x ->
  exists d r, k d r = Some x
              /\ (length d = 1%nat \/ length d = 2%nat)
              /\ forallb Str.isdecimal d = true.
Proof.
  unfold DT.digits_1_2. cbv zeta.
  assert (H1 : match DT.take_digits 1 s with
               | Some (d, r) => k d r
               | None => None
               end = Some x ->
               exists d r, k d r = Some x
                           /\ (length d = 1%nat \/ length d = 2%nat)
                           /\ forallb Str.isdecimal d = true).
  { destruct (DT.take_digits 1 s) as [[d r]|] eqn:E1; [|discriminate].
    intros Hk. destruct (take_digits_shape 1 s d r E1) as [Hl Hd].
    exists d, r. auto. }
  destruct (DT.take_digits 2 s) as [[d r]|] eqn:E2; [|exact H1].
  destruct (k d r) as [y|] eqn:Ek; [|exact H1].
  intros [= <-]. destruct (take_digits_shape 2 s d r E2) as [Hl Hd].
  exists d, r. auto.
Qed.

Lemma match_date_shape (s y m d : pystr) :
  DT.match_date s = Some (y, m, d) ->
  length y = 4%nat /\ forallb Str.isdecimal y = true
  /\ (length m = 1%nat \/ length m = 2%nat) /\ forallb Str.isdecimal m = true
  /\ (length d = 1%nat \/ length d = 2%nat) /\ forallb Str.isdecimal d = true.
Proof.
  unfold DT.match_date.
  destruct (DT.take_digits 4 s) as [[y0 r1]|] eqn:E4; [|discriminate].
  destruct (DT.dash r1) as [r2|]; [|discriminate].
  intros H. apply digits_1_2_shape in H.
  destruct H as (m0 & r3 & Hk & Hlm & Hdm).
  destruct (DT.dash r3) as [r4|]; [|discriminate].
  apply digits_1_2_shape in Hk. destruct Hk as (d0 & r5 & [= <- <- <-] & Hld & Hdd).
  destruct (take_digits_shape 4 s y0 r1 E4) as [Hly Hdy]. auto 10.
Qed.

Lemma search_date_shape (s y m d : pystr) :
  DT.search_date s = Some (y, m, d) ->
  length y = 4%nat /\ forallb Str.isdecimal y = true
  /\ (length m = 1%nat \/ length m = 2%nat) /\ forallb Str.isdecimal m = true
  /\ (length d = 1%nat \/ length d = 2%nat) /\ forallb Str.isdecimal d = true.
Proof.
  induction s as [|c s IH]; cbn [DT.search_date].
  - destruct (DT.match_date []) as [[[y0 m0] d0]|] eqn:E; [|discriminate].
    intros [= <- <- <-]. apply (match_date_shape [] _ _ _ E).
  - destruct (DT.match_date (c :: s)) as [[[y0 m0] d0]|] eqn:E; [|exact IH].
    intros [= <- <- <-]. apply (match_date_shape (c :: s) _ _ _ E).
Qed.

Lemma zfill_2_digits (m : pystr) :
  (length m = 1%nat \/ length m = 2%nat) ->
  forallb Str.isdecimal m = true ->
  length (Str.zfill 2 m) = 2%nat /\ forallb Str.isdecimal (Str.zfill 2 m) = true.
Proof.
  intros Hl Hd. destruct m as [|c m]; [cbn in Hl; lia|].
  cbn [forallb] in Hd. apply andb_true_iff in Hd. destruct Hd as [Hc Hm].
  assert (Hsign : N.eqb c 43 || N.eqb c 45 = false).
  { destruct (N.eqb c 43) eqn:E1; [apply N.eqb_eq in E1; subst; discriminate|].
    destruct (N.eqb c 45) eqn:E2; [apply N.eqb_eq in E2; subst; discriminate|].
    reflexivity. }
  unfold Str.zfill. rewrite Hsign.
  destruct m as [|c' [|c'' m]]; [| |cbn in Hl; lia];
    cbn [length Nat.sub repeat app forallb] in *; rewrite Hc, ?Hm;
    split; reflexivity.
Qed.

(** X26. The identifier that [save_to_es] generates, with its uploader
    built, for a record without identifier and without article id, when the
    date of the record holds a date YYYY-M-D: eleven characters, all of them
    decimal digits, the year first. *)
Theorem fallback_identifier_has_eleven_digits (W : World) (data : dict)
    (max_retries : nat) (x : Ext) (t d : pystr) (bytes : list Z)
    (y m dd : pystr) :
  built W ->
  (1 <= max_retries)%nat ->
  title_is data t ->
  Dict.get_default data Main.k_date (VStr []) = VStr d ->
  ~ pid_ok data ->
  truthy (Dict.get_default data (py "article_id") (VStr [])) = false ->
  Str.utf8_encode t = Some bytes ->
  DT.search_date d = Some (y, m, dd) ->
  exists pid,
    Dict.get (snd (fst (Main.save_to_es W data max_retries x))) Main.k_pid
    = Some (VStr pid)
    /\ length pid = 11%nat
    /\ forallb Str.isdecimal pid = true
    /\ firstn 4 pid = y.
Proof.
  intros Hbuilt Hn Ht Hd Hno Haid Hb Hs.
  destruct (md5_fallback W data max_retries x t d bytes Hbuilt Hn Ht Hd Hno Haid Hb)
    as (h & _ & Hpid).
  assert (Hda : date_after W (clock_reads x) d = d).
  { unfold date_after. pose proof (search_date_not_blank d _ Hs) as Hnb.
    apply nonempty_true in Hnb. rewrite Hnb. reflexivity. }
  rewrite Hda, (date_prefix_for_found W _ d y m dd Hs) in Hpid.
  destruct (search_date_shape d y m dd Hs) as (Hly & Hdy & Hlm & Hdm & Hld & Hdd).
  destruct (zfill_2_digits m Hlm Hdm) as [Hl2 Hd2].
  destruct (zfill_2_digits dd Hld Hdd) as [Hl3 Hd3].
  destruct (serial_shape h) as [Hl4 Hd4]. cbv zeta in Hl4, Hd4.
  eexists. split; [exact Hpid|]. split; [|split].
  - rewrite !length_app. lia.
  - rewrite !forallb_app, Hdy, Hd2, Hd3. cbn [andb].
    apply forallb_forall. intros c Hc. apply digit_isdecimal.
    rewrite forallb_forall in Hd4. apply Hd4. exact Hc.
  - rewrite <- !app_assoc. rewrite <- Hly. rewrite firstn_app, firstn_all.
    rewrite Nat.sub_diag. cbn [firstn]. apply app_nil_r.
Qed.

Lemma fallback_identifier_has_eleven_digits_witness :
  let r := Main.save_to_es (Fixture.world [] (Fixture.memory_es []) 1)
             [(py "title", VStr (py "X")); (py "date", VStr (py "2024-3-7"))]
             3 Fixture.fresh_ext in
  Dict.get (snd (fst r)) Main.k_pid = Some (VStr (py "20240307955"))
  /\ exists pid,
       Dict.get (snd (fst r)) Main.k_pid = Some (VStr pid)
       /\ length pid = 11%nat
       /\ forallb Str.isdecimal pid = true
       /\ firstn 4 pid = py "2024".
Proof.
  intros r. split; [vm_compute; reflexivity|].
  assert (Hb : exists bytes, Str.utf8_encode (py "X") = Some bytes)
    by (eexists; reflexivity).
  destruct Hb as [bytes Hb].
  apply (fallback_identifier_has_eleven_digits
           (Fixture.world [] (Fixture.memory_es []) 1)
           [(py "title", VStr (py "X")); (py "date", VStr (py "2024-3-7"))]
           3 Fixture.fresh_ext (py "X") (py "2024-3-7") bytes
           (py "2024") (py "3") (py "7")).
  - reflexivity.
  - lia.
  - split; [reflexivity | vm_compute; discriminate].
  - reflexivity.
  - intros (v & Hv & _). discriminate Hv.
  - reflexivity.
  - exact Hb.
  - reflexivity.
Defined.

(** ** main.py: retries after a failed refresh *)

Lemma attempts_failing_refresh (W : World) (n : nat) (t detail : pystr) :
  built W ->
  answers W (fun c => negb (is_refresh c)) ->
  (forall l, es W l (Refresh Main.index_name) = Failed detail) ->
  (forall l h, es W l (SearchTitle Main.index_name t) = Replied h ->
               (total h <= 0)%Z) ->
  forall (r : nat) (s : Main.SaveSt),
    settled (Main.sv_data s) t ->
    let a := Main.attempts W n (S r) s in
    fst a = mk_result code_N
              (MsgUploadFailed n (MsgUploadRaised (CollaboratorError detail)))
              None None
    /\ Main.sv_data (snd a) = Main.sv_data s
    /\ length (indexed_documents (es_log (Main.sv_ext (snd a))))
       = (S r + length (indexed_documents (es_log (Main.sv_ext s))))%nat.
Proof.
  intros Hbuilt Ha Hf Hno.
  assert (Hstep : forall last s,
             settled (Main.sv_data s) t ->
             exists log',
               Main.attempt_body W n last s
               = (Ok (if last
                      then Some (mk_result code_N
                                   (MsgUploadFailed n
                                      (MsgUploadRaised (CollaboratorError detail)))
                                   None None)
                      else None),
                  Main.mk_save (Main.sv_data s)
                               (mk_ext log' (clock_reads (Main.sv_ext s))))
               /\ length (indexed_documents log')
                  = S (length (indexed_documents (es_log (Main.sv_ext s))))).
  { intros last s Hs. rewrite (attempt_body_settled W n last s t Hbuilt Hs).
    destruct (Ha (es_log (Main.sv_ext s)) (SearchTitle Main.index_name t) eq_refl)
      as (h & Eh & _).
    rewrite Eh. pose proof (Hno _ _ Eh) as Hle.
    replace (total h >? 0)%Z with false
      by (symmetry; rewrite Z.gtb_ltb; apply Z.ltb_ge; exact Hle).
    rewrite upload_stage_spec. cbv zeta.
    assert (Hp : Dict.has (Main.cleaned_data_of (Main.sv_data (searched s t)))
                          (py "pid") = true).
    { destruct Hs as (_ & _ & v & Hv & Htr). unfold Dict.has, searched.
      cbn [Main.sv_data]. rewrite get_cleaned_data.
      change (py "pid") with Main.k_pid. rewrite Hv. reflexivity. }
    destruct (upload_with_failing_refresh W
                (Main.cleaned_data_of (Main.sv_data (searched s t)))
                Main.index_name (es_log (Main.sv_ext (searched s t))) detail
                Ha Hf Hp) as [Hr Hd].
    eexists. rewrite Hr. cbn [Result ESUploader.failure Message].
    split; [destruct last; reflexivity|].
    rewrite Hd. reflexivity. }
  induction r as [|r IH]; intros s Hs; cbv zeta; rewrite attempts_S.
  - destruct (Hstep true s Hs) as (log' & E & Hl). cbn [Nat.eqb]. rewrite E.
    cbn [fst snd Main.sv_data Main.sv_ext es_log]. auto.
  - destruct (Hstep false s Hs) as (log' & E & Hl). cbn [Nat.eqb]. rewrite E.
    destruct (IH (Main.mk_save (Main.sv_data s)
                    (mk_ext log' (clock_reads (Main.sv_ext s)))) Hs)
      as (I1 & I2 & I3).
    cbv zeta in I1, I2, I3. cbn [Main.sv_data Main.sv_ext es_log] in *.
    split; [exact I1|]. split; [exact I2|]. rewrite I3, Hl. lia.
Qed.

(** X27. Retries after a failed refresh. On a store that writes but cannot
    refresh, and whose title search finds nothing, [save_to_es] writes the
    record at every attempt, [max_retries] times in all, and answers N with
    "Upload failed after {max_retries} attempts" and the error of the
    refresh. The uploader is built, and the record has its title, date and
    identifier. *)
Theorem failed_refresh_is_retried_with_a_write (W : World) (data : dict)
    (max_retries : nat) (x : Ext) (t detail : pystr) :
  built W ->
  (1 <= max_retries)%nat ->
  settled data t ->
  answers W (fun c => negb (is_refresh c)) ->
  (forall l, es W l (Refresh Main.index_name) = Failed detail) ->
  (forall l h, es W l (SearchTitle Main.index_name t) = Replied h ->
               (total h <= 0)%Z) ->
  let r := Main.save_to_es W data max_retries x in
  fst (fst r)
  = mk_result code_N
      (MsgUploadFailed max_retries (MsgUploadRaised (CollaboratorError detail)))
      None None
  /\ snd (fst r) = data
  /\ length (indexed_documents (es_log (snd r)))
     = (max_retries + length (indexed_documents (es_log x)))%nat.
Proof.
  intros Hbuilt Hn Hs Ha Hf Hno r. subst r. unfold Main.save_to_es.
  destruct max_retries as [|n]; [lia|].
  destruct (attempts_failing_refresh W (S n) t detail Hbuilt Ha Hf Hno n
              (Main.mk_save data x) Hs) as (H1 & H2 & H3).
  cbv zeta in H1, H2, H3.
  destruct (Main.attempts W (S n) (S n) (Main.mk_save data x)) as [res s'].
  cbn [fst snd Main.sv_data Main.sv_ext] in *. auto.
Qed.

Lemma failed_refresh_is_retried_with_a_write_witness :
  let W := Fixture.world [] Scene.no_refresh_es 1 in
  let r := Main.save_to_es W Fixture.a_record 3 Fixture.fresh_ext in
  fst (fst r)
  = mk_result code_N
      (MsgUploadFailed 3 (MsgUploadRaised (CollaboratorError (py "refresh failed"))))
      None None
  /\ snd (fst r) = Fixture.a_record
  /\ length (indexed_documents (es_log (snd r))) = 3%nat.
Proof.
  intros W r.
  apply (failed_refresh_is_retried_with_a_write W Fixture.a_record 3
           Fixture.fresh_ext (py "X") (py "refresh failed")).
  - reflexivity.
  - lia.
  - split; [split; [reflexivity | vm_compute; discriminate]|].
    split.
    + exists (py "2024-01-05"). split; [reflexivity | vm_compute; discriminate].
    + exists (VStr (py "20240105123")). split; reflexivity.
  - apply no_refresh_es_answers.
  - reflexivity.
  - intros l h E. cbn in E. injection E as <-. cbn. lia.
Defined.
